(** * Resume generator: provider, prompt loader, parser and optimizer

    A shallow embedding of the Python package [resume_generator]:
    - [llm_utils/llm/providers/base.py] and [openai.py] (retry policy,
      the four completion methods of [OpenAIProvider]);
    - [llm_utils/prompts.py] ([PromptLoader]);
    - [llm_utils/utils.py] and [parser.py] ([ResumeParser]);
    - [optimizer.py] ([ResumeOptimizer]).

    Python code that raises is embedded in a state-and-exception monad:
    a computation takes the state and gives a [Result] together with the
    state it leaves behind, so that what a raising call did before it
    raised stays visible. *)

From Stdlib Require Import ZArith QArith Ascii.
From stdpp Require Import gmap strings list.

Set Default Proof Using "Type".
Open Scope string_scope.

(** ** Exceptions *)

(** The exception classes the code names or can meet.  The [openai]
    classes follow the hierarchy of the SDK; [base_class] is the direct
    base class, [Exception] being the root of the embedding: the four
    completion methods catch [Exception], so nothing outside it is
    modelled.  jinja2's [TemplateNotFound] has several bases, of which
    [LookupError] is kept. *)
Inductive ExcClass : Type :=
  | Exception
  | OpenAIError
  | APIError
  | APIResponseValidationError
  | APIStatusError
  | APIConnectionError
  | APITimeoutError
  | BadRequestError
  | AuthenticationError
  | PermissionDeniedError
  | NotFoundError
  | ConflictError
  | UnprocessableEntityError
  | RateLimitError
  | InternalServerError
  | LengthFinishReasonError
  | ContentFilterFinishReasonError
  | LLMError
  | RetryError
  | ValueError
  | AttributeError
  | IndexError
  | TypeError
  | LookupError
  | OSError
  | FileNotFoundError
  | FileDataError
  | RuntimeError
  | NotImplementedError
  | TemplateNotFound
  | TemplateError
  | TemplateSyntaxError
  | UndefinedError
  | UnicodeError
  | UnicodeDecodeError
  | UnicodeEncodeError.

#[global] Instance ExcClass_eq_dec : EqDecision ExcClass.
Proof. solve_decision. Defined.

Definition base_class (c : ExcClass) : option ExcClass :=
  match c with
  | Exception => None
  | OpenAIError => Some Exception
  | APIError => Some OpenAIError
  | APIResponseValidationError => Some APIError
  | APIStatusError => Some APIError
  | APIConnectionError => Some APIError
  | APITimeoutError => Some APIConnectionError
  | BadRequestError => Some APIStatusError
  | AuthenticationError => Some APIStatusError
  | PermissionDeniedError => Some APIStatusError
  | NotFoundError => Some APIStatusError
  | ConflictError => Some APIStatusError
  | UnprocessableEntityError => Some APIStatusError
  | RateLimitError => Some APIStatusError
  | InternalServerError => Some APIStatusError
  | LengthFinishReasonError => Some OpenAIError
  | ContentFilterFinishReasonError => Some OpenAIError
  | LLMError => Some Exception
  | RetryError => Some Exception
  | ValueError => Some Exception
  | AttributeError => Some Exception
  | IndexError => Some LookupError
  | TypeError => Some Exception
  | LookupError => Some Exception
  | OSError => Some Exception
  | FileNotFoundError => Some OSError
  | FileDataError => Some RuntimeError
  | RuntimeError => Some Exception
  | NotImplementedError => Some RuntimeError
  | TemplateNotFound => Some LookupError
  | TemplateError => Some Exception
  | TemplateSyntaxError => Some TemplateError
  | UndefinedError => Some TemplateError
  | UnicodeError => Some ValueError
  | UnicodeDecodeError => Some UnicodeError
  | UnicodeEncodeError => Some UnicodeError
  end.

(** [issubclass c t]: walk up from [c]; the hierarchy is five deep. *)
Fixpoint issubclass_upto (depth : nat) (c t : ExcClass) : bool :=
  if bool_decide (c = t) then true
  else match depth with
       | O => false
       | S d => match base_class c with
                | Some b => issubclass_upto d b t
                | None => false
                end
       end.

Definition issubclass (c t : ExcClass) : bool := issubclass_upto 6 c t.

(** An exception object: its class and [str(e)].  A [RetryError] keeps
    the exception of the last attempt, as tenacity's does. *)
Inductive Exc : Type :=
  | exc (cls : ExcClass) (msg : string)
  | retry_error (last_attempt : Exc).

Definition exc_class (e : Exc) : ExcClass :=
  match e with
  | exc c _ => c
  | retry_error _ => RetryError
  end.

Definition str (e : Exc) : string :=
  match e with
  | exc _ m => m
  | retry_error _ => "RetryError"
  end.

Definition isinstance (e : Exc) (t : ExcClass) : bool :=
  issubclass (exc_class e) t.

(** [isinstance(e, (t1, ..., tn))] *)
Definition isinstance_any (e : Exc) (ts : list ExcClass) : bool :=
  existsb (isinstance e) ts.

(** ** Results and the monad *)

Inductive Result (A : Type) : Type :=
  | Return (a : A)
  | Raise (e : Exc).
Arguments Return {A} a.
Arguments Raise {A} e.

Definition M (S A : Type) : Type := S -> Result A * S.

Definition ret {S A} (a : A) : M S A := fun s => (Return a, s).

Definition raise {S A} (e : Exc) : M S A := fun s => (Raise e, s).

Definition bind {S A B} (c : M S A) (k : A -> M S B) : M S B :=
  fun s =>
    match c s with
    | (Return a, s') => k a s'
    | (Raise e, s') => (Raise e, s')
    end.

Definition get {S} : M S S := fun s => (Return s, s).

Definition modify {S} (f : S -> S) : M S unit := fun s => (Return tt, f s).

(** A pure computation that may raise. *)
Definition lift_result {S A} (r : Result A) : M S A := fun s => (r, s).

(** Run a computation on one component of a pair, the other being the
    object ([self]) the caller holds. *)
Definition on_snd {O S A} (c : M S A) : M (O * S) A :=
  fun '(o, s) => let '(r, s') := c s in (r, (o, s')).

Declare Scope py_scope.
Delimit Scope py_scope with py.
Notation "x <- c1 ;; c2" := (bind c1 (fun x => c2))
  (at level 100, c1 at next level, right associativity) : py_scope.
Notation "c1 ;; c2" := (bind c1 (fun _ => c2))
  (at level 100, right associativity) : py_scope.
Open Scope py_scope.

(** ** Schema models ([models/resume.py]) *)

Record PersonalInfo : Type := {
  name : string;
  email : string;
  phone : string;
  pi_location : string;
  linkedin : option string;
}.

Record Experience : Type := {
  company : string;
  title : string;
  ex_duration : string;
  ex_location : string;
  achievements : list string;
}.

Record Education : Type := {
  degree : string;
  institution : string;
  ed_duration : string;
  gpa : option string;
}.

Record Skills : Type := {
  professional : list string;
  tools : list string;
  soft_skills : list string;
}.

Record Project : Type := {
  pr_name : string;
  description : string;
  methodologies : list string;
  link : option string;
}.

Record Resume : Type := {
  personal_info : PersonalInfo;
  summary : string;
  experience : list Experience;
  education : list Education;
  skills : Skills;
  projects : list Project;
}.

(** The classes passed as [response_format]; [ResumeSchema] is the class
    [Resume] itself. *)
Inductive Schema : Type :=
  | JobAnalysis
  | GapAnalysis
  | ContentPrioritization
  | OptimizedResume
  | ResumeSchema.

#[global] Instance Schema_eq_dec : EqDecision Schema.
Proof. solve_decision. Defined.

(** An instance of one of the schema classes, as the SDK hands it back
    in [message.parsed]: a [Resume] in full, the others by their dump. *)
Inductive ModelObject : Type :=
  | resume_object (r : Resume)
  | other_object (schema : Schema) (dump : string).

(** ** Chat messages, requests and responses *)

Inductive ContentPart : Type :=
  | text_part (text : string)
  | image_url_part (url : string).

(** The value under ["content"]: a string, [None], or a list of parts. *)
Inductive Content : Type :=
  | content_str (s : string)
  | content_none
  | content_parts (parts : list ContentPart).

(** The dict [{"role": ..., "content": ...}]. *)
Record ChatMessage : Type := {
  role : string;
  content : Content;
}.

(** [ParsedChatCompletionMessage] *)
Record Message : Type := {
  message_content : option string;
  parsed : option ModelObject;
  refusal : option string;
}.

Record Choice : Type := { message : Message }.

Record Completion : Type := { choices : list Choice }.

Inductive Endpoint : Type :=
  | chat_completions_create
  | beta_chat_completions_parse.

(** What reaches the SDK: the endpoint, the client (sync or async), the
    [response_format] of [parse], and the [params] dict. *)
Record Params : Type := {
  p_model : string;
  p_messages : list ChatMessage;
  p_temperature : Q;
  p_max_tokens : option Z;
}.

Record Request : Type := {
  endpoint : Endpoint;
  async_client : bool;
  response_format : option Schema;
  params : Params;
}.

(** ** Files, pages and images *)

Definition Page : Type := string.

(** What a path holds: a directory, a regular file whose bytes decode
    to [text], or a regular file that holds a PDF, whose bytes do not
    decode. *)
Inductive Node : Type :=
  | Dir
  | File (text : string)
  | PdfFile (pages : list Page).

Record Pixmap : Type := {
  width : Z;
  height : Z;
  samples : string;
}.

(** [PIL.Image.frombytes(mode, size, data)] *)
Record Image : Type := {
  im_mode : string;
  im_size : Z * Z;
  im_data : string;
}.

(** ** The environment

    What the package reaches for outside its own code.  None of it is
    changed by the code embedded here.
    - [fs]: the file system, by path;
    - [module_dir]: [Path(__file__).parent] of [llm_utils/prompts.py], as
      a string;
    - [api_key_env]: the environment variable [OPENAI_API_KEY], if set;
    - [class_attribute]: whether the running Python finds the name on the
      class [PromptLoader] or on [object] (the methods and the special
      names), so that [__getattr__] is not called for it;
    - [compile_source]: jinja2 compiling a template source: [None] when
      it compiles, else the exception raised, a [TemplateSyntaxError]
      for one;
    - [render_source]: jinja2's rendering of a template source with
      keyword arguments ([None] for a Python [None]): the text, or the
      exception raised, an [UndefinedError] for one;
    - [sdk]: what the OpenAI service answers to a request, given the
      requests it has received before;
    - [get_pixmap]: PyMuPDF's [page.get_pixmap] at a zoom factor;
    - [save_jpeg], [b64encode]: PIL's JPEG encoder and [base64.b64encode];
    - [model_dump_json]: pydantic's [Resume.model_dump_json(indent)];
    - [yaml_dump]: [yaml.dump] of [model_dump(mode="python")]. *)
Record Env : Type := {
  fs : string -> option Node;
  module_dir : string;
  api_key_env : option string;
  class_attribute : string -> bool;
  compile_source : string -> option Exc;
  render_source : string -> list (string * option string) -> Result string;
  sdk : list Request -> Request -> Result Completion;
  get_pixmap : Page -> Q -> Pixmap;
  save_jpeg : Image -> string;
  b64encode : string -> string;
  model_dump_json : Resume -> Z -> string;
  yaml_dump : Message -> string;
}.

(** ** The mutable world

    - [heap]: the [Resume] objects the caller holds, by reference;
    - [api_calls]: the requests sent to the service so far, oldest first;
    - [sleeps]: the waits tenacity has slept, in seconds, oldest first;
    - [log]: what [logger.info] has written;
    - [template_loads]: the template names jinja2 was asked to load. *)
Record World : Type := {
  heap : gmap nat Resume;
  api_calls : list Request;
  sleeps : list Z;
  log : list string;
  template_loads : list string;
}.

Definition record_call (rq : Request) (w : World) : World :=
  {| heap := heap w; api_calls := api_calls w ++ [rq]; sleeps := sleeps w;
     log := log w; template_loads := template_loads w |}.

Definition record_sleep (seconds : Z) (w : World) : World :=
  {| heap := heap w; api_calls := api_calls w; sleeps := sleeps w ++ [seconds];
     log := log w; template_loads := template_loads w |}.

Definition record_log (line : string) (w : World) : World :=
  {| heap := heap w; api_calls := api_calls w; sleeps := sleeps w;
     log := log w ++ [line]; template_loads := template_loads w |}.

Definition record_load (file : string) (w : World) : World :=
  {| heap := heap w; api_calls := api_calls w; sleeps := sleeps w;
     log := log w; template_loads := template_loads w ++ [file] |}.

(** ** tenacity's [retry]

    The three ingredients the code configures, and the loop of
    [Retrying.__call__] (tenacity 8.1 and later): call; return a result
    at once; on an exception that the [retry] predicate rejects, let it
    through; otherwise stop with a [RetryError] when [stop] says so, else
    sleep [wait] seconds and call again.  Attempts are numbered from 1.
    Both decorators of the package stop with [stop_after_attempt(n)],
    which holds from attempt [n] on, so a policy keeps that [n]. *)
Module Tenacity.

Record RetryPolicy : Type := {
  retry_if : Exc -> bool;
  wait : nat -> Z;
  stop_after : nat;
}.

Definition retry_if_exception_type (types : list ExcClass) : Exc -> bool :=
  fun e => isinstance_any e types.

(** [max(max(0, min), min(multiplier * 2 ** (attempt_number - 1), max))] *)
Definition wait_exponential (multiplier min max : Z) : nat -> Z :=
  fun attempt_number =>
    let result := (multiplier * 2 ^ (Z.of_nat attempt_number - 1))%Z in
    Z.max (Z.max 0 min) (Z.min result max).

(** The loop, from attempt [attempt_number] on.  [remaining] is the
    number of attempts left after this one: at 0 the attempt number has
    reached [stop_after] and [stop_after_attempt] holds. *)
Fixpoint attempts {A} (policy : RetryPolicy) (remaining attempt_number : nat)
    (fn : M World A) : M World A :=
  fun w =>
    match fn w with
    | (Return a, w') => (Return a, w')
    | (Raise e, w') =>
        if negb (retry_if policy e) then (Raise e, w')
        else match remaining with
             | O => (Raise (retry_error e), w')
             | S r =>
                 attempts policy r (S attempt_number) fn
                   (record_sleep (wait policy attempt_number) w')
             end
    end.

(** [retry(retry=..., wait=..., stop=stop_after_attempt(n))(fn)] *)
Definition retry {A} (policy : RetryPolicy) (fn : M World A) : M World A :=
  attempts policy (stop_after policy - 1) 1 fn.

End Tenacity.

(** ** [llm_utils/llm/providers/base.py] and [openai.py] *)
Module Providers.
Import Tenacity.

Definition get_default_retry_decorator : RetryPolicy :=
  {| retry_if := retry_if_exception_type [Exception];
     wait := wait_exponential 1 4 60;
     stop_after := 5 |}.

Definition get_openai_retry_decorator : RetryPolicy :=
  {| retry_if :=
       retry_if_exception_type [RateLimitError; APIError; APIConnectionError];
     wait := wait_exponential 1 4 60;
     stop_after := 5 |}.

(** The arguments of a completion method. *)
Record CallArgs : Type := {
  messages : list ChatMessage;
  model : string;
  temperature : Q;
  max_tokens : option Z;
}.

(** A provider instance.  [chat_completion] and [achat_completion] are
    the instance attributes that [BaseProvider.__init__] assigns; the
    structured methods stay the functions of the class. *)
Record OpenAIProvider : Type := {
  _retry_decorator : RetryPolicy;
  chat_completion : CallArgs -> M World Completion;
  achat_completion : CallArgs -> M World Completion;
}.

(** [BaseProvider.__init__]: choose the decorator and wrap the two
    methods [chat_completion] and [achat_completion] with it, and no
    other.  The coroutine method is taken to be retried as the
    synchronous one is. *)
Definition BaseProvider__init__ (retry_decorator : option RetryPolicy)
    (chat achat : CallArgs -> M World Completion) : OpenAIProvider :=
  let d := default get_default_retry_decorator retry_decorator in
  {| _retry_decorator := d;
     chat_completion := fun a => retry d (chat a);
     achat_completion := fun a => retry d (achat a) |}.

(** Modelled from the spec: [log_execution] is declared in
    [llm_utils/logger.py], which is not among the sources.  The spec
    gives the provider layer retry and structured responses and nothing
    else, so the decorator is taken to log and to hand through what the
    decorated call returns or raises. *)
Definition log_execution {A} (fn : M World A) : M World A := fn.

Definition _prepare_params (a : CallArgs) : Params :=
  {| p_model := model a;
     p_messages := messages a;
     p_temperature := temperature a;
     p_max_tokens := match max_tokens a with
                     | Some n => if bool_decide (n = 0%Z) then None else Some n
                     | None => None
                     end |}.

(** [l[0]] *)
Definition index0 {S A} (l : list A) : M S A :=
  match l with
  | x :: _ => ret x
  | [] => raise (exc IndexError "list index out of range")
  end.

(** The clause pair that closes each method:
    [except (openai.RateLimitError, openai.APIError,
    openai.APIConnectionError) as e: raise e] and
    [except Exception as e: raise LLMError(...)]. *)
Definition reraise_or_wrap {A} (body : M World A) : M World A :=
  fun w =>
    match body w with
    | (Return a, w') => (Return a, w')
    | (Raise e, w') =>
        if isinstance_any e [RateLimitError; APIError; APIConnectionError]
        then (Raise e, w')
        else (Raise (exc LLMError ("Error calling OpenAI API: " +:+ str e)), w')
    end.

(** A coroutine object: a computation not yet run. *)
Inductive Coroutine (A : Type) : Type :=
  | coroutine (body : M World A).
Arguments coroutine {A} body.

Definition await {A} (co : Coroutine A) : M World A :=
  match co with coroutine body => body end.

(** [co.attr] on a coroutine object. *)
Definition coroutine_getattr {A B} (co : Coroutine A) (attr : string) : M World B :=
  raise (exc AttributeError
           ("'coroutine' object has no attribute '" +:+ attr +:+ "'")).

(** [await x] on a value that is no awaitable. *)
Definition await_value {A B} (x : A) : M World B :=
  raise (exc TypeError "object can't be used in 'await' expression").

Section WithEnv.
Variable E : Env.

(** The service receives the request and answers. *)
Definition send (rq : Request) : M World Completion :=
  fun w => (sdk E (api_calls w) rq, record_call rq w).

(** [self.sync_client.chat.completions.create(params)] *)
Definition sync_create (p : Params) : M World Completion :=
  send {| endpoint := chat_completions_create; async_client := false;
          response_format := None; params := p |}.

(** [self.async_client.chat.completions.create(params)] *)
Definition async_create (p : Params) : Coroutine Completion :=
  coroutine
    (send {| endpoint := chat_completions_create; async_client := true;
             response_format := None; params := p |}).

(** [self.sync_client.beta.chat.completions.parse(response_format, params)] *)
Definition sync_parse (fmt : option Schema) (p : Params) : M World Completion :=
  send {| endpoint := beta_chat_completions_parse; async_client := false;
          response_format := fmt; params := p |}.

(** [self.async_client.beta.chat.completions.parse(response_format, params)] *)
Definition async_parse (fmt : option Schema) (p : Params) : Coroutine Completion :=
  coroutine
    (send {| endpoint := beta_chat_completions_parse; async_client := true;
             response_format := fmt; params := p |}).

(** The method [OpenAIProvider.chat_completion] of the class. *)
Definition chat_completion_method (a : CallArgs) : M World Completion :=
  log_execution
    (reraise_or_wrap
       (let params := _prepare_params a in
        sync_create params)).

(** The method [OpenAIProvider.achat_completion] of the class, awaited. *)
Definition achat_completion_method (a : CallArgs) : M World Completion :=
  log_execution
    (reraise_or_wrap
       (let params := _prepare_params a in
        await (async_create params))).

Definition structured_chat_completion
    (a : CallArgs) (fmt : option Schema) : M World Message :=
  log_execution
    (reraise_or_wrap
       (let params := _prepare_params a in
        c <- sync_parse fmt params;;
        ch <- index0 (choices c);;
        ret (message ch))).

(** [await] takes a whole primary: in
    [await self.async_client.beta.chat.completions.parse(...).choices[0].message]
    the attribute [choices] is read on the coroutine object that
    [parse(...)] returns, before anything is awaited. *)
Definition astructured_chat_completion
    (a : CallArgs) (fmt : option Schema) : M World Message :=
  log_execution
    (reraise_or_wrap
       (let params := _prepare_params a in
        let co := async_parse fmt params in
        chs <- coroutine_getattr (B := list Choice) co "choices";;
        ch <- index0 chs;;
        await_value (message ch))).

(** [OpenAI(api_key=api_key)] and [AsyncOpenAI(api_key=api_key)]: the
    client takes the key given, else the one of the environment, and
    raises when there is neither. *)
Definition make_client (api_key : option string) : M World unit :=
  match api_key, api_key_env E with
  | None, None =>
      raise (exc OpenAIError
               "The api_key client option must be set either by passing api_key to the client or by setting the OPENAI_API_KEY environment variable")
  | _, _ => ret tt
  end.

(** [OpenAIProvider.__init__(api_key=None, retry_decorator=None)]: the
    base class wraps the two methods, then the two clients are made. *)
Definition OpenAIProvider__init__ (api_key : option string)
    (retry_decorator : option RetryPolicy) : M World OpenAIProvider :=
  let self :=
    BaseProvider__init__
      (Some (default get_openai_retry_decorator retry_decorator))
      chat_completion_method achat_completion_method in
  make_client api_key;;
  make_client api_key;;
  ret self.

End WithEnv.

End Providers.

(** ** [llm_utils/prompts.py] *)
Module Prompts.

(** *** Paths

    [pathlib] and jinja2's file loader take a path apart at its slashes.
    A path is kept as Python keeps it: the root and the parts below it. *)

(** [s.split("/")], with [piece] the piece under way. *)
Fixpoint split_from (piece s : string) : list string :=
  match s with
  | EmptyString => [piece]
  | String c rest =>
      if Ascii.eqb c "/"%char then piece :: split_from "" rest
      else split_from (piece +:+ String c "") rest
  end.

Definition split_slash (s : string) : list string := split_from "" s.

(** Both libraries drop the empty pieces and the pieces ["."]. *)
Definition kept (piece : string) : bool :=
  negb (String.eqb piece "" || String.eqb piece ".").

(** ["/".join(pieces)] *)
Fixpoint join_slash (pieces : list string) : string :=
  match pieces with
  | [] => ""
  | [p] => p
  | p :: rest => p +:+ "/" +:+ join_slash rest
  end.

(** A [pathlib.PurePosixPath]. *)
Record Path : Type := {
  root : string;
  parts : list string;
}.

(** The root of a path string: two leading slashes are kept as they
    are, one or more than two are one. *)
Definition root_of (s : string) : string :=
  match s with
  | String "/"%char (String "/"%char (String "/"%char _)) => "/"
  | String "/"%char (String "/"%char _) => "//"
  | String "/"%char _ => "/"
  | _ => ""
  end.

(** [Path(s)] *)
Definition Path_ (s : string) : Path :=
  {| root := root_of s; parts := List.filter kept (split_slash s) |}.

(** [p / s]: an absolute right operand replaces the left one. *)
Definition path_div (p : Path) (s : string) : Path :=
  let q := Path_ s in
  if String.eqb (root q) ""
  then {| root := root p; parts := parts p ++ parts q |}
  else q.

(** [str(p)], which is also [os.fspath(p)]. *)
Definition fspath (p : Path) : string :=
  match parts p with
  | [] => if String.eqb (root p) "" then "." else root p
  | _ => root p +:+ join_slash (parts p)
  end.

(** jinja2's [split_template_path]: a piece [".."] makes the template
    one that is not found. *)
Definition split_template_path (template : string) : option (list string) :=
  let pieces := split_slash template in
  if existsb (String.eqb "..") pieces then None
  else Some (List.filter kept pieces).

Fixpoint ends_with_slash (s : string) : bool :=
  match s with
  | EmptyString => false
  | String c EmptyString => Ascii.eqb c "/"%char
  | String _ rest => ends_with_slash rest
  end.

(** [posixpath.join(a, b)] for a [b] that does not start with a slash. *)
Definition posix_join2 (a b : string) : string :=
  if String.eqb a "" || ends_with_slash a then a +:+ b else a +:+ "/" +:+ b.

(** [posixpath.join(searchpath, *pieces)] *)
Definition posix_join (searchpath : string) (pieces : list string) : string :=
  fold_left posix_join2 pieces searchpath.

(** *** Templates and loaders *)

(** A loaded [jinja2.Template].  [template_id] tells objects apart: it
    is the number of loads that came before the one that built it. *)
Record Template : Type := {
  template_id : nat;
  filename : string;
  source : string;
}.

(** [jinja2.Environment(loader=FileSystemLoader(searchpath),
    trim_blocks=True, lstrip_blocks=True)] *)
Record Environment : Type := {
  searchpath : string;
  trim_blocks : bool;
  lstrip_blocks : bool;
}.

(** A [PromptLoader]; [self.template_loader] is the loader inside
    [template_env]. *)
Record PromptLoader : Type := {
  subfolder : string;
  template_path : Path;
  template_env : Environment;
  _templates : gmap string Template;
}.

Definition set_templates (t : gmap string Template) (self : PromptLoader) : PromptLoader :=
  {| subfolder := subfolder self; template_path := template_path self;
     template_env := template_env self; _templates := t |}.

(** The attributes that [__init__] sets on the instance. *)
Definition instance_attributes : list string :=
  ["subfolder"; "template_path"; "template_loader"; "template_env"; "_templates"].

(** What an attribute access on a loader can give. *)
Inductive Attribute : Type :=
  | attr_subfolder (s : string)
  | attr_template_path (p : Path)
  | attr_template_loader (searchpath : string)
  | attr_template_env (env : Environment)
  | attr_templates (cache : gmap string Template)
  | attr_of_class (name : string)
  | attr_template (t : Template).

Section WithEnv.
Variable E : Env.

Definition DEFAULT_PROMPTS_PATH : Path :=
  path_div (Path_ (module_dir E)) "prompt_templates".

(** [Path.exists()] and [os.path.exists] *)
Definition exists_ (p : string) : bool :=
  match fs E p with Some _ => true | None => false end.

(** [Environment.get_template(name)] with a [FileSystemLoader]: the
    pieces of the name are joined to the search path; what is no regular
    file there is not found; a file that is found is read, decoded and
    compiled, each of which can raise. *)
Definition get_template (env : Environment) (file : string) : M World Template :=
  fun w =>
    (match split_template_path file with
     | None => Raise (exc TemplateNotFound file)
     | Some pieces =>
         match fs E (posix_join (searchpath env) pieces) with
         | Some (File src) =>
             match compile_source E src with
             | None => Return {| template_id := length (template_loads w);
                                 filename := file; source := src |}
             | Some e => Raise e
             end
         | Some (PdfFile _) =>
             Raise (exc UnicodeDecodeError "'utf-8' codec can't decode byte")
         | _ => Raise (exc TemplateNotFound file)
         end
     end,
     record_load file w).

(** [Template.render] with its keyword arguments *)
Definition render {S} (t : Template) (kwargs : list (string * option string)) : M S string :=
  lift_result (render_source E (source t) kwargs).

Definition __init__ (subfolder : string) : M World PromptLoader :=
  let template_path := path_div DEFAULT_PROMPTS_PATH subfolder in
  if negb (exists_ (fspath template_path))
  then raise (exc ValueError
                ("Subfolder '" +:+ subfolder +:+
                 "' does not exist in prompts directory"))
  else ret {| subfolder := subfolder;
              template_path := template_path;
              template_env := {| searchpath := fspath DEFAULT_PROMPTS_PATH;
                                 trim_blocks := true;
                                 lstrip_blocks := true |};
              _templates := ∅ |}.

(** The [try] of [__getattr__]: load, store under the name; a
    [TemplateNotFound] becomes an [AttributeError], any other exception
    passes. *)
Definition load_into_cache (template_name : string) : M (PromptLoader * World) unit :=
  fun '(self, w) =>
    let template_file := subfolder self +:+ "/" +:+ template_name +:+ ".jinja" in
    match get_template (template_env self) template_file w with
    | (Return t, w') =>
        (Return tt, (set_templates (<[template_name := t]> (_templates self)) self, w'))
    | (Raise e, w') =>
        if isinstance e TemplateNotFound
        then (Raise (exc AttributeError
                       ("No template file '" +:+ template_name +:+
                        ".jinja' found in '" +:+ subfolder self +:+
                        "' subfolder")),
              (self, w'))
        else (Raise e, (self, w'))
    end.

(** [PromptLoader.__getattr__], which Python calls for a name that is
    no attribute of the instance or of the class. *)
Definition __getattr__ (template_name : string) : M (PromptLoader * World) Template :=
  st <- get;;
  (if bool_decide (_templates (fst st) !! template_name = None)
   then load_into_cache template_name
   else ret tt);;
  st <- get;;
  match _templates (fst st) !! template_name with
  | Some t => ret t
  | None => raise (exc LookupError template_name)
  end.

(** The attribute of that name which the instance itself holds. *)
Definition instance_attribute (self : PromptLoader) (name : string) : option Attribute :=
  if String.eqb name "subfolder" then Some (attr_subfolder (subfolder self))
  else if String.eqb name "template_path" then Some (attr_template_path (template_path self))
  else if String.eqb name "template_loader"
  then Some (attr_template_loader (searchpath (template_env self)))
  else if String.eqb name "template_env" then Some (attr_template_env (template_env self))
  else if String.eqb name "_templates" then Some (attr_templates (_templates self))
  else None.

(** [loader.name], that is [getattr(loader, name)]: Python looks on the
    instance, then on the class, and calls [__getattr__] when neither
    has the name. *)
Definition getattr (name : string) : M (PromptLoader * World) Attribute :=
  st <- get;;
  match instance_attribute (fst st) name with
  | Some a => ret a
  | None =>
      if class_attribute E name then ret (attr_of_class name)
      else t <- __getattr__ name;; ret (attr_template t)
  end.

End WithEnv.

End Prompts.

(** ** [llm_utils/utils.py] *)
Module Utils.
Import Prompts.

Section WithEnv.
Variable E : Env.

(** [fitz.open(path)] and the pages of the document. *)
Definition fitz_open (pdf_path : string) : M World (list Page) :=
  match fs E pdf_path with
  | Some (PdfFile pages) => ret pages
  | _ => raise (exc FileDataError ("Failed to open file " +:+ pdf_path))
  end.

(** The body of the [for] loop for one page. *)
Definition page_to_image (dpi : Z) (page : Page) : Image :=
  let zoom := Qmake dpi 72 in
  let pixmap := get_pixmap E page zoom in
  {| im_mode := "RGB";
     im_size := (width pixmap, height pixmap);
     im_data := samples pixmap |}.

(** [for page_number in range(pdf_document.page_count)]: index the
    document, render, append. *)
Definition pages_loop (dpi : Z) (pdf_document : list Page) : list Image :=
  fold_left
    (fun images page_number =>
       match pdf_document !! page_number with
       | Some page => (images ++ [page_to_image dpi page])%list
       | None => images
       end)
    (seq 0 (length pdf_document)) [].

Definition pdf_to_images (pdf_path : string) (dpi : Z) : M World (list Image) :=
  let pdf_path := Path_ pdf_path in
  if negb (exists_ E (fspath pdf_path))
  then raise (exc FileNotFoundError ("PDF file not found: " +:+ fspath pdf_path))
  else
    pdf_document <- fitz_open (fspath pdf_path);;
    ret (pages_loop dpi pdf_document).

Definition image_to_base64 (image : Image) : string :=
  let img_str := b64encode E (save_jpeg E image) in
  "data:image/jpeg;base64," +:+ img_str.

End WithEnv.

End Utils.

(** ** [parser.py] *)
Module Parser.
Import Tenacity Providers Prompts Utils.

Record ResumeParser : Type := {
  llm : OpenAIProvider;
  prompts : PromptLoader;
  model : string;
}.

Definition set_prompts (p : PromptLoader) (self : ResumeParser) : ResumeParser :=
  {| llm := llm self; prompts := p; model := model self |}.

(** Run a loader method on [self.prompts]. *)
Definition with_prompts {A} (c : M (PromptLoader * World) A) : M (ResumeParser * World) A :=
  fun '(self, w) =>
    let '(r, (p, w')) := c (prompts self, w) in (r, (set_prompts p self, w')).

Section WithEnv.
Variable E : Env.

Definition __init__ (model : string) : M World ResumeParser :=
  llm <- OpenAIProvider__init__ E None None;;
  p <- Prompts.__init__ E "extraction";;
  ret {| llm := llm; prompts := p; model := model |}.

Definition image_entry (img : string) : ContentPart := image_url_part img.

Definition _llm_parser (base64_images : list string)
    : M (ResumeParser * World) (option ModelObject) :=
  system <- with_prompts (__getattr__ E "system");;
  system_prompt <- render E system [];;
  user <- with_prompts (__getattr__ E "user");;
  user_prompt <- render E user [];;
  st <- get;;
  response <-
    on_snd
      (structured_chat_completion E
         {| messages :=
              [ {| role := "system";
                   content := content_str system_prompt |};
                {| role := "user";
                   content :=
                     content_parts
                       (text_part user_prompt
                          :: map image_entry base64_images) |} ];
            Providers.model := model (fst st);
            temperature := 2 # 10;
            max_tokens := None |}
         (Some ResumeSchema));;
  ret (parsed response).

Definition parse_resume (pdf_path : string)
    : M (ResumeParser * World) (option ModelObject) :=
  images <- on_snd (pdf_to_images E pdf_path 300);;
  let base64_images := map (image_to_base64 E) images in
  response <- _llm_parser base64_images;;
  ret response.

End WithEnv.

End Parser.

(** ** [optimizer.py] *)
Module Optimizer.
Import Tenacity Providers Prompts.

Record ResumeOptimizer : Type := {
  llm : OpenAIProvider;
  prompts : PromptLoader;
  model : string;
  messages : list ChatMessage;
}.

Definition set_prompts (p : PromptLoader) (self : ResumeOptimizer) : ResumeOptimizer :=
  {| llm := llm self; prompts := p; model := model self; messages := messages self |}.

(** [self.messages.append(m)] *)
Definition append_message (m : ChatMessage) (self : ResumeOptimizer) : ResumeOptimizer :=
  {| llm := llm self; prompts := prompts self; model := model self;
     messages := messages self ++ [m] |}.

Definition modify_self {A} (f : A -> A) : M (A * World) unit :=
  modify (fun '(self, w) => (f self, w)).

(** Run a loader method on [self.prompts]. *)
Definition with_prompts {A} (c : M (PromptLoader * World) A) : M (ResumeOptimizer * World) A :=
  fun '(self, w) =>
    let '(r, (p, w')) := c (prompts self, w) in (r, (set_prompts p self, w')).

(** The value stored under ["content"] for [assistant_message.content]. *)
Definition content_of (c : option string) : Content :=
  match c with
  | Some s => content_str s
  | None => content_none
  end.

(** [current_resume.model_dump_json]: the caller's object is reached
    through its reference.  A reference that holds no [Resume] stands
    for an argument that is none, which has no such attribute. *)
Definition deref {O} (current_resume : nat) : M (O * World) Resume :=
  fun '(self, w) =>
    match heap w !! current_resume with
    | Some r => (Return r, (self, w))
    | None =>
        (Raise (exc AttributeError
                  "object has no attribute 'model_dump_json'"), (self, w))
    end.

Section WithEnv.
Variable E : Env.

(** The loader is the attribute [self.prompts] while the system
    template is loaded and rendered; an exception leaves no instance. *)
Definition __init__ (model : string) : M World ResumeOptimizer :=
  llm <- OpenAIProvider__init__ E None None;;
  p <- Prompts.__init__ E "optimization";;
  fun w1 =>
    match (system <- __getattr__ E "system";; render E system []) (p, w1) with
    | (Raise e, (_, w2)) => (Raise e, w2)
    | (Return system_prompt, (p', w2)) =>
        (Return {| llm := llm;
                   prompts := p';
                   model := model;
                   messages :=
                     [ {| role := "system";
                          content := content_str system_prompt |} ] |},
         w2)
    end.

Definition _chat_completion (message : string) (response_format : option Schema)
    : M (ResumeOptimizer * World) Message :=
  modify_self (append_message {| role := "user"; content := content_str message |});;
  st <- get;;
  assistant_message <-
    on_snd
      (structured_chat_completion E
         {| Providers.messages := messages (fst st);
            Providers.model := model (fst st);
            temperature := 3 # 10;
            max_tokens := None |}
         response_format);;
  modify_self
    (append_message
       {| role := "assistant";
          content := content_of (message_content assistant_message) |});;
  ret assistant_message.

Definition stage_1 (job_description : string) (user_preferences : option string)
    : M (ResumeOptimizer * World) Message :=
  t <- with_prompts (__getattr__ E "stage_1");;
  prompt <-
    render E t [("job_description", Some job_description);
                ("user_preferences", user_preferences)];;
  _chat_completion prompt (Some JobAnalysis).

Definition stage_2 (current_resume : nat) : M (ResumeOptimizer * World) Message :=
  t <- with_prompts (__getattr__ E "stage_2");;
  r <- deref current_resume;;
  prompt <-
    render E t [("current_resume_json", Some (model_dump_json E r 2))];;
  _chat_completion prompt (Some GapAnalysis).

Definition stage_3 : M (ResumeOptimizer * World) Message :=
  t <- with_prompts (__getattr__ E "stage_3");;
  prompt <- render E t [];;
  _chat_completion prompt (Some ContentPrioritization).

Definition stage_4 : M (ResumeOptimizer * World) Message :=
  t <- with_prompts (__getattr__ E "stage_4");;
  prompt <- render E t [];;
  _chat_completion prompt (Some OptimizedResume).

Definition stage_5 : M (ResumeOptimizer * World) Message :=
  t <- with_prompts (__getattr__ E "stage_5");;
  prompt <- render E t [];;
  output <- _chat_completion prompt (Some ResumeSchema);;
  ret output.

Definition print_as_yaml (model_object : Message) : M (ResumeOptimizer * World) unit :=
  let yaml_str := yaml_dump E model_object in
  on_snd (modify (record_log yaml_str)).

Definition optimize_resume (job_description : string) (current_resume : nat)
    (user_preferences : option string) : M (ResumeOptimizer * World) Message :=
  job_analysis <- stage_1 job_description user_preferences;;
  print_as_yaml job_analysis;;
  gap_analysis <- stage_2 current_resume;;
  print_as_yaml gap_analysis;;
  content_prioritization <- stage_3;;
  print_as_yaml content_prioritization;;
  optimized_resume <- stage_4;;
  print_as_yaml optimized_resume;;
  final_resume <- stage_5;;
  print_as_yaml final_resume;;
  ret final_resume.

End WithEnv.

End Optimizer.

(** ** Vocabulary of the statements *)
Module Vocabulary.
Import Tenacity Providers Prompts.

(** The tuple named by the retry decorator and by the [except] clauses. *)
Definition transient (e : Exc) : bool :=
  isinstance_any e [RateLimitError; APIError; APIConnectionError].

(** [LLMError(f"Error calling OpenAI API: {str(e)}")] *)
Definition wrapped (e : Exc) : Exc :=
  exc LLMError ("Error calling OpenAI API: " +:+ str e).

(** What a completion method raises for an exception of its [try] body. *)
Definition translated (e : Exc) : Exc :=
  if transient e then e else wrapped e.

(** The request a completion method sends for its arguments: the
    model, the messages and the temperature as given, and [max_tokens]
    when it is given and not zero. *)
Definition request_of (ep : Endpoint) (is_async : bool) (fmt : option Schema)
    (a : CallArgs) : Request :=
  {| endpoint := ep; async_client := is_async; response_format := fmt;
     params := {| p_model := model a;
                  p_messages := messages a;
                  p_temperature := temperature a;
                  p_max_tokens :=
                    match max_tokens a with
                    | Some 0%Z | None => None
                    | Some n => Some n
                    end |} |}.

Definition user_message (text : string) : ChatMessage :=
  {| role := "user"; content := content_str text |}.

(** The assistant turn that carries the content of an answer: its text,
    or [None] when the answer has none. *)
Definition assistant_message (m : Message) : ChatMessage :=
  {| role := "assistant";
     content := match message_content m with
                | Some text => content_str text
                | None => content_none
                end |}.

(** The provider that [OpenAIProvider()] returns when there is a key:
    the two methods of the class under the OpenAI retry decorator. *)
Definition provider (E : Env) : OpenAIProvider :=
  {| _retry_decorator := get_openai_retry_decorator;
     chat_completion := fun a => retry get_openai_retry_decorator (chat_completion_method E a);
     achat_completion :=
       fun a => retry get_openai_retry_decorator (achat_completion_method E a) |}.

(** The request of [_chat_completion] for a conversation. *)
Definition conversation_request (model_name : string) (history : list ChatMessage)
    (fmt : option Schema) : Request :=
  request_of beta_chat_completions_parse false fmt
    {| messages := history; model := model_name;
       temperature := 3 # 10; max_tokens := None |}.

(** The request of [_chat_completion] once the user turn is appended. *)
Definition stage_request (o : Optimizer.ResumeOptimizer) (fmt : option Schema) : Request :=
  conversation_request (Optimizer.model o) (Optimizer.messages o) fmt.

(** The first message of the service's answer, if it answers with one. *)
Definition answer (E : Env) (history : list Request) (rq : Request) : option Message :=
  match sdk E history rq with
  | Return c => match choices c with
                | ch :: _ => Some (message ch)
                | [] => None
                end
  | Raise _ => None
  end.

(** The turns of completed stages: for each, in order, the user turn
    of its prompt and then the assistant turn of its output. *)
Fixpoint turns (prompts : list string) (outputs : list Message) : list ChatMessage :=
  match prompts, outputs with
  | p :: ps, m :: ms => user_message p :: assistant_message m :: turns ps ms
  | _, _ => []
  end.

(** The file name [__getattr__] asks jinja2 for. *)
Definition template_file (subfolder template_name : string) : string :=
  subfolder +:+ "/" +:+ template_name +:+ ".jinja".

(** Attribute accesses one after the other, whatever each one gives. *)
Fixpoint run_accesses (E : Env) (names : list string)
    (st : PromptLoader * World) : PromptLoader * World :=
  match names with
  | [] => st
  | n :: rest => run_accesses E rest (snd (__getattr__ E n st))
  end.

(** The prompts directory, as a string. *)
Definition prompts_dir (E : Env) : string := fspath (DEFAULT_PROMPTS_PATH E).

(** The text of the regular file that jinja2 finds for a template name
    under the prompts directory, if it finds one. *)
Definition found_source (E : Env) (file : string) : option string :=
  match split_template_path file with
  | Some pieces =>
      match fs E (posix_join (prompts_dir E) pieces) with
      | Some (File src) => Some src
      | _ => None
      end
  | None => None
  end.

(** A loader whose cache holds what the files hold. *)
Definition loader_ok (E : Env) (l : PromptLoader) : Prop :=
  searchpath (template_env l) = prompts_dir E /\
  forall (n : string) (t : Template),
    _templates l !! n = Some t ->
    filename t = template_file (subfolder l) n /\
    found_source E (filename t) = Some (source t) /\
    compile_source E (source t) = None.

(** A name that a path takes as one part: not empty, no slash, and
    neither [.] nor [..]. *)
Fixpoint no_slash (s : string) : bool :=
  match s with
  | EmptyString => true
  | String c rest => negb (Ascii.eqb c "/"%char) && no_slash rest
  end.

Definition plain (s : string) : bool :=
  no_slash s && kept s && negb (String.eqb s "..").

(** The text of the file [<prompts>/<subfolder>/<name>.jinja], when
    there is such a regular file. *)
Definition template_source (E : Env) (subfolder template_name : string) : option string :=
  match fs E (prompts_dir E +:+ "/" +:+ subfolder +:+ "/" +:+ template_name +:+ ".jinja") with
  | Some (File src) => Some src
  | _ => None
  end.

(** The path [<prompts>/<subfolder>/<name>.jinja]. *)
Definition template_file_path (E : Env) (subfolder template_name : string) : string :=
  prompts_dir E +:+ "/" +:+ subfolder +:+ "/" +:+ template_name +:+ ".jinja".

(** A piece that the libraries keep: no slash, and not empty. *)
Definition piece_ok (p : string) : Prop := no_slash p = true /\ p <> "".

(** A relative path with its empty pieces and its pieces [.] dropped. *)
Definition normal (s : string) : string :=
  join_slash (List.filter kept (split_slash s)).

(** The path [rel] below the directory [dir]. *)
Definition under (dir rel : string) : string :=
  if String.eqb rel "" then dir else dir +:+ "/" +:+ rel.

(** A path string that does not start at the root. *)
Definition relative (s : string) : bool :=
  match s with
  | String "/"%char _ => false
  | _ => true
  end.

(** One of the pieces of the path is [..]. *)
Definition has_dotdot (s : string) : bool :=
  existsb (String.eqb "..") (split_slash s).

(** The subfolder, and the file [<subfolder>/<name>.jinja], under the
    prompts directory. *)
Definition folder_of (E : Env) (subfolder : string) : string :=
  under (prompts_dir E) (normal subfolder).

Definition file_of (E : Env) (subfolder template_name : string) : string :=
  under (prompts_dir E) (normal (template_file subfolder template_name)).

(** There is no regular file at the path. *)
Definition no_file (E : Env) (path : string) : Prop :=
  fs E path = None \/ fs E path = Some Dir.

(** The loader as the specification words it, at one subfolder and one
    name: the constructor raises, and then a [ValueError], exactly when
    the subfolder does not exist under the prompts directory; the access
    of the name on the loader returns the template of the file
    [<subfolder>/<name>.jinja], and raises, and then an
    [AttributeError], exactly when that file does not exist. *)
Definition resolves_as_specified (E : Env) (subfolder template_name : string)
    (w : World) : Prop :=
  match Prompts.__init__ E subfolder w with
  | (Raise e, _) =>
      exc_class e = ValueError /\ fs E (folder_of E subfolder) = None
  | (Return l, w') =>
      fs E (folder_of E subfolder) <> None /\
      match getattr E template_name (l, w') with
      | (Return (attr_template t), _) =>
          filename t = template_file subfolder template_name /\
          fs E (file_of E subfolder template_name) = Some (File (source t))
      | (Return _, _) => False
      | (Raise e, _) =>
          exc_class e = AttributeError /\
          no_file E (file_of E subfolder template_name)
      end
  end.

(** A source that compiles, and renders with the given arguments. *)
Definition renders (E : Env) (src : string) (kwargs : list (string * option string))
    : Prop :=
  compile_source E src = None /\
  exists text : string, render_source E src kwargs = Return text.

(** The text a rendering gives, empty when it raises. *)
Definition rendered (E : Env) (src : string) (kwargs : list (string * option string))
    : string :=
  match render_source E src kwargs with
  | Return text => text
  | Raise _ => ""
  end.

(** The five stage methods, as values. *)
Inductive Stage : Type :=
  | Stage1 (job_description : string) (user_preferences : option string)
  | Stage2 (current_resume : nat)
  | Stage3
  | Stage4
  | Stage5.

Definition run_stage (E : Env) (st : Stage)
    : M (Optimizer.ResumeOptimizer * World) Message :=
  match st with
  | Stage1 jd prefs => Optimizer.stage_1 E jd prefs
  | Stage2 r => Optimizer.stage_2 E r
  | Stage3 => Optimizer.stage_3 E
  | Stage4 => Optimizer.stage_4 E
  | Stage5 => Optimizer.stage_5 E
  end.

(** Stage calls one after the other, up to the first that raises. *)
Fixpoint run_stages (E : Env) (sts : list Stage)
    : M (Optimizer.ResumeOptimizer * World) (list Message) :=
  match sts with
  | [] => ret []
  | st :: rest =>
      m <- run_stage E st;;
      ms <- run_stages E rest;;
      ret (m :: ms)
  end.

Definition stage_name (st : Stage) : string :=
  match st with
  | Stage1 _ _ => "stage_1"
  | Stage2 _ => "stage_2"
  | Stage3 => "stage_3"
  | Stage4 => "stage_4"
  | Stage5 => "stage_5"
  end.

(** The schema each stage declares. *)
Definition stage_schema (st : Stage) : Schema :=
  match st with
  | Stage1 _ _ => JobAnalysis
  | Stage2 _ => GapAnalysis
  | Stage3 => ContentPrioritization
  | Stage4 => OptimizedResume
  | Stage5 => ResumeSchema
  end.

(** The keyword arguments each stage renders its template with, the
    caller's objects being [objects]. *)
Definition stage_kwargs (E : Env) (objects : gmap nat Resume) (st : Stage)
    : list (string * option string) :=
  match st with
  | Stage1 jd prefs => [("job_description", Some jd); ("user_preferences", prefs)]
  | Stage2 r =>
      match objects !! r with
      | Some resume => [("current_resume_json", Some (model_dump_json E resume 2))]
      | None => []
      end
  | _ => []
  end.

(** The prompt of a stage whose template has source [src]. *)
Definition stage_prompt (E : Env) (objects : gmap nat Resume) (st : Stage)
    (src : string) : string :=
  rendered E src (stage_kwargs E objects st).

(** The argument of [stage_2] refers to a [Resume]. *)
Definition stage_ready (objects : gmap nat Resume) (st : Stage) : Prop :=
  match st with
  | Stage2 r => is_Some (objects !! r)
  | _ => True
  end.

(** The source of a stage's template, empty when the file is missing. *)
Definition stage_source (E : Env) (st : Stage) : string :=
  default "" (template_source E "optimization" (stage_name st)).

(** The pipeline as the specification words it: one call per stage, in
    order; each call carries the whole conversation so far, ended by
    the stage's prompt, and the stage's schema; the assistant turn of
    each answer joins the conversation.  Gives the answers, the final
    conversation and the final list of requests, or nothing when the
    service leaves a call unanswered. *)
Fixpoint pipeline_trace (E : Env) (model_name : string) (objects : gmap nat Resume)
    (sts : list Stage) (history : list ChatMessage) (calls : list Request)
    : option (list Message * list ChatMessage * list Request) :=
  match sts with
  | [] => Some ([], history, calls)
  | st :: rest =>
      let history1 :=
        (history ++ [user_message (stage_prompt E objects st (stage_source E st))])%list in
      let rq := conversation_request model_name history1 (Some (stage_schema st)) in
      match answer E calls rq with
      | Some m =>
          match pipeline_trace E model_name objects rest
                  (history1 ++ [assistant_message m])%list (calls ++ [rq])%list with
          | Some (ms, history', calls') => Some (m :: ms, history', calls')
          | None => None
          end
      | None => None
      end
  end.

(** Stage calls one after the other, each answer logged by
    [print_as_yaml] as [optimize_resume] does, up to the first that
    raises. *)
Fixpoint run_stages_logged (E : Env) (sts : list Stage)
    : M (Optimizer.ResumeOptimizer * World) (list Message) :=
  match sts with
  | [] => ret []
  | st :: rest =>
      m <- run_stage E st;;
      Optimizer.print_as_yaml E m;;
      ms <- run_stages_logged E rest;;
      ret (m :: ms)
  end.

(** The stages of [optimize_resume], in its order. *)
Definition the_five_stages (job_description : string) (current_resume : nat)
    (user_preferences : option string) : list Stage :=
  [Stage1 job_description user_preferences; Stage2 current_resume;
   Stage3; Stage4; Stage5].

(** The methods of [ResumeOptimizer] that run on a built instance. *)
Inductive Operation : Type :=
  | call_chat_completion (message : string) (response_format : option Schema)
  | call_stage (st : Stage)
  | call_print_as_yaml (model_object : Message)
  | call_optimize_resume (job_description : string) (current_resume : nat)
      (user_preferences : option string).

Definition forget {S A} (c : M S A) : M S unit := _ <- c;; ret tt.

Definition run_operation (E : Env) (op : Operation)
    : M (Optimizer.ResumeOptimizer * World) unit :=
  match op with
  | call_chat_completion message fmt => forget (Optimizer._chat_completion E message fmt)
  | call_stage st => forget (run_stage E st)
  | call_print_as_yaml m => Optimizer.print_as_yaml E m
  | call_optimize_resume jd r prefs => forget (Optimizer.optimize_resume E jd r prefs)
  end.

(** An optimizer whose loader is sound and reads [optimization]. *)
Definition optimizer_ok (E : Env) (o : Optimizer.ResumeOptimizer) : Prop :=
  loader_ok E (Optimizer.prompts o) /\
  subfolder (Optimizer.prompts o) = "optimization".

(** The five stage templates are in place and sound: each file is
    there, compiles, and renders whatever the arguments. *)
Definition templates_installed (E : Env) : Prop :=
  Forall (fun n =>
            exists src : string,
              template_source E "optimization" n = Some src /\
              forall kwargs, renders E src kwargs)
    ["stage_1"; "stage_2"; "stage_3"; "stage_4"; "stage_5"].

(** The service answers every request with at least one choice. *)
Definition service_answers (E : Env) : Prop :=
  forall (history : list Request) (rq : Request),
    is_Some (answer E history rq).

(** What an operation may do to the state: grow the conversation at its
    end and write to the world's records; the model name and the heap
    stay, and a sound loader stays sound. *)
Definition extends (E : Env) (s s' : Optimizer.ResumeOptimizer * World) : Prop :=
  Optimizer.messages (fst s) `prefix_of` Optimizer.messages (fst s') /\
  Optimizer.model (fst s') = Optimizer.model (fst s) /\
  heap (snd s') = heap (snd s) /\
  (optimizer_ok E (fst s) -> optimizer_ok E (fst s')).

Definition steady (E : Env) {A} (c : M (Optimizer.ResumeOptimizer * World) A) : Prop :=
  forall s, extends E s (snd (c s)).

(** A parser whose loader is sound and reads [extraction]. *)
Definition parser_ok (E : Env) (p : Parser.ResumeParser) : Prop :=
  loader_ok E (Parser.prompts p) /\
  subfolder (Parser.prompts p) = "extraction".

(** The one request of [parse_resume]: the system prompt, then a user
    message made of the user prompt and one image entry per url. *)
Definition parser_request (model_name system_prompt user_prompt : string)
    (urls : list string) : Request :=
  {| endpoint := beta_chat_completions_parse;
     async_client := false;
     response_format := Some ResumeSchema;
     params :=
       {| p_model := model_name;
          p_messages :=
            [ {| role := "system"; content := content_str system_prompt |};
              {| role := "user";
                 content := content_parts (text_part user_prompt
                                             :: map image_url_part urls) |} ];
          p_temperature := 2 # 10;
          p_max_tokens := None |} |}.

(** The world with nothing in it yet. *)
Definition empty_world : World :=
  {| heap := ∅; api_calls := []; sleeps := []; log := []; template_loads := [] |}.

(** Two worlds that differ in [template_loads] at most. *)
Definition same_but_loads (w w' : World) : Prop :=
  heap w' = heap w /\ api_calls w' = api_calls w /\
  sleeps w' = sleeps w /\ log w' = log w.

End Vocabulary.

(** ** A small installation, for running the definitions *)
Module Demo.
Import Tenacity Providers Prompts Vocabulary.

Definition files : list (string * Node) :=
  [ ("/pkg/prompt_templates/optimization", Dir);
    ("/pkg/prompt_templates/optimization/system.jinja", File "You optimize resumes.");
    ("/pkg/prompt_templates/optimization/stage_1.jinja", File "Analyze the job.");
    ("/pkg/prompt_templates/optimization/stage_2.jinja", File "Find the gaps.");
    ("/pkg/prompt_templates/optimization/stage_3.jinja", File "Prioritize.");
    ("/pkg/prompt_templates/optimization/stage_4.jinja", File "Optimize.");
    ("/pkg/prompt_templates/optimization/stage_5.jinja", File "Write the resume.");
    ("/pkg/prompt_templates/optimization/broken.jinja", File "{% if %}");
    ("/pkg/prompt_templates/extraction", Dir);
    ("/pkg/prompt_templates/extraction/system.jinja", File "You read resumes.");
    ("/pkg/prompt_templates/extraction/user.jinja", File "Extract this resume.");
    ("/pkg/prompt_templates/../prompt_templates/optimization", Dir);
    ("/pkg/prompt_templates/../prompt_templates/optimization/stage_1.jinja",
     File "Analyze the job.");
    ("/home/cv.pdf", PdfFile ["page one"; "page two"]) ].

Fixpoint lookup_file (l : list (string * Node)) (path : string) : option Node :=
  match l with
  | [] => None
  | (p, n) :: rest => if String.eqb p path then Some n else lookup_file rest path
  end.

(** Rendering that shows its arguments. *)
Fixpoint show_kwargs (kwargs : list (string * option string)) : string :=
  match kwargs with
  | [] => ""
  | (k, Some v) :: rest => " " +:+ k +:+ "=" +:+ v +:+ show_kwargs rest
  | (k, None) :: rest => " " +:+ k +:+ "=None" +:+ show_kwargs rest
  end.

Definition resume : Resume :=
  {| personal_info :=
       {| name := "Ada"; email := "ada@example.org"; phone := "1";
          pi_location := "London"; linkedin := None |};
     summary := "Engineer";
     experience := [];
     education := [];
     skills := {| professional := ["analysis"]; tools := []; soft_skills := [] |};
     projects := [] |}.

Definition reply : Message :=
  {| message_content := Some "{}";
     parsed := Some (resume_object resume);
     refusal := None |}.

Definition completion : Completion := {| choices := [ {| message := reply |} ] |}.

(** The special names of a class without methods of its own, and the
    two methods of [PromptLoader]. *)
Definition names_of_the_class : list string :=
  ["__init__"; "__getattr__"; "__class__"; "__dict__"; "__doc__"; "__module__";
   "__weakref__"; "__eq__"; "__hash__"; "__repr__"; "__str__"; "__setattr__";
   "__delattr__"; "__getattribute__"; "__dir__"; "__format__"; "__init_subclass__";
   "__new__"; "__reduce__"; "__reduce_ex__"; "__sizeof__"; "__subclasshook__";
   "__ne__"; "__lt__"; "__le__"; "__gt__"; "__ge__"].

(** A service that always answers. *)
Definition env : Env :=
  {| fs := lookup_file files;
     module_dir := "/pkg";
     api_key_env := Some "demo-key";
     class_attribute := fun n => existsb (String.eqb n) names_of_the_class;
     compile_source := fun src =>
       if String.eqb src "{% if %}"
       then Some (exc TemplateSyntaxError
                    "Expected an expression, got 'end of statement block'")
       else None;
     render_source := fun src kwargs => Return (src +:+ show_kwargs kwargs);
     sdk := fun _ _ => Return completion;
     get_pixmap := fun page _ => {| width := 1; height := 1; samples := page |};
     save_jpeg := fun image => im_data image;
     b64encode := fun s => s;
     model_dump_json := fun r _ => summary r;
     yaml_dump := fun m => default "" (message_content m) |}.

(** A service that answers its first request with a rate limit. *)
Definition flaky_env : Env :=
  {| fs := fs env; module_dir := module_dir env;
     api_key_env := api_key_env env; class_attribute := class_attribute env;
     compile_source := compile_source env;
     render_source := render_source env;
     sdk := fun history _ =>
              match history with
              | [] => Raise (exc RateLimitError "Rate limit reached")
              | _ => Return completion
              end;
     get_pixmap := get_pixmap env; save_jpeg := save_jpeg env;
     b64encode := b64encode env; model_dump_json := model_dump_json env;
     yaml_dump := yaml_dump env |}.

(** A service that is rate limited throughout. *)
Definition limited_env : Env :=
  {| fs := fs env; module_dir := module_dir env;
     api_key_env := api_key_env env; class_attribute := class_attribute env;
     compile_source := compile_source env;
     render_source := render_source env;
     sdk := fun _ _ => Raise (exc RateLimitError "Rate limit reached");
     get_pixmap := get_pixmap env; save_jpeg := save_jpeg env;
     b64encode := b64encode env; model_dump_json := model_dump_json env;
     yaml_dump := yaml_dump env |}.

Definition args : CallArgs :=
  {| messages := [user_message "hello"]; model := "gpt-4o";
     temperature := 2 # 10; max_tokens := None |}.

(** The caller's world: one [Resume] object, at reference 0. *)
Definition world : World :=
  {| heap := {[ 0%nat := resume ]}; api_calls := []; sleeps := []; log := [];
     template_loads := [] |}.

(** The optimizer and the world that [ResumeOptimizer()] leaves. *)
Definition system_template : Template :=
  {| template_id := 0; filename := "optimization/system.jinja";
     source := "You optimize resumes." |}.

Definition loader : PromptLoader :=
  {| subfolder := "optimization";
     template_path := {| root := "/"; parts := ["pkg"; "prompt_templates"; "optimization"] |};
     template_env := {| searchpath := "/pkg/prompt_templates";
                        trim_blocks := true; lstrip_blocks := true |};
     _templates := {[ "system" := system_template ]} |}.

Definition optimizer (E : Env) : Optimizer.ResumeOptimizer :=
  {| Optimizer.llm := provider E;
     Optimizer.prompts := loader;
     Optimizer.model := "gpt-4o";
     Optimizer.messages :=
       [ {| role := "system"; content := content_str "You optimize resumes." |} ] |}.

(** The parser that [ResumeParser()] builds. *)
Definition parser : Parser.ResumeParser :=
  {| Parser.llm := provider env;
     Parser.prompts :=
       {| subfolder := "extraction";
          template_path := {| root := "/"; parts := ["pkg"; "prompt_templates"; "extraction"] |};
          template_env := {| searchpath := "/pkg/prompt_templates";
                             trim_blocks := true; lstrip_blocks := true |};
          _templates := ∅ |};
     Parser.model := "gpt-4o-mini" |}.

Definition world_after_init : World :=
  {| heap := {[ 0%nat := resume ]}; api_calls := []; sleeps := []; log := [];
     template_loads := ["optimization/system.jinja"] |}.

(** What a model that declines answers: no content, nothing parsed. *)
Definition refusal_message : Message :=
  {| message_content := None;
     parsed := None;
     refusal := Some "I'm sorry, I can't help with that." |}.

(** A service that answers every request with a refusal. *)
Definition refusing_env : Env :=
  {| fs := fs env; module_dir := module_dir env;
     api_key_env := api_key_env env; class_attribute := class_attribute env;
     compile_source := compile_source env;
     render_source := render_source env;
     sdk := fun _ _ => Return {| choices := [ {| message := refusal_message |} ] |};
     get_pixmap := get_pixmap env; save_jpeg := save_jpeg env;
     b64encode := b64encode env; model_dump_json := model_dump_json env;
     yaml_dump := yaml_dump env |}.

(** An installation without a key for the service. *)
Definition keyless_env : Env :=
  {| fs := fs env; module_dir := module_dir env;
     api_key_env := None; class_attribute := class_attribute env;
     compile_source := compile_source env;
     render_source := render_source env;
     sdk := sdk env;
     get_pixmap := get_pixmap env; save_jpeg := save_jpeg env;
     b64encode := b64encode env; model_dump_json := model_dump_json env;
     yaml_dump := yaml_dump env |}.

End Demo.

(** ** More of [llm_utils/llm/providers/base.py] *)
Module BaseProviderMethods.
Import Tenacity Providers.

(** [BaseProvider.chat_completion], left to subclasses. *)
Definition base_chat_completion (a : CallArgs) : M World Completion :=
  raise (exc NotImplementedError "").

(** [BaseProvider.achat_completion], left to subclasses. *)
Definition base_achat_completion (a : CallArgs) : M World Completion :=
  raise (exc NotImplementedError "").

(** [BaseProvider(retry_decorator)], the base class itself. *)
Definition BaseProvider (retry_decorator : option RetryPolicy) : OpenAIProvider :=
  BaseProvider__init__ retry_decorator base_chat_completion base_achat_completion.

(** The setter of the property [retry_decorator]: it stores the decorator
    and applies it to [self.chat_completion] and [self.achat_completion],
    which are the attributes that [__init__] has decorated already. *)
Definition set_retry_decorator (decorator : RetryPolicy) (self : OpenAIProvider)
    : OpenAIProvider :=
  {| _retry_decorator := decorator;
     chat_completion := fun a => retry decorator (chat_completion self a);
     achat_completion := fun a => retry decorator (achat_completion self a) |}.

(** The world after a retried call whose every attempt raises a retried
    exception and changes the world by [step]: [remaining + 1] steps with
    the waits of the policy slept in between. *)
Fixpoint exhausted (policy : RetryPolicy) (step : World -> World)
    (remaining attempt_number : nat) (w : World) : World :=
  match remaining with
  | O => step w
  | S r =>
      exhausted policy step r (S attempt_number)
        (record_sleep (wait policy attempt_number) (step w))
  end.

End BaseProviderMethods.

(** ** More installations, for running the definitions *)
Module DemoMore.

(** The environment with one path taken away. *)
Definition without_file (path : string) (E : Env) : Env :=
  {| fs := fun p => if String.eqb p path then None else fs E p;
     module_dir := module_dir E;
     api_key_env := api_key_env E; class_attribute := class_attribute E;
     compile_source := compile_source E;
     render_source := render_source E;
     sdk := sdk E;
     get_pixmap := get_pixmap E; save_jpeg := save_jpeg E;
     b64encode := b64encode E; model_dump_json := model_dump_json E;
     yaml_dump := yaml_dump E |}.

(** The demo installation without the template of stage 3. *)
Definition incomplete_env : Env :=
  without_file "/pkg/prompt_templates/optimization/stage_3.jinja" Demo.env.

End DemoMore.

(** ** [llm_utils/llm/oai_assistant.py]: [IDLogger]

    The log is a CSV file.  A file is held as the rows that [csv.reader]
    reads from it, the header first; a row written by [csv.writer] reads
    back as written.  Opening a file is taken to succeed. *)
Module Assistants.

Definition Row : Type := list string.

(** What this module can raise: the three exceptions of reading the log,
    and any other exception, of the SDK or of Python. *)
Inductive LogExc : Type :=
  | StopIteration
  | KeyError (key : string)
  | FileNotFound (path : string)
  | Other (e : Exc).

Inductive Outcome (A : Type) : Type :=
  | Done (a : A)
  | Failed (e : LogExc).
Arguments Done {A} a.
Arguments Failed {A} e.

(** The three kinds of object the log knows, by class name. *)
Inductive Kind : Type :=
  | ThreadKind
  | FileObjectKind
  | AssistantKind.

#[global] Instance Kind_eq_dec : EqDecision Kind.
Proof. solve_decision. Defined.

(** An object of the Assistants API: [object.__class__.__name__] and
    [object.id]. *)
Record ApiObject : Type := {
  class_name : string;
  id : string;
}.

(** The service and the clock: what [datetime.now().strftime(...)] gives
    at its [n]-th reading, whether [OpenAI()] raises (no key in the
    environment), and whether the service refuses a deletion, given the
    deletions made before. *)
Record Remote : Type := {
  now : nat -> string;
  client_error : option Exc;
  refuses : list (Kind * string) -> Kind * string -> option Exc;
}.

(** The state outside the logger: the files on disk by path, the number
    of clock readings so far, and the deletions the service has carried
    out, oldest first. *)
Record Disk : Type := {
  files : gmap string (list Row);
  ticks : nat;
  deleted : list (Kind * string);
}.

Definition write_file (path : string) (rows : list Row) (d : Disk) : Disk :=
  {| files := <[path := rows]> (files d); ticks := ticks d; deleted := deleted d |}.

(** An [IDLogger]: its path, [is_new], and the rows written to
    [self.csv_file] that are not flushed yet. *)
Record IDLogger : Type := {
  csv_file_path : string;
  is_new : bool;
  unflushed : list Row;
}.

Definition HEADER : Row := ["datetime"; "type"; "id"].

(** [IDLogger.__init__]: a missing file is created empty by [open(.., "w")]
    and the header is written to the file object; an existing file is
    opened for appending. *)
Definition __init__ (csv_file_path : string) (d : Disk) : IDLogger * Disk :=
  match files d !! csv_file_path with
  | None =>
      ({| csv_file_path := csv_file_path; is_new := true; unflushed := [HEADER] |},
       write_file csv_file_path [] d)
  | Some _ =>
      ({| csv_file_path := csv_file_path; is_new := false; unflushed := [] |}, d)
  end.

(** [dict(zip(header, row))]: of two equal keys the later one stays. *)
Definition dict_zip (header row : Row) : gmap string string :=
  list_to_map (reverse (zip header row)).

(** [d[key]] *)
Definition getitem (d : gmap string string) (key : string) : Outcome string :=
  match d !! key with
  | Some v => Done v
  | None => Failed (KeyError key)
  end.

(** [IDLogger.retrieve_all]: reads the file as it is on disk. *)
Definition retrieve_all (self : IDLogger) (d : Disk) : Outcome (list (gmap string string)) :=
  match files d !! csv_file_path self with
  | None => Failed (FileNotFound (csv_file_path self))
  | Some [] => Failed StopIteration
  | Some (header :: rows) => Done (map (dict_zip header) rows)
  end.

(** [[row["id"] for row in rows]] *)
Fixpoint ids_of (rows : list (gmap string string)) : Outcome (list string) :=
  match rows with
  | [] => Done []
  | row :: rest =>
      match getitem row "id" with
      | Failed e => Failed e
      | Done i =>
          match ids_of rest with
          | Failed e => Failed e
          | Done others => Done (i :: others)
          end
      end
  end.

(** [self.csv_file.flush()]: the unflushed rows reach the disk, at the end
    of the file.  A handle opened with ["a"] always writes there; one
    opened with ["w"] writes at its own position, which is the end as long
    as nobody else has written to the file since it was created. *)
Definition flush (self : IDLogger) (d : Disk) : IDLogger * Disk :=
  ({| csv_file_path := csv_file_path self; is_new := is_new self; unflushed := [] |},
   write_file (csv_file_path self)
     (default [] (files d !! csv_file_path self) ++ unflushed self) d).

(** [self.csv_writer.writerow([now, class name, id])] and the flush. *)
Definition write_row (R : Remote) (object : ApiObject) (self : IDLogger) (d : Disk)
    : IDLogger * Disk :=
  let row := [now R (ticks d); class_name object; id object] in
  flush {| csv_file_path := csv_file_path self; is_new := is_new self;
           unflushed := unflushed self ++ [row] |}
        {| files := files d; ticks := S (ticks d); deleted := deleted d |}.

Definition log_id (R : Remote) (object : ApiObject) (self : IDLogger) (d : Disk)
    : Outcome unit * (IDLogger * Disk) :=
  if negb (is_new self) then
    match retrieve_all self d with
    | Failed e => (Failed e, (self, d))
    | Done existing_rows =>
        match ids_of existing_rows with
        | Failed e => (Failed e, (self, d))
        | Done existing_ids =>
            if bool_decide (id object ∈ existing_ids)
            then (Done tt, (self, d))
            else (Done tt, write_row R object self d)
        end
    end
  else (Done tt, write_row R object self d).

(** The branch of [delete_all] for one row: the class name decides which
    deletion is asked for, and a row of another type is passed over. *)
Definition kind_of (type : string) : option Kind :=
  if String.eqb type "Thread" then Some ThreadKind
  else if String.eqb type "FileObject" then Some FileObjectKind
  else if String.eqb type "Assistant" then Some AssistantKind
  else None.

(** [client.beta.threads.delete(id)] and its siblings. *)
Definition remote_delete (R : Remote) (k : Kind) (i : string) (d : Disk)
    : Outcome unit * Disk :=
  match refuses R (deleted d) (k, i) with
  | Some e => (Failed (Other e), d)
  | None =>
      (Done tt, {| files := files d; ticks := ticks d;
                   deleted := deleted d ++ [(k, i)] |})
  end.

(** The [for row in rows] of [delete_all]. *)
Fixpoint delete_rows (R : Remote) (rows : list (gmap string string)) (d : Disk)
    : Outcome unit * Disk :=
  match rows with
  | [] => (Done tt, d)
  | row :: rest =>
      match getitem row "type" with
      | Failed e => (Failed e, d)
      | Done type =>
          match kind_of type with
          | None => delete_rows R rest d
          | Some k =>
              match getitem row "id" with
              | Failed e => (Failed e, d)
              | Done i =>
                  match remote_delete R k i d with
                  | (Failed e, d') => (Failed e, d')
                  | (Done _, d') => delete_rows R rest d'
                  end
              end
          end
      end
  end.

Definition delete_all (R : Remote) (self : IDLogger) (d : Disk)
    : Outcome unit * (IDLogger * Disk) :=
  if negb (is_new self) then
    match client_error R with
    | Some e => (Failed (Other e), (self, d))
    | None =>
        match retrieve_all self d with
        | Failed e => (Failed e, (self, d))
        | Done rows =>
            match delete_rows R rows d with
            | (Failed e, d') => (Failed e, (self, d'))
            | (Done _, d') =>
                let '(_, d'') := flush self d' in
                (Done tt,
                 ({| csv_file_path := csv_file_path self; is_new := is_new self;
                     unflushed := [] |},
                  write_file (csv_file_path self) [HEADER] d''))
            end
        end
    end
  else (Done tt, (self, d)).

(** Calls of [log_id] one after the other, up to the first that raises. *)
Fixpoint log_ids (R : Remote) (objects : list ApiObject) (self : IDLogger) (d : Disk)
    : Outcome unit * (IDLogger * Disk) :=
  match objects with
  | [] => (Done tt, (self, d))
  | object :: rest =>
      match log_id R object self d with
      | (Failed e, s) => (Failed e, s)
      | (Done _, (self', d')) => log_ids R rest self' d'
      end
  end.

(** A log as [IDLogger] writes it: the header, then rows of three fields. *)
Definition well_formed (rows : list Row) : Prop :=
  exists body : list Row,
    rows = HEADER :: body /\ Forall (fun row => length row = 3%nat) body.

(** The ids of the rows below the header. *)
Definition logged_ids (rows : list Row) : list string :=
  omap (fun row => row !! 2%nat) (tail rows).

(** The rows that successive calls of [log_id] write for [objects], the
    clock having been read [t] times before. *)
Fixpoint rows_from (R : Remote) (t : nat) (objects : list ApiObject) : list Row :=
  match objects with
  | [] => []
  | object :: rest =>
      [now R t; class_name object; id object] :: rows_from R (S t) rest
  end.

(** The deletions that the rows of a log call for, in their order. *)
Definition deletions_for (body : list Row) : list (Kind * string) :=
  omap (fun row =>
          match row with
          | [_; type; i] => (fun k => (k, i)) <$> kind_of type
          | _ => None
          end) body.

End Assistants.

(** ** A concrete service for the id log *)
Module AssistantsDemo.
Import Assistants.

Definition thread : ApiObject := {| class_name := "Thread"; id := "thread_1" |}.
Definition file_object : ApiObject := {| class_name := "FileObject"; id := "file_1" |}.
Definition assistant : ApiObject := {| class_name := "Assistant"; id := "asst_1" |}.
Definition message : ApiObject := {| class_name := "Message"; id := "msg_1" |}.

(** A service that deletes whatever it is asked to. *)
Definition service : Remote :=
  {| now := fun _ => "2025-01-01 00:00:00";
     client_error := None;
     refuses := fun _ _ => None |}.

(** A service that answers 404 for an object deleted before. *)
Definition strict_service : Remote :=
  {| now := fun _ => "2025-01-01 00:00:00";
     client_error := None;
     refuses := fun history x =>
       if bool_decide (x ∈ history)
       then Some (exc NotFoundError "No such object")
       else None |}.

Definition log_path : string := "assistants_id_logs.csv".

Definition empty_disk : Disk := {| files := ∅; ticks := 0; deleted := [] |}.

(** A log left by earlier runs. *)
Definition old_log : list Row :=
  [HEADER;
   ["2024-12-31 23:59:59"; "Thread"; "thread_0"];
   ["2024-12-31 23:59:59"; "Message"; "msg_0"];
   ["2024-12-31 23:59:59"; "Assistant"; "asst_0"]].

Definition old_disk : Disk :=
  {| files := {[ log_path := old_log ]}; ticks := 0; deleted := [] |}.

Definition old_logger : IDLogger := fst (__init__ log_path old_disk).

(** A log in which one thread was written twice. *)
Definition repeated_log : list Row :=
  [HEADER;
   ["2024-12-31 23:59:59"; "Thread"; "thread_0"];
   ["2024-12-31 23:59:59"; "Thread"; "thread_0"]].

Definition repeated_disk : Disk :=
  {| files := {[ log_path := repeated_log ]}; ticks := 0; deleted := [] |}.

Definition repeated_logger : IDLogger := fst (__init__ log_path repeated_disk).

End AssistantsDemo.

(** ** [pdf_generator.py] *)
Module PdfGenerator.
Import Prompts.

(** The template variables and the options of pdfkit, as given. *)
Definition Variables : Type := list (string * string).
Definition Options : Type := list (string * string).

(** What the class gets from its libraries:
    - [compile]: jinja2 compiling a template source, [None] when it
      compiles, else the exception it raises;
    - [render_template]: [Template.render] of a compiled source;
    - [encode]: [str.encode('utf-8')], which raises a
      [UnicodeEncodeError] for a string that holds a lone surrogate;
    - [write_bytes]: writing data to the open file at a path, [None]
      when all of it is written, else the exception raised and what of
      the data has reached the file;
    - [random_name]: the [n]-th candidate name that [tempfile] draws,
      directory and prefix included, suffix not;
    - [wkhtmltopdf]: the converter behind [pdfkit.from_file], given the
      content of the input file: how the call ends, and what it has
      written to the output path, if anything. *)
Record Tools : Type := {
  compile : string -> option Exc;
  render_template : string -> Variables -> Result string;
  encode : string -> Result string;
  write_bytes : string -> string -> option (Exc * string);
  random_name : nat -> string;
  wkhtmltopdf : string -> Options -> Result unit * option string;
}.

(** The files by path, and how many names [tempfile] has drawn. *)
Record Fs : Type := {
  files : gmap string string;
  names_drawn : nat;
}.

Definition set_files (f : gmap string string) (fs : Fs) : Fs :=
  {| files := f; names_drawn := names_drawn fs |}.

Record PDFGenerator : Type := {
  template_dirs : list string;
}.

(** [template_dirs if template_dirs else ["."]]: an empty list is falsy. *)
Definition __init__ (template_dirs : option (list string)) : PDFGenerator :=
  {| template_dirs :=
       match template_dirs with
       | Some (d :: ds) => d :: ds
       | _ => ["."]
       end |}.

Definition DEFAULT_OPTIONS : Options :=
  [("page-size", "A4"); ("margin-top", "0.75in"); ("margin-right", "0.75in");
   ("margin-bottom", "0.75in"); ("margin-left", "0.75in"); ("encoding", "UTF-8")].

Definition TMP_MAX : nat := 100 * 100.

(** [try: body finally: cleanup] *)
Definition try_finally {S A} (body : M S A) (cleanup : M S unit) : M S A :=
  fun s =>
    let '(r, s1) := body s in
    match cleanup s1 with
    | (Return _, s2) => (r, s2)
    | (Raise e, s2) => (Raise e, s2)
    end.

Section WithTools.
Variable T : Tools.

(** The loop of [tempfile]: candidates are drawn until one names no
    file, [tries] times at most. *)
Fixpoint free_name (suffix : string) (tries : nat) (fs : Fs) : option string * Fs :=
  match tries with
  | O => (None, fs)
  | S tries' =>
      let name := random_name T (names_drawn fs) +:+ suffix in
      let fs' := {| files := files fs; names_drawn := S (names_drawn fs) |} in
      match files fs !! name with
      | None => (Some name, fs')
      | Some _ => free_name suffix tries' fs'
      end
  end.

(** [tempfile.NamedTemporaryFile(suffix=.., delete=False)]: the file is
    created, empty, under a free name; running out of names is a
    [FileExistsError], an [OSError].  Leaving the [with] block closes
    the file and, with [delete=False], keeps it. *)
Definition NamedTemporaryFile (suffix : string) : M Fs string :=
  fun fs =>
    match free_name suffix TMP_MAX fs with
    | (None, fs') => (Raise (exc OSError "No usable temporary file name found"), fs')
    | (Some name, fs') => (Return name, set_files (<[name := ""]> (files fs')) fs')
    end.

(** [f.write(data)] on the open file at [path] *)
Definition write (path data : string) : M Fs unit :=
  fun fs =>
    match write_bytes T path data with
    | None => (Return tt, set_files (<[path := data]> (files fs)) fs)
    | Some (e, reached) => (Raise e, set_files (<[path := reached]> (files fs)) fs)
    end.

(** [tempfile.mktemp(suffix=..)]: a free name, no file. *)
Definition mktemp (suffix : string) : M Fs string :=
  fun fs =>
    match free_name suffix TMP_MAX fs with
    | (None, fs') => (Raise (exc OSError "No usable temporary filename found"), fs')
    | (Some name, fs') => (Return name, fs')
    end.

(** [os.unlink(path)] *)
Definition unlink (path : string) : M Fs unit :=
  fun fs =>
    match files fs !! path with
    | None => (Raise (exc FileNotFoundError path), fs)
    | Some _ => (Return tt, set_files (delete path (files fs)) fs)
    end.

(** The search of [FileSystemLoader]: the first directory that has the
    file, the pieces of the template name joined to it. *)
Fixpoint find_source (dirs : list string) (pieces : list string)
    (f : gmap string string) : option string :=
  match dirs with
  | [] => None
  | dir :: rest =>
      match f !! posix_join dir pieces with
      | Some src => Some src
      | None => find_source rest pieces f
      end
  end.

(** [self.env.get_template(template_name)]; the template is its source. *)
Definition get_template (self : PDFGenerator) (template_name : string) : M Fs string :=
  fun fs =>
    match split_template_path template_name with
    | None => (Raise (exc TemplateNotFound template_name), fs)
    | Some pieces =>
        match find_source (template_dirs self) pieces (files fs) with
        | None => (Raise (exc TemplateNotFound template_name), fs)
        | Some src =>
            match compile T src with
            | Some e => (Raise e, fs)
            | None => (Return src, fs)
            end
        end
    end.

(** [pdfkit.from_file(input, output_path, options=..)] *)
Definition from_file (input output_path : string) (options : Options) : M Fs unit :=
  fun fs =>
    match files fs !! input with
    | None => (Raise (exc OSError ("No such file: " +:+ input)), fs)
    | Some html =>
        let '(r, written) := wkhtmltopdf T html options in
        (r, match written with
            | Some pdf => set_files (<[output_path := pdf]> (files fs)) fs
            | None => fs
            end)
    end.

Definition generate_pdf (self : PDFGenerator) (template_name : string)
    (variables : Variables) (output_path : option string)
    (pdf_options : option Options) : M Fs string :=
  template <- get_template self template_name;;
  html_content <- lift_result (render_template T template variables);;
  temp_html_path <-
    (temp_html <- NamedTemporaryFile ".html";;
     data <- lift_result (encode T html_content);;
     write temp_html data;;
     ret temp_html);;
  try_finally
    (let pdf_options :=
       match pdf_options with
       | None => DEFAULT_OPTIONS
       | Some given => given
       end in
     output_path <- match output_path with
                    | None => mktemp ".pdf"
                    | Some given => ret given
                    end;;
     from_file temp_html_path output_path pdf_options;;
     ret output_path)
    (unlink temp_html_path).

Definition render_html (self : PDFGenerator) (template_name : string)
    (variables : Variables) : M Fs string :=
  template <- get_template self template_name;;
  lift_result (render_template T template variables).

End WithTools.

End PdfGenerator.

(** ** A concrete setting for the PDF generator *)
Module PdfDemo.
Import PdfGenerator.

Definition tools : Tools :=
  {| compile := fun _ => None;
     render_template := fun src variables =>
       match variables with
       | [] => Raise (exc RuntimeError "'title' is undefined")
       | _ => Return ("<html>" +:+ src +:+ "</html>")
       end;
     encode := fun s =>
       if String.eqb s "<html>Surrogate</html>"
       then Raise (exc UnicodeEncodeError
                     "'utf-8' codec can't encode character: surrogates not allowed")
       else Return s;
     write_bytes := fun _ _ => None;
     random_name := fun n => if Nat.even n then "/tmp/tmpa" else "/tmp/tmpb";
     wkhtmltopdf := fun html options =>
       match options with
       | [] => (Raise (exc OSError "wkhtmltopdf reported an error"), None)
       | _ => (Return tt, Some ("%PDF " +:+ html))
       end |}.

Definition generator : PDFGenerator := __init__ (Some ["templates"]).

Definition disk : Fs :=
  {| files := {[ "templates/sample.html" := "Hello";
                 "templates/surrogate.html" := "Surrogate";
                 "/tmp/tmpa.html" := "old" ]};
     names_drawn := 0 |}.

End PdfDemo.

(** ** [llm_utils/llm/oai_assistant.py]: the wrapper of the Assistants API *)
Module Wrapper.
Import Assistants.

(** The calls the wrapper makes on [self.client].  Keyword arguments
    that a method only passes through are left out. *)
Inductive ApiCall : Type :=
  | AssistantsCreate (name instructions : option string) (model : string)
      (tools : option (list string))
  | AssistantsRetrieve (assistant_id : string)
  | FilesCreate (content : string)
  | FilesRetrieve (file_id : string)
  | ThreadsCreate
  | ThreadsRetrieve (thread_id : string)
  | MessagesCreate (thread_id role content : string)
  | RunsCreateAndPoll (thread_id assistant_id : string) (poll_interval_ms : Z)
  | MessagesList (thread_id : string).

(** What the wrapper gets from outside:
    - [remote]: the clock, the making of a client and the deletions, as
      for the id log;
    - [id_log_file]: [DEFAULT_ID_LOG_FILE], next to the module;
    - [returns]: the id of the object a call returns, or the exception
      it raises, given the calls made before;
    - [returns_list]: the same for [messages.list], the ids of [.data];
    - [local_file]: the content [open(file_path, "rb")] reads, if the
      file is there. *)
Record Sdk : Type := {
  remote : Remote;
  id_log_file : string;
  returns : list ApiCall -> ApiCall -> Result string;
  returns_list : list ApiCall -> ApiCall -> Result (list string);
  local_file : string -> option string;
}.

(** The state outside the wrapper: the disk and the service's deletions,
    the calls made so far, oldest first, and what [logger.info] wrote. *)
Record AWorld : Type := {
  disk : Disk;
  calls : list ApiCall;
  info : list string;
}.

Record OpenAIAssistant : Type := {
  _assistant : option ApiObject;
  _thread : option ApiObject;
  _files : list ApiObject;
  _id_logger : IDLogger;
}.

Definition set_disk (d : Disk) (w : AWorld) : AWorld :=
  {| disk := d; calls := calls w; info := info w |}.

Definition record_call (c : ApiCall) (w : AWorld) : AWorld :=
  {| disk := disk w; calls := calls w ++ [c]; info := info w |}.

Definition record_info (line : string) (w : AWorld) : AWorld :=
  {| disk := disk w; calls := calls w; info := info w ++ [line] |}.

Definition set_assistant (a : ApiObject) (self : OpenAIAssistant) : OpenAIAssistant :=
  {| _assistant := Some a; _thread := _thread self; _files := _files self;
     _id_logger := _id_logger self |}.

Definition set_thread (t : ApiObject) (self : OpenAIAssistant) : OpenAIAssistant :=
  {| _assistant := _assistant self; _thread := Some t; _files := _files self;
     _id_logger := _id_logger self |}.

Definition append_file (f : ApiObject) (self : OpenAIAssistant) : OpenAIAssistant :=
  {| _assistant := _assistant self; _thread := _thread self;
     _files := _files self ++ [f]; _id_logger := _id_logger self |}.

Definition set_id_logger (l : IDLogger) (self : OpenAIAssistant) : OpenAIAssistant :=
  {| _assistant := _assistant self; _thread := _thread self; _files := _files self;
     _id_logger := l |}.

(** A method of the wrapper: it runs on [self] and the world, and
    returns or raises. *)
Definition W (X : Type) : Type :=
  OpenAIAssistant * AWorld -> Outcome X * (OpenAIAssistant * AWorld).

Definition done {X} (x : X) : W X := fun s => (Done x, s).

Definition fail {X} (e : LogExc) : W X := fun s => (Failed e, s).

Definition wbind {X Y} (c : W X) (k : X -> W Y) : W Y :=
  fun s =>
    match c s with
    | (Done x, s') => k x s'
    | (Failed e, s') => (Failed e, s')
    end.

Declare Scope wrapper_scope.
Delimit Scope wrapper_scope with wrapper.
Notation "x <- c1 ;; c2" := (wbind c1 (fun x => c2))
  (at level 100, c1 at next level, right associativity) : wrapper_scope.
Notation "c1 ;; c2" := (wbind c1 (fun _ => c2))
  (at level 100, right associativity) : wrapper_scope.
Local Open Scope wrapper_scope.

Definition get_self : W OpenAIAssistant := fun '(self, w) => (Done self, (self, w)).

Definition modify_self (f : OpenAIAssistant -> OpenAIAssistant) : W unit :=
  fun '(self, w) => (Done tt, (f self, w)).

(** [logger.info(line)] *)
Definition logger_info (line : string) : W unit :=
  fun '(self, w) => (Done tt, (self, record_info line w)).

(** Python's truth value of an optional string. *)
Definition truthy (s : option string) : bool :=
  match s with
  | Some s => negb (String.eqb s "")
  | None => false
  end.

(** [x.id], where [x] may be [None]. *)
Definition id_of (x : option ApiObject) : W string :=
  match x with
  | Some object => done (id object)
  | None => fail (Other (exc AttributeError "'NoneType' object has no attribute 'id'"))
  end.

Section WithSdk.
Variable S : Sdk.

(** A call on [self.client] that returns an object. *)
Definition request (c : ApiCall) : W string :=
  fun '(self, w) =>
    match returns S (calls w) c with
    | Return i => (Done i, (self, record_call c w))
    | Raise e => (Failed (Other e), (self, record_call c w))
    end.

Definition request_list (c : ApiCall) : W (list string) :=
  fun '(self, w) =>
    match returns_list S (calls w) c with
    | Return data => (Done data, (self, record_call c w))
    | Raise e => (Failed (Other e), (self, record_call c w))
    end.

(** [OpenAIAssistant.log_id]: [self._id_logger.log_id(object)] *)
Definition log_id (object : ApiObject) : W unit :=
  fun '(self, w) =>
    let '(r, (logger, d)) :=
      Assistants.log_id (remote S) object (_id_logger self) (disk w) in
    (r, (set_id_logger logger self, set_disk d w)).

Definition create_assistant (name instructions : option string)
    (tools : option (list string)) (model : string) : W ApiObject :=
  i <- request (AssistantsCreate name instructions model tools);;
  done {| class_name := "Assistant"; id := i |}.

Definition load_assistant (assistant_id : string) : W ApiObject :=
  i <- request (AssistantsRetrieve assistant_id);;
  done {| class_name := "Assistant"; id := i |}.

Definition __init__ (name system_instructions : option string) (model : string)
    (assistant_id : option string) (tools : option (list string)) (w : AWorld)
    : Outcome OpenAIAssistant * AWorld :=
  match client_error (remote S) with
  | Some e => (Failed (Other e), w)
  | None =>
      let '(logger, d) := Assistants.__init__ (id_log_file S) (disk w) in
      let self := {| _assistant := None; _thread := None; _files := [];
                     _id_logger := logger |} in
      let '(r, (self', w')) :=
        (if truthy assistant_id then
           a <- load_assistant (default "" assistant_id);;
           modify_self (set_assistant a);;
           log_id a
         else
           a <- create_assistant name system_instructions tools model;;
           modify_self (set_assistant a);;
           log_id a) (self, set_disk d w) in
      match r with
      | Done _ => (Done self', w')
      | Failed e => (Failed e, w')
      end
  end.

Definition upload_file (file_path : string) : W ApiObject :=
  match local_file S file_path with
  | None => fail (FileNotFound file_path)
  | Some content =>
      i <- request (FilesCreate content);;
      let file := {| class_name := "FileObject"; id := i |} in
      modify_self (append_file file);;
      log_id file;;
      logger_info ("Uploaded file: " +:+ i);;
      done file
  end.

Definition load_file (file_id : string) : W ApiObject :=
  i <- request (FilesRetrieve file_id);;
  done {| class_name := "FileObject"; id := i |}.

Definition load_thread (thread_id : string) : W ApiObject :=
  i <- request (ThreadsRetrieve thread_id);;
  done {| class_name := "Thread"; id := i |}.

Definition create_thread : W ApiObject :=
  i <- request ThreadsCreate;;
  done {| class_name := "Thread"; id := i |}.

(** [self.log_id(self._thread)]: the logger reads [object.id]. *)
Definition log_thread : W unit :=
  self <- get_self;;
  match _thread self with
  | Some t => log_id t
  | None => fail (Other (exc AttributeError "'NoneType' object has no attribute 'id'"))
  end.

Definition create_or_load_thread (thread_id : option string) : W unit :=
  (if truthy thread_id then
     t <- load_thread (default "" thread_id);;
     modify_self (set_thread t);;
     logger_info ("Loaded thread: " +:+ id t)
   else
     t <- create_thread;;
     modify_self (set_thread t);;
     logger_info ("Created thread: " +:+ id t));;
  log_thread.

Definition add_message (message role : string) : W unit :=
  self <- get_self;;
  thread_id <- id_of (_thread self);;
  request (MessagesCreate thread_id role message);;
  done tt.

(** [messages.data[::-1]] *)
Definition get_all_messages : W (list string) :=
  self <- get_self;;
  thread_id <- id_of (_thread self);;
  messages <- request_list (MessagesList thread_id);;
  done (reverse messages).

(** [messages[-1]] *)
Definition last_item (messages : list string) : W string :=
  match last messages with
  | Some m => done m
  | None => fail (Other (exc IndexError "list index out of range"))
  end.

Definition run_thread_with_polling (poll_interval_ms : Z) : W (string * string) :=
  self <- get_self;;
  thread_id <- id_of (_thread self);;
  logger_info ("Running thread: " +:+ thread_id);;
  assistant_id <- id_of (_assistant self);;
  run <- request (RunsCreateAndPoll thread_id assistant_id poll_interval_ms);;
  logger_info ("Run completed: " +:+ run);;
  messages <- get_all_messages;;
  last_message <- last_item messages;;
  done (run, last_message).

(** What a caller can ask of a wrapper it has constructed. *)
Inductive Op : Type :=
  | UploadFile (file_path : string)
  | LoadFile (file_id : string)
  | CreateOrLoadThread (thread_id : option string)
  | AddMessage (message role : string)
  | RunThreadWithPolling (poll_interval_ms : Z)
  | GetAllMessages.

Definition forget {X} (c : W X) : W unit := _ <- c;; done tt.

Definition run_op (op : Op) : W unit :=
  match op with
  | UploadFile file_path => forget (upload_file file_path)
  | LoadFile file_id => forget (load_file file_id)
  | CreateOrLoadThread thread_id => create_or_load_thread thread_id
  | AddMessage message role => add_message message role
  | RunThreadWithPolling poll_interval_ms => forget (run_thread_with_polling poll_interval_ms)
  | GetAllMessages => forget get_all_messages
  end.

(** A caller that goes on after an exception: the operations one after
    the other, whatever each returns or raises. *)
Fixpoint run_ops (ops : list Op) (s : OpenAIAssistant * AWorld)
    : OpenAIAssistant * AWorld :=
  match ops with
  | [] => s
  | op :: rest => run_ops rest (snd (run_op op s))
  end.

End WithSdk.

(** The objects a wrapper holds. *)
Definition held (self : OpenAIAssistant) : list ApiObject :=
  (option_list (_assistant self) ++ option_list (_thread self) ++ _files self)%list.

(** The logger and the disk agree: a logger that created its file has
    either written nothing yet, its header waiting in the buffer, or
    flushed everything; one that opened an existing log has flushed
    everything and the log is a header followed by rows of three
    fields. *)
Definition log_ok (logger : IDLogger) (d : Disk) : Prop :=
  if is_new logger then
    (unflushed logger = [HEADER] /\ files d !! csv_file_path logger = Some []) \/
    (unflushed logger = [] /\
     exists body : list Row, files d !! csv_file_path logger = Some (HEADER :: body))
  else
    unflushed logger = [] /\
    exists body : list Row,
      files d !! csv_file_path logger = Some (HEADER :: body) /\
      Forall (fun row => length row = 3%nat) body.

(** The ids in the log at [path]. *)
Definition ids_on_disk (path : string) (d : Disk) : list string :=
  logged_ids (default [] (files d !! path)).

(** The wrapper's invariant: its logger writes to the default log and
    agrees with the disk, and every object the wrapper holds has its id
    in the log. *)
Definition wrapper_ok (S : Sdk) (self : OpenAIAssistant) (w : AWorld) : Prop :=
  csv_file_path (_id_logger self) = id_log_file S /\
  log_ok (_id_logger self) (disk w) /\
  forall object, object ∈ held self -> id object ∈ ids_on_disk (id_log_file S) (disk w).

End Wrapper.

(** ** A concrete service for the wrapper *)
Module WrapperDemo.
Import Assistants AssistantsDemo Wrapper.

(** Each call returns an id that tells its kind and how many calls came
    before; the listing of a thread gives two messages, newest first. *)
Definition sdk : Sdk :=
  {| remote := service;
     id_log_file := log_path;
     returns := fun history c =>
       match c with
       | AssistantsCreate _ _ _ _ => Return "asst_new"
       | AssistantsRetrieve i => Return i
       | FilesCreate _ => Return "file_new"
       | FilesRetrieve i => Return i
       | ThreadsCreate => Return "thread_new"
       | ThreadsRetrieve i => Return i
       | MessagesCreate _ _ _ => Return "msg_new"
       | RunsCreateAndPoll _ _ _ => Return "run_new"
       | MessagesList _ => Return ""
       end;
     returns_list := fun _ _ => Return ["msg_2"; "msg_1"];
     local_file := fun path => if String.eqb path "cv.pdf" then Some "%PDF" else None |}.

Definition world : AWorld := {| disk := empty_disk; calls := []; info := [] |}.

Definition old_world : AWorld := {| disk := old_disk; calls := []; info := [] |}.

(** The wrapper that [OpenAIAssistant(name="cv")] gives in [world], and
    the world afterwards. *)
Definition constructed : OpenAIAssistant :=
  {| _assistant := Some {| class_name := "Assistant"; id := "asst_new" |};
     _thread := None;
     _files := [];
     _id_logger := {| csv_file_path := log_path; is_new := true; unflushed := [] |} |}.

Definition world_after_init : AWorld :=
  {| disk := {| files := {[ log_path :=
                            [HEADER; ["2025-01-01 00:00:00"; "Assistant"; "asst_new"]] ]};
                ticks := 1; deleted := [] |};
     calls := [AssistantsCreate (Some "cv") None "gpt-4o" None];
     info := [] |}.

End WrapperDemo.

(** * Properties *)

(** ** The provider layer *)
Section ProviderFacts.
Import Tenacity Providers Vocabulary.

Lemma transient_is_api_error (e : Exc) : transient e = isinstance e APIError.
Proof.
  unfold transient, isinstance_any, isinstance.
  destruct e as [c msg | last]; simpl; [destruct c; reflexivity | reflexivity].
Qed.

Lemma transient_cases (e : Exc) :
  transient e = true <->
  isinstance e RateLimitError = true \/ isinstance e APIError = true \/
  isinstance e APIConnectionError = true.
Proof.
  unfold transient, isinstance_any. simpl.
  rewrite !orb_true_iff. intuition congruence.
Qed.

Lemma llm_error_not_transient (e : Exc) : transient (wrapped e) = false.
Proof. reflexivity. Qed.

Lemma wait_exponential_bounds (n : nat) :
  (4 <= wait_exponential 1 4 60 n <= 60)%Z.
Proof. unfold wait_exponential. lia. Qed.

Lemma wait_exponential_mono (n : nat) :
  (wait_exponential 1 4 60 n <= wait_exponential 1 4 60 (S n))%Z.
Proof.
  unfold wait_exponential.
  assert (2 ^ (Z.of_nat n - 1) <= 2 ^ (Z.of_nat (S n) - 1))%Z
    by (apply Z.pow_le_mono_r; lia).
  lia.
Qed.

Lemma wait_exponential_formula (n : nat) :
  wait_exponential 1 4 60 n = Z.max 4 (Z.min (2 ^ (Z.of_nat n - 1)) 60).
Proof.
  unfold wait_exponential. rewrite Z.mul_1_l. reflexivity.
Qed.

(** [_prepare_params] builds the parameters that a request is said to
    carry. *)
Lemma prepare_params_request (ep : Endpoint) (is_async : bool) (fmt : option Schema)
    (a : CallArgs) :
  {| endpoint := ep; async_client := is_async; response_format := fmt;
     params := _prepare_params a |} = request_of ep is_async fmt a.
Proof.
  unfold request_of, _prepare_params. do 2 f_equal.
  destruct (max_tokens a) as [n |]; [| reflexivity].
  destruct n; reflexivity.
Qed.

Variable E : Env.

(** [OpenAIProvider(api_key, retry_decorator)] raises without a key and
    touches nothing; with one it returns the two methods of the class
    under the decorator. *)
Lemma OpenAIProvider__init___run (api_key : option string)
    (retry_decorator : option RetryPolicy) (w : World) :
  OpenAIProvider__init__ E api_key retry_decorator w =
  (match api_key, api_key_env E with
   | None, None =>
       Raise (exc OpenAIError
                "The api_key client option must be set either by passing api_key to the client or by setting the OPENAI_API_KEY environment variable")
   | _, _ =>
       Return (BaseProvider__init__
                 (Some (default get_openai_retry_decorator retry_decorator))
                 (chat_completion_method E) (achat_completion_method E))
   end, w).
Proof.
  unfold OpenAIProvider__init__, make_client, bind.
  destruct api_key, (api_key_env E); reflexivity.
Qed.

(** A provider built without a decorator of the caller's. *)
Lemma OpenAIProvider__init___default (api_key : option string) (w w' : World)
    (p : OpenAIProvider) :
  OpenAIProvider__init__ E api_key None w = (Return p, w') ->
  p = provider E /\ w' = w.
Proof.
  rewrite OpenAIProvider__init___run.
  destruct api_key, (api_key_env E); intros [= <- <-]; split; reflexivity.
Qed.

Lemma chat_completion_method_run (a : CallArgs) (w : World) :
  chat_completion_method E a w =
  (match sdk E (api_calls w) (request_of chat_completions_create false None a) with
   | Return c => Return c
   | Raise e => Raise (translated e)
   end,
   record_call (request_of chat_completions_create false None a) w).
Proof.
  unfold chat_completion_method, log_execution, reraise_or_wrap, sync_create, send.
  rewrite (prepare_params_request chat_completions_create false None a).
  destruct (sdk E _ _) as [c | e]; [reflexivity |].
  unfold translated, transient, wrapped. destruct (isinstance_any e _); reflexivity.
Qed.

Lemma achat_completion_method_run (a : CallArgs) (w : World) :
  achat_completion_method E a w =
  (match sdk E (api_calls w) (request_of chat_completions_create true None a) with
   | Return c => Return c
   | Raise e => Raise (translated e)
   end,
   record_call (request_of chat_completions_create true None a) w).
Proof.
  unfold achat_completion_method, log_execution, reraise_or_wrap, await,
    async_create, send.
  rewrite (prepare_params_request chat_completions_create true None a).
  destruct (sdk E _ _) as [c | e]; [reflexivity |].
  unfold translated, transient, wrapped. destruct (isinstance_any e _); reflexivity.
Qed.

Lemma structured_chat_completion_run (a : CallArgs) (fmt : option Schema) (w : World) :
  structured_chat_completion E a fmt w =
  (match sdk E (api_calls w) (request_of beta_chat_completions_parse false fmt a) with
   | Return c =>
       match choices c with
       | ch :: _ => Return (message ch)
       | [] => Raise (wrapped (exc IndexError "list index out of range"))
       end
   | Raise e => Raise (translated e)
   end,
   record_call (request_of beta_chat_completions_parse false fmt a) w).
Proof.
  unfold structured_chat_completion, log_execution, reraise_or_wrap, sync_parse,
    send, bind.
  rewrite (prepare_params_request beta_chat_completions_parse false fmt a).
  destruct (sdk E _ _) as [c | e].
  - destruct (choices c) as [| ch rest]; reflexivity.
  - unfold translated, transient, wrapped. destruct (isinstance_any e _); reflexivity.
Qed.

(** Each attempt of the retried [chat_completion] is one request, and
    each retry is preceded by one sleep. *)
Lemma attempts_chat_completion (P : RetryPolicy) (a : CallArgs) :
  forall (remaining n : nat) (w : World),
    let '(_, w') := attempts P remaining n (chat_completion_method E a) w in
    exists k : nat,
      (1 <= k <= S remaining)%nat /\
      length (api_calls w') = (length (api_calls w) + k)%nat /\
      sleeps w' = (sleeps w ++ map (wait P) (seq n (k - 1)))%list.
Proof.
  induction remaining as [| r IH]; intros n w; simpl;
    rewrite chat_completion_method_run;
    destruct (sdk E _ _) as [c | e].
  - exists 1%nat. simpl. rewrite length_app, app_nil_r. simpl. repeat split; lia.
  - destruct (negb _);
      (exists 1%nat; simpl; rewrite length_app, app_nil_r; simpl; repeat split; lia).
  - exists 1%nat. simpl. rewrite length_app, app_nil_r. simpl. repeat split; lia.
  - destruct (negb _).
    + exists 1%nat. simpl. rewrite length_app, app_nil_r. simpl. repeat split; lia.
    + specialize (IH (S n) (record_sleep (wait P n)
                              (record_call (request_of chat_completions_create false None a) w))).
      destruct (attempts P r (S n) _ _) as [res w'].
      destruct IH as (k & Hk & Hcalls & Hsleeps).
      exists (S k). simpl in Hcalls, Hsleeps. rewrite length_app in Hcalls. simpl in Hcalls.
      repeat split; try lia.
      rewrite Hsleeps, <- app_assoc. simpl.
      replace (k - 0)%nat with (S (k - 1)) by lia. reflexivity.
Qed.

End ProviderFacts.

(** *** The retry policy *)
Section RetryPolicyClaims.
Import Tenacity Providers Vocabulary.

(** C4.  The OpenAI retry decorator: an exception is retried exactly
    when it is an instance of [RateLimitError], [APIError] or
    [APIConnectionError]; the wait before the next attempt is
    [2 ** (attempt_number - 1)] seconds clamped into [4, 60], so it
    never shrinks from one attempt to the next; after a first failed
    attempt the decorated call either lets the exception through or
    sleeps 4 seconds and goes on with attempt 2 of 5; the decorated
    [chat_completion] sends at most 5 requests, sleeping 4, 4, 4 and 8
    seconds in between. *)
Theorem openai_retry_policy :
  let P := get_openai_retry_decorator in
  (forall e : Exc,
      retry_if P e = true <->
      isinstance e RateLimitError = true \/ isinstance e APIError = true \/
      isinstance e APIConnectionError = true) /\
  (forall n : nat,
      (4 <= wait P n <= 60)%Z /\ (wait P n <= wait P (S n))%Z /\
      wait P n = Z.max 4 (Z.min (2 ^ (Z.of_nat n - 1)) 60)) /\
  (forall (A : Type) (fn : M World A) (w : World),
      retry P fn w =
      match fn w with
      | (Return a, w1) => (Return a, w1)
      | (Raise e, w1) =>
          if retry_if P e
          then attempts P 3 2 fn (record_sleep 4 w1)
          else (Raise e, w1)
      end) /\
  (forall (E : Env) (api_key : option string) (p : OpenAIProvider)
          (w0 w1 : World) (a : CallArgs) (w : World),
      OpenAIProvider__init__ E api_key None w0 = (Return p, w1) ->
      let '(_, w') := chat_completion p a w in
      exists k : nat,
        (1 <= k <= 5)%nat /\
        length (api_calls w') = (length (api_calls w) + k)%nat /\
        sleeps w' = (sleeps w ++ take (k - 1) [4; 4; 4; 8]%Z)%list).
Proof.
  repeat split.
  - apply transient_cases.
  - apply transient_cases.
  - apply (wait_exponential_bounds n).
  - apply (wait_exponential_bounds n).
  - apply wait_exponential_mono.
  - apply wait_exponential_formula.
  - intros A fn w. unfold retry.
    change (stop_after get_openai_retry_decorator - 1)%nat with 4%nat.
    cbn [attempts].
    destruct (fn w) as [[a | e] w1]; [reflexivity |].
    change (wait get_openai_retry_decorator 1) with 4%Z.
    destruct (retry_if get_openai_retry_decorator e); reflexivity.
  - intros E api_key p w0 w1 a w Hinit.
    destruct (OpenAIProvider__init___default E api_key w0 w1 p Hinit) as [-> _].
    pose proof (attempts_chat_completion E get_openai_retry_decorator a 4 1 w) as H.
    unfold provider. simpl.
    unfold retry. simpl stop_after. simpl Nat.sub.
    destruct (attempts _ 4 1 _ w) as [res w'].
    destruct H as (k & Hk & Hcalls & Hsleeps).
    exists k. repeat split; try lia. rewrite Hsleeps. f_equal.
    destruct k as [| [| [| [| [| [| k]]]]]]; try lia; reflexivity.
Qed.

(** A service that stays rate limited: five requests, then tenacity's
    [RetryError] around the last [RateLimitError]. *)
Example chat_completion_gives_up :
  OpenAIProvider__init__ Demo.limited_env None None empty_world
    = (Return (provider Demo.limited_env), empty_world) /\
  let '(r, w) := chat_completion (provider Demo.limited_env) Demo.args empty_world in
  r = Raise (retry_error (exc RateLimitError "Rate limit reached")) /\
  length (api_calls w) = 5%nat /\ sleeps w = [4; 4; 4; 8]%Z.
Proof. split; [reflexivity |]. vm_compute. repeat split; reflexivity. Qed.

(** A rate limit on the first request only: [chat_completion] sleeps 4
    seconds and succeeds at the second attempt. *)
Example chat_completion_recovers :
  let '(r, w) := chat_completion (provider Demo.flaky_env) Demo.args empty_world in
  r = Return Demo.completion /\
  length (api_calls w) = 2%nat /\ sleeps w = [4]%Z.
Proof. vm_compute. repeat split; reflexivity. Qed.

(** C8.  Each of the four completion methods translates the exception
    of its underlying call in the same way: an instance of
    [RateLimitError], [APIError] or [APIConnectionError] is raised again
    as it is, any other exception is raised as an [LLMError] that
    carries its text.  For [chat_completion], [achat_completion] and
    [structured_chat_completion] the underlying call raises what the
    service raises, or an [IndexError] when a structured answer has no
    choice; for [astructured_chat_completion] it raises the
    [AttributeError] of reading [choices] on the coroutine.  A method
    returns only when its underlying call returned; so whatever a method
    raises is one of the three transient classes or an [LLMError]. *)
Theorem completion_methods_translate_exceptions (E : Env) (a : CallArgs)
    (fmt : option Schema) (w : World) :
  (forall e : Exc,
      (isinstance e RateLimitError = true \/ isinstance e APIError = true \/
       isinstance e APIConnectionError = true -> translated e = e) /\
      (isinstance e RateLimitError = false -> isinstance e APIError = false ->
       isinstance e APIConnectionError = false ->
       translated e = exc LLMError ("Error calling OpenAI API: " +:+ str e))) /\
  fst (chat_completion_method E a w) =
    match sdk E (api_calls w) (request_of chat_completions_create false None a) with
    | Return c => Return c
    | Raise e => Raise (translated e)
    end /\
  fst (achat_completion_method E a w) =
    match sdk E (api_calls w) (request_of chat_completions_create true None a) with
    | Return c => Return c
    | Raise e => Raise (translated e)
    end /\
  fst (structured_chat_completion E a fmt w) =
    match sdk E (api_calls w) (request_of beta_chat_completions_parse false fmt a) with
    | Return c =>
        match choices c with
        | ch :: _ => Return (message ch)
        | [] => Raise (translated (exc IndexError "list index out of range"))
        end
    | Raise e => Raise (translated e)
    end /\
  fst (astructured_chat_completion E a fmt w) =
    Raise (translated (exc AttributeError "'coroutine' object has no attribute 'choices'")) /\
  (forall x : Exc,
      fst (chat_completion_method E a w) = Raise x \/
      fst (achat_completion_method E a w) = Raise x \/
      fst (structured_chat_completion E a fmt w) = Raise x \/
      fst (astructured_chat_completion E a fmt w) = Raise x ->
      transient x = true \/ exc_class x = LLMError).
Proof.
  assert (Hclass : forall e, transient (translated e) = true \/
                             exc_class (translated e) = LLMError).
  { intros e. unfold translated. destruct (transient e) eqn:He; [left; exact He |].
    right. reflexivity. }
  rewrite chat_completion_method_run, achat_completion_method_run,
    structured_chat_completion_run. cbn [fst].
  split.
  { intros e. unfold translated, transient, isinstance_any, wrapped. cbn [existsb].
    split.
    - intros [H | [H | H]]; rewrite H, ?orb_true_r; reflexivity.
    - intros H1 H2 H3. rewrite H1, H2, H3. reflexivity. }
  split; [reflexivity |]. split; [reflexivity |].
  split; [destruct (sdk E _ _) as [c | e]; [destruct (choices c) |]; reflexivity |].
  split; [reflexivity |].
  intros x [H | [H | [H | H]]].
  - destruct (sdk E _ _); [discriminate |]. injection H as <-. apply Hclass.
  - destruct (sdk E _ _); [discriminate |]. injection H as <-. apply Hclass.
  - destruct (sdk E _ _) as [c | e].
    + destruct (choices c); [| discriminate]. injection H as <-.
      right. reflexivity.
    + injection H as <-. apply Hclass.
  - injection H as <-. right. reflexivity.
Qed.

End RetryPolicyClaims.

(** ** The optimizer's conversation *)
Section ChatCompletionFacts.
Import Tenacity Providers Prompts Vocabulary Optimizer.
Variable E : Env.

(** [_chat_completion] in one step: the user turn is appended, the
    request goes out, and the answer decides the rest. *)
Lemma _chat_completion_run (prompt : string) (fmt : option Schema)
    (o : ResumeOptimizer) (w : World) :
  _chat_completion E prompt fmt (o, w) =
  let o1 := append_message (user_message prompt) o in
  let rq := stage_request o1 fmt in
  match sdk E (api_calls w) rq with
  | Return c =>
      match choices c with
      | ch :: _ =>
          (Return (message ch),
           (append_message (assistant_message (message ch)) o1, record_call rq w))
      | [] =>
          (Raise (wrapped (exc IndexError "list index out of range")),
           (o1, record_call rq w))
      end
  | Raise e => (Raise (translated e), (o1, record_call rq w))
  end.
Proof.
  unfold _chat_completion, bind, modify_self, modify, get, on_snd.
  simpl. rewrite structured_chat_completion_run.
  unfold stage_request, user_message, assistant_message. simpl.
  destruct (sdk E _ _) as [c | e]; [| reflexivity].
  destruct (choices c) as [| ch rest]; reflexivity.
Qed.

End ChatCompletionFacts.


(** ** Paths *)
Section PathFacts.
Import Prompts Vocabulary.

Lemma append_cons (c : ascii) (s b : string) : String c s +:+ b = String c (s +:+ b).
Proof. reflexivity. Qed.

Lemma append_nil_l (b : string) : "" +:+ b = b.
Proof. reflexivity. Qed.

Lemma append_nil_r (s : string) : s +:+ "" = s.
Proof.
  induction s as [| c s IH]; [reflexivity |]. rewrite append_cons, IH. reflexivity.
Qed.

Lemma append_assoc (a b c : string) : (a +:+ b) +:+ c = a +:+ (b +:+ c).
Proof.
  induction a as [| x a IH]; [reflexivity |]. rewrite !append_cons, IH. reflexivity.
Qed.

Lemma length_append (a b : string) :
  String.length (a +:+ b) = (String.length a + String.length b)%nat.
Proof.
  induction a as [| x a IH]; [reflexivity |].
  rewrite append_cons. cbn [String.length]. rewrite IH. reflexivity.
Qed.

Lemma no_slash_append (a b : string) :
  no_slash (a +:+ b) = no_slash a && no_slash b.
Proof.
  induction a as [| x a IH]; [reflexivity |].
  rewrite append_cons. cbn [no_slash]. rewrite IH, andb_assoc. reflexivity.
Qed.

Lemma split_from_no_slash (s : string) :
  no_slash s = true -> forall piece, split_from piece s = [piece +:+ s].
Proof.
  induction s as [| c s IH]; intros Hs piece.
  - cbn [split_from]. rewrite append_nil_r. reflexivity.
  - cbn [no_slash] in Hs. apply andb_true_iff in Hs as [Hc Hs]. cbn [split_from].
    destruct (Ascii.eqb c "/"); [discriminate |].
    rewrite (IH Hs), append_assoc. reflexivity.
Qed.

Lemma split_from_slash (a b : string) :
  no_slash a = true ->
  forall piece, split_from piece (a +:+ String "/" b) = (piece +:+ a) :: split_from "" b.
Proof.
  induction a as [| c a IH]; intros Ha piece.
  - rewrite append_nil_l. cbn [split_from]. rewrite Ascii.eqb_refl, append_nil_r.
    reflexivity.
  - cbn [no_slash] in Ha. apply andb_true_iff in Ha as [Hc Ha].
    rewrite append_cons. cbn [split_from].
    destruct (Ascii.eqb c "/"); [discriminate |].
    rewrite (IH Ha), append_assoc. reflexivity.
Qed.

Lemma ends_with_slash_append (a b : string) :
  b <> "" -> ends_with_slash (a +:+ b) = ends_with_slash b.
Proof.
  intros Hb. induction a as [| c a IH]; [reflexivity |].
  rewrite append_cons. cbn [ends_with_slash]. rewrite IH.
  destruct (a +:+ b) eqn:Hab; [| reflexivity].
  exfalso. destruct a; [rewrite append_nil_l in Hab; contradiction |].
  rewrite append_cons in Hab. discriminate.
Qed.

Lemma no_slash_ends (s : string) : no_slash s = true -> ends_with_slash s = false.
Proof.
  induction s as [| c s IH]; [reflexivity |]. cbn [no_slash ends_with_slash]. intros H.
  apply andb_true_iff in H as [Hc Hs].
  destruct s; [destruct (Ascii.eqb c "/"); [discriminate | reflexivity] | apply IH, Hs].
Qed.

Lemma append_nonempty (a b : string) : b <> "" -> a +:+ b <> "".
Proof.
  intros Hb. destruct a; [exact Hb |]. rewrite append_cons. discriminate.
Qed.

Lemma join_slash_snoc (ps : list string) (x : string) :
  join_slash (ps ++ [x]) =
  match ps with
  | [] => x
  | _ => join_slash ps +:+ "/" +:+ x
  end.
Proof.
  induction ps as [| p ps IH]; [reflexivity |].
  destruct ps as [| q ps]; [reflexivity |].
  change (join_slash ((p :: q :: ps) ++ [x]))
    with (p +:+ "/" +:+ join_slash ((q :: ps) ++ [x])).
  rewrite IH.
  change (join_slash (p :: q :: ps)) with (p +:+ "/" +:+ join_slash (q :: ps)).
  rewrite !append_assoc. reflexivity.
Qed.

(** A plain name is one piece that the libraries keep. *)
Lemma plain_cases (s : string) :
  plain s = true ->
  no_slash s = true /\ s <> "" /\ s <> "." /\ s <> "..".
Proof.
  unfold plain, kept. rewrite !andb_true_iff, !negb_true_iff, orb_false_iff.
  intros [[Hs [H1 H2]] H3]. split; [exact Hs |].
  apply String.eqb_neq in H1, H2, H3. auto.
Qed.

Lemma plain_jinja (name : string) :
  no_slash name = true -> plain (name +:+ ".jinja") = true.
Proof.
  intros Hn. unfold plain, kept. rewrite no_slash_append, Hn.
  assert (Hlen : forall s, (String.length s < 6)%nat ->
                           String.eqb (name +:+ ".jinja") s = false).
  { intros s Hs. apply String.eqb_neq. intros Heq.
    rewrite <- Heq, length_append in Hs. cbn in Hs. lia. }
  rewrite !Hlen by (cbn; lia). reflexivity.
Qed.

Lemma Path__plain (s : string) :
  plain s = true -> Path_ s = {| root := ""; parts := [s] |}.
Proof.
  intros Hs. destruct (plain_cases s Hs) as (Hns & Hne & _).
  unfold Path_, split_slash. rewrite (split_from_no_slash s Hns), append_nil_l.
  cbn [List.filter].
  unfold plain in Hs. apply andb_true_iff in Hs as [Hs _].
  apply andb_true_iff in Hs as [_ Hk]. rewrite Hk. f_equal.
  destruct s as [| c s]; [contradiction |]. cbn in Hns.
  apply andb_true_iff in Hns as [Hc _].
  destruct (Ascii.eqb_spec c "/") as [-> | Hc']; [discriminate |].
  unfold root_of.
  destruct c as [[] [] [] [] [] [] [] []]; try reflexivity; contradiction.
Qed.

(** The pieces of a path hold no slash. *)
Lemma split_from_pieces (s : string) :
  forall piece, no_slash piece = true ->
    Forall (fun p => no_slash p = true) (split_from piece s).
Proof.
  induction s as [| c s IH]; intros piece Hp; cbn [split_from].
  - constructor; [exact Hp | constructor].
  - destruct (Ascii.eqb c "/") eqn:Hc.
    + constructor; [exact Hp | apply IH; reflexivity].
    + apply IH. rewrite no_slash_append, Hp. cbn [no_slash]. rewrite Hc. reflexivity.
Qed.

Lemma kept_pieces (s : string) : Forall piece_ok (List.filter kept (split_slash s)).
Proof.
  pose proof (split_from_pieces s "" eq_refl) as H. unfold split_slash.
  induction H as [| p ps Hp _ IH]; cbn [List.filter]; [constructor |].
  destruct (kept p) eqn:Hk; [| exact IH].
  constructor; [| exact IH]. split; [exact Hp |].
  intros ->. discriminate Hk.
Qed.

Lemma join_slash_cons (p : string) (ps : list string) :
  join_slash (p :: ps) =
  match ps with
  | [] => p
  | _ => p +:+ "/" +:+ join_slash ps
  end.
Proof. destruct ps; reflexivity. Qed.

Lemma join_slash_nonempty (p : string) (ps : list string) :
  p <> "" -> join_slash (p :: ps) <> "".
Proof.
  intros Hp. rewrite join_slash_cons. destruct ps as [| q qs]; [exact Hp |].
  destruct p as [| c p]; [contradiction |]. rewrite append_cons. discriminate.
Qed.

Lemma join_slash_app (a b : list string) :
  a <> [] -> b <> [] ->
  join_slash (a ++ b) = join_slash a +:+ "/" +:+ join_slash b.
Proof.
  intros Ha Hb. induction a as [| p a IH]; [contradiction |].
  destruct a as [| q a].
  - destruct b as [| r b]; [contradiction |]. reflexivity.
  - change (join_slash ((p :: q :: a) ++ b))
      with (p +:+ "/" +:+ join_slash ((q :: a) ++ b)).
    rewrite IH by discriminate.
    change (join_slash (p :: q :: a)) with (p +:+ "/" +:+ join_slash (q :: a)).
    rewrite !append_assoc. reflexivity.
Qed.

Lemma under_nonempty (dir rel : string) :
  rel <> "" -> under dir rel = dir +:+ "/" +:+ rel.
Proof.
  intros H. unfold under. apply String.eqb_neq in H. rewrite H. reflexivity.
Qed.

(** [posixpath.join] of a directory and pieces is the path below it. *)
Lemma posix_join_pieces (pieces : list string) :
  Forall piece_ok pieces ->
  forall dir, String.eqb dir "" = false -> ends_with_slash dir = false ->
    posix_join dir pieces = under dir (join_slash pieces).
Proof.
  induction 1 as [| p ps [Hp Hne] Hps IH]; intros dir Hd1 Hd2.
  - reflexivity.
  - unfold posix_join. cbn [fold_left]. unfold posix_join2 at 2.
    rewrite Hd1, Hd2. cbn [orb]. fold (posix_join (dir +:+ "/" +:+ p) ps).
    rewrite IH.
    + rewrite (under_nonempty dir (join_slash (p :: ps)))
        by (apply join_slash_nonempty, Hne).
      rewrite join_slash_cons. destruct ps as [| q qs]; [reflexivity |].
      inversion Hps as [| ? ? [_ Hq] _]; subst.
      rewrite under_nonempty by (apply join_slash_nonempty, Hq).
      rewrite !append_assoc. reflexivity.
    + apply String.eqb_neq, append_nonempty. discriminate.
    + change ("/" +:+ p) with (String "/" p).
      rewrite ends_with_slash_append by discriminate.
      destruct p as [| c s]; [contradiction |].
      change (ends_with_slash (String "/" (String c s)))
        with (ends_with_slash (String c s)).
      apply no_slash_ends, Hp.
Qed.

Lemma root_of_relative (s : string) : relative s = true -> root_of s = "".
Proof.
  destruct s as [| c s]; [reflexivity |]. unfold relative, root_of.
  destruct c as [[] [] [] [] [] [] [] []]; try reflexivity; discriminate.
Qed.

(** What the pieces of a plain subfolder and a plain name come to. *)
Lemma normal_plain (sub name : string) :
  plain sub = true -> no_slash name = true ->
  normal (template_file sub name) = sub +:+ "/" +:+ name +:+ ".jinja" /\
  has_dotdot (template_file sub name) = false /\
  normal sub = sub /\ relative sub = true.
Proof.
  intros Hs Hn. destruct (plain_cases sub Hs) as (Hns & Hne & _ & Hdd).
  pose proof (plain_jinja name Hn) as Hj.
  destruct (plain_cases _ Hj) as (Hnj & _ & _ & Hjdd).
  assert (Hk : kept sub = true).
  { unfold plain in Hs. apply andb_true_iff in Hs as [Hs _].
    apply andb_true_iff in Hs as [_ Hk]. exact Hk. }
  assert (Hkj : kept (name +:+ ".jinja") = true).
  { unfold plain in Hj. apply andb_true_iff in Hj as [Hj _].
    apply andb_true_iff in Hj as [_ Hk']. exact Hk'. }
  assert (H1 : String.eqb ".." sub = false) by (apply String.eqb_neq; congruence).
  assert (H2 : String.eqb ".." (name +:+ ".jinja") = false)
    by (apply String.eqb_neq; congruence).
  unfold normal, has_dotdot, split_slash, template_file.
  change ("/" +:+ name +:+ ".jinja") with (String "/" (name +:+ ".jinja")).
  rewrite (split_from_slash sub _ Hns), (split_from_no_slash _ Hnj),
    (split_from_no_slash _ Hns), !append_nil_l.
  cbn [existsb List.filter]. rewrite H1, H2, Hk, Hkj.
  repeat split; try reflexivity.
  destruct sub as [| c s]; [contradiction |]. cbn in Hns.
  apply andb_true_iff in Hns as [Hc _]. unfold relative.
  destruct c as [[] [] [] [] [] [] [] []]; try reflexivity; discriminate.
Qed.

Variable E : Env.

(** The prompts directory ends in [prompt_templates]. *)
Lemma prompts_dir_shape : exists pre : string, prompts_dir E = pre +:+ "prompt_templates".
Proof.
  unfold prompts_dir, DEFAULT_PROMPTS_PATH, path_div.
  change (Path_ "prompt_templates") with {| root := ""; parts := ["prompt_templates"] |}.
  cbn [root parts String.eqb]. unfold fspath. cbn [root parts].
  destruct (parts (Path_ (module_dir E))) as [| p ps] eqn:Hps.
  - cbn. exists (root (Path_ (module_dir E))). reflexivity.
  - change ((p :: ps) ++ ["prompt_templates"])%list
      with (p :: (ps ++ ["prompt_templates"]))%list.
    change (p :: ps ++ ["prompt_templates"])%list
      with ((p :: ps) ++ ["prompt_templates"])%list.
    rewrite join_slash_snoc.
    exists (root (Path_ (module_dir E)) +:+ join_slash (p :: ps) +:+ "/").
    rewrite !append_assoc. reflexivity.
Qed.

Lemma prompts_dir_no_slash_end :
  String.eqb (prompts_dir E) "" = false /\ ends_with_slash (prompts_dir E) = false.
Proof.
  destruct prompts_dir_shape as [pre ->]. split.
  - apply String.eqb_neq, append_nonempty. discriminate.
  - rewrite ends_with_slash_append by discriminate. reflexivity.
Qed.

(** The folder of a plain subfolder name. *)
Lemma subfolder_path (sub : string) :
  plain sub = true ->
  fspath (path_div (DEFAULT_PROMPTS_PATH E) sub) = prompts_dir E +:+ "/" +:+ sub.
Proof.
  intros Hs. unfold path_div. rewrite (Path__plain sub Hs). cbn [root parts String.eqb].
  unfold prompts_dir, DEFAULT_PROMPTS_PATH, path_div.
  change (Path_ "prompt_templates") with {| root := ""; parts := ["prompt_templates"] |}.
  cbn [root parts String.eqb]. unfold fspath. cbn [root parts].
  set (ps := parts (Path_ (module_dir E))).
  rewrite (join_slash_snoc (ps ++ ["prompt_templates"]) sub).
  destruct (ps ++ ["prompt_templates"])%list as [| q qs] eqn:Hq.
  { destruct ps; discriminate. }
  rewrite !append_assoc. reflexivity.
Qed.

(** The file that jinja2 opens for a plain subfolder and a plain name. *)
Lemma template_file_pieces (sub name : string) :
  plain sub = true -> no_slash name = true ->
  split_template_path (template_file sub name) = Some [sub; name +:+ ".jinja"].
Proof.
  intros Hs Hn. destruct (plain_cases sub Hs) as (Hns & _ & _ & Hdd).
  pose proof (plain_jinja name Hn) as Hj.
  destruct (plain_cases _ Hj) as (Hnj & _ & _ & Hjdd).
  unfold split_template_path, split_slash, template_file.
  change ("/" +:+ name +:+ ".jinja") with (String "/" (name +:+ ".jinja")).
  rewrite (split_from_slash sub _ Hns), (split_from_no_slash _ Hnj), !append_nil_l.
  cbn [existsb].
  assert (H1 : String.eqb ".." sub = false) by (apply String.eqb_neq; congruence).
  assert (H2 : String.eqb ".." (name +:+ ".jinja") = false)
    by (apply String.eqb_neq; congruence).
  rewrite H1, H2. cbn [orb List.filter].
  unfold plain in Hs, Hj.
  apply andb_true_iff in Hs as [Hs _]. apply andb_true_iff in Hs as [_ ->].
  apply andb_true_iff in Hj as [Hj _]. apply andb_true_iff in Hj as [_ ->].
  reflexivity.
Qed.

Lemma template_file_joined (sub name : string) :
  plain sub = true -> no_slash name = true ->
  posix_join (prompts_dir E) [sub; name +:+ ".jinja"]
  = prompts_dir E +:+ "/" +:+ sub +:+ "/" +:+ name +:+ ".jinja".
Proof.
  intros Hs Hn. destruct (plain_cases sub Hs) as (Hns & Hne & _).
  destruct prompts_dir_no_slash_end as [Hd1 Hd2].
  unfold posix_join. cbn [fold_left]. unfold posix_join2 at 2.
  rewrite Hd1, Hd2. cbn [orb]. unfold posix_join2.
  assert (H1 : String.eqb (prompts_dir E +:+ "/" +:+ sub) "" = false).
  { apply String.eqb_neq, append_nonempty. discriminate. }
  assert (H2 : ends_with_slash (prompts_dir E +:+ "/" +:+ sub) = false).
  { change ("/" +:+ sub) with (String "/" sub).
    rewrite ends_with_slash_append by discriminate.
    destruct sub as [| c s]; [contradiction |].
    change (ends_with_slash (String "/" (String c s)))
      with (ends_with_slash (String c s)).
    apply no_slash_ends, Hns. }
  rewrite H1, H2. cbn [orb]. rewrite !append_assoc. reflexivity.
Qed.

(** The folder that the constructor looks for, for a relative
    subfolder. *)
Lemma subfolder_folder (sub : string) :
  relative sub = true ->
  fspath (path_div (DEFAULT_PROMPTS_PATH E) sub) = folder_of E sub.
Proof.
  intros Hr. unfold path_div, folder_of, normal.
  pose proof (kept_pieces sub) as Hk.
  unfold Path_ at 1 2. cbn [root parts]. rewrite (root_of_relative sub Hr).
  cbn [String.eqb]. unfold prompts_dir, DEFAULT_PROMPTS_PATH, path_div.
  change (Path_ "prompt_templates") with {| root := ""; parts := ["prompt_templates"] |}.
  cbn [root parts String.eqb]. unfold fspath. cbn [root parts].
  set (ps := (parts (Path_ (module_dir E)) ++ ["prompt_templates"])%list).
  assert (Hps : ps <> []) by (subst ps; destruct (parts _); discriminate).
  destruct (List.filter kept (split_slash sub)) as [| q qs] eqn:Hq.
  - rewrite app_nil_r. destruct ps; [contradiction | reflexivity].
  - inversion Hk as [| ? ? [_ Hne] _]; subst.
    rewrite (under_nonempty _ (join_slash (q :: qs)))
      by (apply join_slash_nonempty, Hne).
    rewrite join_slash_app by (exact Hps || discriminate).
    destruct (ps ++ q :: qs)%list eqn:Happ;
      [destruct ps; [contradiction | discriminate] |].
    destruct ps; [contradiction |].
    rewrite !append_assoc. reflexivity.
Qed.

(** The file that jinja2 opens for a template name without [..]. *)
Lemma template_found_at (file : string) :
  has_dotdot file = false ->
  exists pieces : list string,
    split_template_path file = Some pieces /\
    posix_join (prompts_dir E) pieces = under (prompts_dir E) (normal file).
Proof.
  intros Hd. unfold split_template_path. unfold has_dotdot in Hd. rewrite Hd.
  eexists. split; [reflexivity |].
  destruct prompts_dir_no_slash_end as [Hd1 Hd2].
  apply posix_join_pieces; [apply kept_pieces | exact Hd1 | exact Hd2].
Qed.

Lemma template_found_none (file : string) :
  has_dotdot file = true -> split_template_path file = None.
Proof.
  intros Hd. unfold split_template_path. unfold has_dotdot in Hd. rewrite Hd.
  reflexivity.
Qed.

End PathFacts.

(** ** The prompt loader *)
Section PromptLoaderFacts.
Import Prompts Vocabulary.
Variable E : Env.

Lemma __init___run (sub : string) (w : World) :
  __init__ E sub w =
  if exists_ E (fspath (path_div (DEFAULT_PROMPTS_PATH E) sub))
  then (Return {| subfolder := sub;
                  template_path := path_div (DEFAULT_PROMPTS_PATH E) sub;
                  template_env := {| searchpath := prompts_dir E;
                                     trim_blocks := true; lstrip_blocks := true |};
                  _templates := ∅ |}, w)
  else (Raise (exc ValueError
                 ("Subfolder '" +:+ sub +:+ "' does not exist in prompts directory")),
        w).
Proof. unfold __init__. destruct (exists_ E _); reflexivity. Qed.

Lemma __init___ok (sub : string) (w w' : World) (l : PromptLoader) :
  __init__ E sub w = (Return l, w') ->
  loader_ok E l /\ subfolder l = sub /\ w' = w.
Proof.
  rewrite __init___run. destruct (exists_ E _); [| discriminate].
  intros [= <- <-]. split; [split; [reflexivity |] | split; reflexivity].
  intros n t Hn. simpl in Hn. rewrite lookup_empty in Hn. discriminate.
Qed.

Lemma get_template_pair (env : Environment) (file : string) (w : World) :
  get_template E env file w = (fst (get_template E env file w), record_load file w).
Proof. reflexivity. Qed.

(** What jinja2 returns was found under the search path and compiles. *)
Lemma get_template_returns (env : Environment) (file : string) (w : World)
    (t : Template) :
  fst (get_template E env file w) = Return t ->
  searchpath env = prompts_dir E ->
  filename t = file /\ found_source E file = Some (source t) /\
  compile_source E (source t) = None /\
  template_id t = length (template_loads w).
Proof.
  unfold get_template, found_source. cbn [fst]. intros H Hsp. rewrite Hsp in H.
  destruct (split_template_path file) as [pieces |]; [| discriminate].
  destruct (fs E _) as [[| src | pages] |]; try discriminate.
  destruct (compile_source E src) eqn:Hc; [discriminate |].
  injection H as <-. cbn. auto.
Qed.

(** The file under the prompts directory decides what jinja2 gives for
    a template name. *)
Lemma get_template_at (file : string) (env : Environment) (w : World) :
  searchpath env = prompts_dir E ->
  fst (get_template E env file w) =
  if has_dotdot file then Raise (exc TemplateNotFound file)
  else
    match fs E (under (prompts_dir E) (normal file)) with
    | Some (File src) =>
        match compile_source E src with
        | None => Return {| template_id := length (template_loads w);
                            filename := file; source := src |}
        | Some e => Raise e
        end
    | Some (PdfFile _) => Raise (exc UnicodeDecodeError "'utf-8' codec can't decode byte")
    | _ => Raise (exc TemplateNotFound file)
    end.
Proof.
  intros Hsp. unfold get_template. cbn [fst].
  destruct (has_dotdot file) eqn:Hd.
  - rewrite (template_found_none file Hd). reflexivity.
  - destruct (template_found_at E file Hd) as (pieces & -> & Hj).
    rewrite Hsp, Hj. reflexivity.
Qed.

Lemma found_source_at (file : string) :
  found_source E file =
  if has_dotdot file then None
  else match fs E (under (prompts_dir E) (normal file)) with
       | Some (File src) => Some src
       | _ => None
       end.
Proof.
  unfold found_source. destruct (has_dotdot file) eqn:Hd.
  - rewrite (template_found_none file Hd). reflexivity.
  - destruct (template_found_at E file Hd) as (pieces & -> & ->). reflexivity.
Qed.

(** For a plain subfolder and a plain name, the file
    [<prompts>/<subfolder>/<name>.jinja] decides what jinja2 gives. *)
Lemma get_template_plain (sub name : string) (env : Environment) (w : World) :
  plain sub = true -> no_slash name = true ->
  searchpath env = prompts_dir E ->
  fst (get_template E env (template_file sub name) w) =
  match fs E (template_file_path E sub name) with
  | Some (File src) =>
      match compile_source E src with
      | None => Return {| template_id := length (template_loads w);
                          filename := template_file sub name; source := src |}
      | Some e => Raise e
      end
  | Some (PdfFile _) => Raise (exc UnicodeDecodeError "'utf-8' codec can't decode byte")
  | _ => Raise (exc TemplateNotFound (template_file sub name))
  end.
Proof.
  intros Hs Hn Hsp. unfold get_template. cbn [fst].
  rewrite (template_file_pieces sub name Hs Hn), Hsp,
    (template_file_joined E sub name Hs Hn).
  reflexivity.
Qed.

Lemma found_source_plain (sub name : string) :
  plain sub = true -> no_slash name = true ->
  found_source E (template_file sub name) = template_source E sub name.
Proof.
  intros Hs Hn. unfold found_source, template_source.
  rewrite (template_file_pieces sub name Hs Hn),
    (template_file_joined E sub name Hs Hn).
  reflexivity.
Qed.

(** [__getattr__] in one step. *)
Lemma __getattr___run (template_name : string) (l : PromptLoader) (w : World) :
  __getattr__ E template_name (l, w) =
  match _templates l !! template_name with
  | Some t => (Return t, (l, w))
  | None =>
      let file := template_file (subfolder l) template_name in
      match fst (get_template E (template_env l) file w) with
      | Return t =>
          (Return t,
           (set_templates (<[template_name := t]> (_templates l)) l,
            record_load file w))
      | Raise e =>
          (Raise (if isinstance e TemplateNotFound
                  then exc AttributeError
                         ("No template file '" +:+ template_name +:+
                          ".jinja' found in '" +:+ subfolder l +:+ "' subfolder")
                  else e),
           (l, record_load file w))
      end
  end.
Proof.
  unfold __getattr__, bind, get. simpl.
  destruct (_templates l !! template_name) as [t |] eqn:Hc.
  - rewrite bool_decide_eq_false_2 by discriminate. simpl. rewrite Hc. reflexivity.
  - rewrite bool_decide_eq_true_2 by reflexivity.
    unfold load_into_cache, template_file, bind, get_template. cbn [fst].
    destruct (match split_template_path _ with Some _ => _ | None => _ end)
      as [t | e].
    + simpl. rewrite lookup_insert_eq. reflexivity.
    + simpl. destruct (isinstance e TemplateNotFound); reflexivity.
Qed.

(** A cached name is answered from the cache, and nothing changes. *)
Lemma __getattr___cached (template_name : string) (l : PromptLoader) (w : World)
    (t : Template) :
  _templates l !! template_name = Some t ->
  __getattr__ E template_name (l, w) = (Return t, (l, w)).
Proof. intros H. rewrite __getattr___run, H. reflexivity. Qed.

(** An access leaves the entries of the cache as they are. *)
Lemma __getattr___keeps (n template_name : string) (l : PromptLoader) (w : World)
    (t : Template) :
  _templates l !! template_name = Some t ->
  _templates (fst (snd (__getattr__ E n (l, w)))) !! template_name = Some t.
Proof.
  intros H. rewrite __getattr___run.
  destruct (_templates l !! n) as [t' |] eqn:Hn; [exact H |].
  cbv zeta. destruct (fst (get_template E _ _ w)) as [t' | e]; simpl; [| exact H].
  rewrite lookup_insert_ne; [exact H | congruence].
Qed.

Lemma run_accesses_keeps (names : list string) (template_name : string)
    (t : Template) :
  forall (l : PromptLoader) (w : World),
    _templates l !! template_name = Some t ->
    _templates (fst (run_accesses E names (l, w))) !! template_name = Some t.
Proof.
  induction names as [| n rest IH]; intros l w H; simpl; [exact H |].
  pose proof (__getattr___keeps n template_name l w t H) as Hk.
  destruct (__getattr__ E n (l, w)) as [r [l' w']]. simpl in *.
  apply IH. exact Hk.
Qed.

(** An access keeps the loader sound, its subfolder, and all of the
    world but the record of loads. *)
Lemma __getattr___preserves (n : string) (l : PromptLoader) (w : World) :
  loader_ok E l ->
  let st := snd (__getattr__ E n (l, w)) in
  loader_ok E (fst st) /\ subfolder (fst st) = subfolder l /\
  same_but_loads w (snd st).
Proof.
  intros [Hsp Hc]. rewrite __getattr___run.
  assert (Hsame : forall file, same_but_loads w (record_load file w))
    by (intros file; unfold same_but_loads; simpl; auto).
  assert (Hrefl : same_but_loads w w) by (unfold same_but_loads; auto).
  destruct (_templates l !! n) as [t' |] eqn:Hn; cbv zeta.
  { split; [split; assumption | split; [reflexivity | exact Hrefl]]. }
  destruct (fst (get_template E _ _ w)) as [t' | e] eqn:Hg; cbn [fst snd].
  2: { split; [split; assumption | split; [reflexivity | apply Hsame]]. }
  split; [| split; [reflexivity | apply Hsame]].
  destruct (get_template_returns _ _ _ _ Hg Hsp) as (Hf & Hfound & Hcomp & _).
  split; [exact Hsp |]. simpl. intros m t Hm.
  destruct (decide (n = m)) as [<- | Hne].
  - rewrite lookup_insert_eq in Hm. injection Hm as <-.
    split; [exact Hf |]. split; [rewrite Hf; exact Hfound | exact Hcomp].
  - rewrite lookup_insert_ne in Hm by exact Hne. apply (Hc _ _ Hm).
Qed.

(** Sound or not, an access keeps the subfolder and all of the world
    but the record of loads. *)
Lemma __getattr___frame (n : string) (l : PromptLoader) (w : World) :
  let st := snd (__getattr__ E n (l, w)) in
  subfolder (fst st) = subfolder l /\ same_but_loads w (snd st).
Proof.
  rewrite __getattr___run.
  destruct (_templates l !! n) as [t |]; cbv zeta.
  { split; [reflexivity | unfold same_but_loads; auto]. }
  destruct (fst (get_template E _ _ w)) as [t | e]; cbn [fst snd];
    (split; [reflexivity | unfold same_but_loads; simpl; auto]).
Qed.

(** On a sound loader the file decides what the access of a name
    gives, when no piece of the path is [..]. *)
Lemma __getattr___resolves_at (template_name : string) (l : PromptLoader) (w : World) :
  loader_ok E l ->
  has_dotdot (template_file (subfolder l) template_name) = false ->
  match fs E (file_of E (subfolder l) template_name) with
  | Some (File src) =>
      match compile_source E src with
      | None =>
          exists t : Template,
            fst (__getattr__ E template_name (l, w)) = Return t /\
            filename t = template_file (subfolder l) template_name /\
            source t = src
      | Some e =>
          fst (__getattr__ E template_name (l, w)) =
          Raise (if isinstance e TemplateNotFound
                 then exc AttributeError
                        ("No template file '" +:+ template_name +:+
                         ".jinja' found in '" +:+ subfolder l +:+ "' subfolder")
                 else e)
      end
  | Some (PdfFile _) =>
      fst (__getattr__ E template_name (l, w)) =
      Raise (exc UnicodeDecodeError "'utf-8' codec can't decode byte")
  | _ =>
      fst (__getattr__ E template_name (l, w)) =
      Raise (exc AttributeError
               ("No template file '" +:+ template_name +:+
                ".jinja' found in '" +:+ subfolder l +:+ "' subfolder"))
  end.
Proof.
  intros [Hsp Hc] Hd. rewrite __getattr___run. unfold file_of.
  destruct (_templates l !! template_name) as [t |] eqn:Hcached.
  - destruct (Hc _ _ Hcached) as (Hf & Hfound & Hcomp).
    rewrite Hf, found_source_at, Hd in Hfound.
    destruct (fs E _) as [[| src | pages] |]; try discriminate.
    injection Hfound as ->. rewrite Hcomp. exists t. auto.
  - cbv zeta. rewrite (get_template_at _ _ _ Hsp), Hd.
    destruct (fs E _) as [[| src | pages] |]; try reflexivity.
    destruct (compile_source E src); [reflexivity |].
    eexists. split; [reflexivity |]. split; reflexivity.
Qed.

(** With a piece [..] in the path, jinja2 finds no template. *)
Lemma __getattr___dotdot (template_name : string) (l : PromptLoader) (w : World) :
  loader_ok E l ->
  has_dotdot (template_file (subfolder l) template_name) = true ->
  fst (__getattr__ E template_name (l, w)) =
  Raise (exc AttributeError
           ("No template file '" +:+ template_name +:+
            ".jinja' found in '" +:+ subfolder l +:+ "' subfolder")).
Proof.
  intros [Hsp Hc] Hd. rewrite __getattr___run.
  destruct (_templates l !! template_name) as [t |] eqn:Hcached.
  - destruct (Hc _ _ Hcached) as (Hf & Hfound & _).
    rewrite Hf, found_source_at, Hd in Hfound. discriminate.
  - cbv zeta. rewrite (get_template_at _ _ _ Hsp), Hd. reflexivity.
Qed.

(** On a sound loader of a plain subfolder, the file decides what the
    access of a plain name gives. *)
Lemma __getattr___resolves (template_name : string) (l : PromptLoader) (w : World) :
  loader_ok E l ->
  plain (subfolder l) = true -> no_slash template_name = true ->
  match fs E (template_file_path E (subfolder l) template_name) with
  | Some (File src) =>
      match compile_source E src with
      | None =>
          exists t : Template,
            fst (__getattr__ E template_name (l, w)) = Return t /\
            filename t = template_file (subfolder l) template_name /\
            source t = src
      | Some e =>
          fst (__getattr__ E template_name (l, w)) =
          Raise (if isinstance e TemplateNotFound
                 then exc AttributeError
                        ("No template file '" +:+ template_name +:+
                         ".jinja' found in '" +:+ subfolder l +:+ "' subfolder")
                 else e)
      end
  | Some (PdfFile _) =>
      fst (__getattr__ E template_name (l, w)) =
      Raise (exc UnicodeDecodeError "'utf-8' codec can't decode byte")
  | _ =>
      fst (__getattr__ E template_name (l, w)) =
      Raise (exc AttributeError
               ("No template file '" +:+ template_name +:+
                ".jinja' found in '" +:+ subfolder l +:+ "' subfolder"))
  end.
Proof.
  intros [Hsp Hc] Hs Hn. rewrite __getattr___run.
  destruct (_templates l !! template_name) as [t |] eqn:Hcached.
  - destruct (Hc _ _ Hcached) as (Hf & Hfound & Hcomp).
    rewrite Hf, (found_source_plain _ _ Hs Hn) in Hfound.
    unfold template_source, template_file_path in *.
    destruct (fs E _) as [[| src | pages] |]; try discriminate.
    injection Hfound as ->. rewrite Hcomp. exists t. auto.
  - cbv zeta. rewrite (get_template_plain _ _ _ _ Hs Hn Hsp).
    destruct (fs E _) as [[| src | pages] |]; try reflexivity.
    destruct (compile_source E src); [reflexivity |].
    eexists. split; [reflexivity |]. split; reflexivity.
Qed.

(** The instance holds none of the names outside its five attributes. *)
Lemma instance_attribute_none (l : PromptLoader) (name : string) :
  name ∉ instance_attributes -> instance_attribute l name = None.
Proof.
  unfold instance_attributes, instance_attribute. intros H.
  repeat (apply not_elem_of_cons in H as [H0 H];
          apply String.eqb_neq in H0; rewrite H0; clear H0).
  reflexivity.
Qed.

(** For a name that neither the instance nor the class has, the access
    is the call of [__getattr__]. *)
Lemma getattr_run (name : string) (l : PromptLoader) (w : World) :
  name ∉ instance_attributes -> class_attribute E name = false ->
  getattr E name (l, w) =
  match __getattr__ E name (l, w) with
  | (Return t, s) => (Return (attr_template t), s)
  | (Raise e, s) => (Raise e, s)
  end.
Proof.
  intros Hi Hc. unfold getattr, bind, get. cbn [fst].
  rewrite (instance_attribute_none l name Hi), Hc.
  destruct (__getattr__ E name (l, w)) as [[t | e] s]; reflexivity.
Qed.

End PromptLoaderFacts.

Section PromptLoaderClaims.
Import Prompts Vocabulary.

Lemma run_accesses_preserves (E : Env) (names : list string) :
  forall (l : PromptLoader) (w : World),
    loader_ok E l ->
    loader_ok E (fst (run_accesses E names (l, w))) /\
    subfolder (fst (run_accesses E names (l, w))) = subfolder l.
Proof.
  induction names as [| n rest IH]; intros l w Hok; simpl; [auto |].
  destruct (__getattr___preserves E n l w Hok) as (Hok' & Hsub & _).
  destruct (__getattr__ E n (l, w)) as [r [l' w']]. simpl in *.
  destruct (IH l' w' Hok') as [H1 H2]. split; [exact H1 | congruence].
Qed.

(** C7, as the claim has it, fails.  On the demo files: the file
    [optimization/broken.jinja] exists, and its access raises jinja2's
    [TemplateSyntaxError]; the name [subfolder] is an attribute of the
    instance, and its access returns the subfolder's name where no file
    [subfolder.jinja] exists; the absolute subfolder [/home/cv.pdf]
    exists, so the loader is built, though the prompts directory holds
    no such subfolder; and through the subfolder
    [../prompt_templates/optimization] the file [stage_1.jinja] exists,
    and its access raises an [AttributeError]. *)
Lemma prompt_loader_resolves_templates_counterexample :
  ~ resolves_as_specified Demo.env "optimization" "broken" empty_world /\
  ~ resolves_as_specified Demo.env "optimization" "subfolder" empty_world /\
  ~ resolves_as_specified Demo.env "/home/cv.pdf" "stage_1" empty_world /\
  ~ resolves_as_specified Demo.env "../prompt_templates/optimization" "stage_1"
      empty_world.
Proof.
  repeat split; intros H; vm_compute in H.
  - destruct H as [_ [H _]]. discriminate H.
  - destruct H as [_ H]. exact H.
  - destruct H as [H _]. apply H. reflexivity.
  - destruct H as [_ [_ [H | H]]]; discriminate H.
Qed.

(** C7.  For a relative subfolder, and a name that is no attribute of
    the instance or of the class, with no piece [..] in
    [<subfolder>/<name>.jinja]: [PromptLoader(subfolder)] raises, and
    then a [ValueError], exactly when the subfolder does not exist
    under the prompts directory.  On a loader it has built, and after
    any accesses made meanwhile, the access of [name] returns the
    template loaded from [<subfolder>/<name>.jinja] when that is a
    regular file that jinja2 compiles; it raises what jinja2 raised on
    compiling it, as an [AttributeError] when that was a
    [TemplateNotFound]; it raises a [UnicodeDecodeError] when the file
    is no UTF-8 text; and it raises an [AttributeError] when there is no
    regular file of that name. *)
Theorem prompt_loader_resolves_templates (E : Env) (subfolder_ : string)
    (w : World) (earlier : list string) (template_name : string) :
  relative subfolder_ = true ->
  has_dotdot (template_file subfolder_ template_name) = false ->
  template_name ∉ instance_attributes ->
  class_attribute E template_name = false ->
  match __init__ E subfolder_ w with
  | (Raise e, _) =>
      exc_class e = ValueError /\ fs E (folder_of E subfolder_) = None
  | (Return l, w') =>
      fs E (folder_of E subfolder_) <> None /\
      let st := run_accesses E earlier (l, w') in
      let not_found :=
        exc AttributeError
          ("No template file '" +:+ template_name +:+ ".jinja' found in '" +:+
           subfolder_ +:+ "' subfolder") in
      match fs E (file_of E subfolder_ template_name) with
      | Some (File src) =>
          match compile_source E src with
          | None =>
              exists t : Template,
                fst (getattr E template_name st) = Return (attr_template t) /\
                filename t = template_file subfolder_ template_name /\
                source t = src
          | Some e =>
              fst (getattr E template_name st) =
              Raise (if isinstance e TemplateNotFound then not_found else e)
          end
      | Some (PdfFile _) =>
          fst (getattr E template_name st) =
          Raise (exc UnicodeDecodeError "'utf-8' codec can't decode byte")
      | _ => fst (getattr E template_name st) = Raise not_found
      end
  end.
Proof.
  intros Hrel Hdd Hinst Hclass.
  assert (Hget : forall st, fst (getattr E template_name st) =
                            match fst (__getattr__ E template_name st) with
                            | Return t => Return (attr_template t)
                            | Raise e => Raise e
                            end).
  { intros [l0 w0]. rewrite (getattr_run E _ _ _ Hinst Hclass).
    destruct (__getattr__ E template_name (l0, w0)) as [[t | e] s]; reflexivity. }
  destruct (__init__ E subfolder_ w) as [[l | e] w'] eqn:Hinit.
  - destruct (__init___ok E _ _ _ _ Hinit) as (Hok & Hsub & ->).
    rewrite __init___run, (subfolder_folder E _ Hrel) in Hinit.
    unfold exists_ in Hinit.
    destruct (fs E (folder_of E subfolder_)) eqn:Hex; [| discriminate].
    split; [discriminate |]. cbv zeta.
    destruct (run_accesses_preserves E earlier l w Hok) as [Hok' Hsub'].
    destruct (run_accesses E earlier (l, w)) as [l' w'] eqn:Hrun. simpl in Hok', Hsub'.
    rewrite Hget.
    assert (Hs : subfolder l' = subfolder_) by congruence.
    pose proof (__getattr___resolves_at E template_name l' w' Hok') as H.
    rewrite Hs in H. specialize (H Hdd).
    destruct (fs E (file_of E subfolder_ template_name)) as [[| src | pages] |];
      try (rewrite H; reflexivity).
    destruct (compile_source E src) as [e |]; [rewrite H; reflexivity |].
    destruct H as (t & -> & Hf & Hsrc). exists t. auto.
  - rewrite __init___run, (subfolder_folder E _ Hrel) in Hinit.
    unfold exists_ in Hinit.
    destruct (fs E (folder_of E subfolder_)) eqn:Hex; [discriminate |].
    injection Hinit as <- <-. split; reflexivity.
Qed.

Lemma prompt_loader_resolves_templates_witness :
  let l := set_templates ∅ Demo.loader in
  let st := run_accesses Demo.env ["stage_2"; "missing"] (l, empty_world) in
  relative "optimization" = true /\
  has_dotdot (template_file "optimization" "stage_1") = false /\
  ("stage_1" ∉ instance_attributes) /\
  class_attribute Demo.env "stage_1" = false /\
  __init__ Demo.env "optimization" empty_world = (Return l, empty_world) /\
  fs Demo.env (file_of Demo.env "optimization" "stage_1")
    = Some (File "Analyze the job.") /\
  exists t : Template,
    fst (getattr Demo.env "stage_1" st) = Return (attr_template t) /\
    filename t = "optimization/stage_1.jinja" /\
    source t = "Analyze the job.".
Proof.
  assert (Hin : "stage_1" ∉ instance_attributes).
  { unfold instance_attributes. intros H.
    repeat (apply elem_of_cons in H as [H | H]; [discriminate H |]).
    inversion H. }
  pose proof (prompt_loader_resolves_templates Demo.env "optimization" empty_world
                ["stage_2"; "missing"] "stage_1" eq_refl eq_refl Hin eq_refl) as H.
  change (__init__ Demo.env "optimization" empty_world)
    with (Return (set_templates ∅ Demo.loader), empty_world) in H.
  destruct H as [_ H]. cbv zeta in H.
  change (fs Demo.env (file_of Demo.env "optimization" "stage_1"))
    with (Some (File "Analyze the job.")) in H.
  change (compile_source Demo.env "Analyze the job.") with (@None Exc) in H.
  repeat split; try reflexivity; [exact Hin | exact H].
Defined.

(** C10.  A successful access of [name] leaves the template in the
    cache, and every later access of [name], whatever was accessed in
    between, returns that same [Template] object and changes neither
    the loader nor the world: jinja2 is not asked again.  When the
    name was not cached before, that one access is one load. *)
Theorem template_access_is_cached (E : Env) (l l1 : PromptLoader) (w w1 : World)
    (template_name : string) (t : Template) (between : list string) :
  __getattr__ E template_name (l, w) = (Return t, (l1, w1)) ->
  _templates l1 !! template_name = Some t /\
  (let st := run_accesses E between (l1, w1) in
   __getattr__ E template_name st = (Return t, st)) /\
  (_templates l !! template_name = None ->
   template_loads w1 =
   (template_loads w ++ [template_file (subfolder l) template_name])%list).
Proof.
  intros Hget.
  assert (Hcached : _templates l1 !! template_name = Some t).
  { rewrite __getattr___run in Hget.
    destruct (_templates l !! template_name) as [t0 |] eqn:Hn.
    - injection Hget as <- <- <-. exact Hn.
    - cbv zeta in Hget.
      destruct (fst (get_template E _ _ w)) as [t0 | e]; [| discriminate].
      injection Hget as <- <- <-. simpl. apply lookup_insert_eq. }
  split; [exact Hcached |]. split.
  - simpl.
    pose proof (run_accesses_keeps E between template_name t l1 w1 Hcached) as Hk.
    destruct (run_accesses E between (l1, w1)) as [l2 w2]. simpl in Hk.
    apply __getattr___cached. exact Hk.
  - intros Hnone. rewrite __getattr___run, Hnone in Hget. cbv zeta in Hget.
    destruct (fst (get_template E _ _ w)) as [t0 | e]; [| discriminate].
    injection Hget as <- <- <-. reflexivity.
Qed.

Lemma template_access_is_cached_witness :
  let l0 := Demo.loader in
  let t := {| template_id := 1; filename := "optimization/stage_1.jinja";
              source := "Analyze the job." |} in
  let l1 := set_templates (<["stage_1" := t]> (_templates l0)) l0 in
  let w1 := record_load "optimization/stage_1.jinja" Demo.world_after_init in
  __getattr__ Demo.env "stage_1" (l0, Demo.world_after_init) = (Return t, (l1, w1)) /\
  _templates l1 !! "stage_1" = Some t /\
  __getattr__ Demo.env "stage_1"
    (run_accesses Demo.env ["stage_2"; "stage_1"; "missing"] (l1, w1)) =
  (Return t, run_accesses Demo.env ["stage_2"; "stage_1"; "missing"] (l1, w1)).
Proof.
  intros l0 t l1 w1.
  assert (H : __getattr__ Demo.env "stage_1" (l0, Demo.world_after_init)
              = (Return t, (l1, w1))) by reflexivity.
  split; [exact H |].
  destruct (template_access_is_cached Demo.env l0 l1 Demo.world_after_init w1
              "stage_1" t ["stage_2"; "stage_1"; "missing"] H) as (H1 & H2 & _).
  split; [exact H1 | exact H2].
Defined.

(** The constructor and the kinds of access on the demo files. *)
Example prompt_loader_demo :
  fst (__init__ Demo.env "nowhere" empty_world) =
    Raise (exc ValueError "Subfolder 'nowhere' does not exist in prompts directory") /\
  fst (getattr Demo.env "stage_9" (Demo.loader, empty_world)) =
    Raise (exc AttributeError
             "No template file 'stage_9.jinja' found in 'optimization' subfolder") /\
  fst (getattr Demo.env "stage_3" (Demo.loader, empty_world)) =
    Return (attr_template
              {| template_id := 0; filename := "optimization/stage_3.jinja";
                 source := "Prioritize." |}) /\
  fst (getattr Demo.env "broken" (Demo.loader, empty_world)) =
    Raise (exc TemplateSyntaxError
             "Expected an expression, got 'end of statement block'") /\
  fst (getattr Demo.env "subfolder" (Demo.loader, empty_world)) =
    Return (attr_subfolder "optimization") /\
  fst (getattr Demo.env "__init__" (Demo.loader, empty_world)) =
    Return (attr_of_class "__init__") /\
  (exists l : PromptLoader,
     fst (__init__ Demo.env "/home/cv.pdf" empty_world) = Return l /\
     template_path l = {| root := "/"; parts := ["home"; "cv.pdf"] |}).
Proof.
  repeat split; try reflexivity. eexists. split; reflexivity.
Qed.

End PromptLoaderClaims.
(** ** What the optimizer leaves alone *)
Section Frame.
Import Providers Prompts Vocabulary Optimizer.
Variable E : Env.

Lemma extends_refl (s : ResumeOptimizer * World) : extends E s s.
Proof.
  split; [reflexivity |]. split; [reflexivity |].
  split; [reflexivity | intros H; exact H].
Qed.

Lemma extends_trans (s1 s2 s3 : ResumeOptimizer * World) :
  extends E s1 s2 -> extends E s2 s3 -> extends E s1 s3.
Proof.
  intros (Hm & Ho & Hh & Hk) (Hm' & Ho' & Hh' & Hk').
  split; [etransitivity; eassumption |].
  split; [congruence |]. split; [congruence | auto].
Qed.

Lemma steady_ret {A} (a : A) : steady E (ret a).
Proof. intros s. apply extends_refl. Qed.

Lemma steady_bind {A B} (c : M (ResumeOptimizer * World) A)
    (k : A -> M (ResumeOptimizer * World) B) :
  steady E c -> (forall a, steady E (k a)) -> steady E (bind c k).
Proof.
  intros Hc Hk s. unfold bind. specialize (Hc s).
  destruct (c s) as [[a | e] s1]; simpl in *; [| exact Hc].
  eapply extends_trans; [exact Hc | apply Hk].
Qed.

Lemma steady_forget {A} (c : M (ResumeOptimizer * World) A) :
  steady E c -> steady E (forget c).
Proof. intros H. apply steady_bind; [exact H | intros a; apply steady_ret]. Qed.

(** A template access changes the loader's cache and the record of
    loads, and nothing else. *)
Lemma with_prompts_frame (n : string) (o : ResumeOptimizer) (w : World) :
  let s' := snd (with_prompts (__getattr__ E n) (o, w)) in
  messages (fst s') = messages o /\ model (fst s') = model o /\
  same_but_loads w (snd s') /\
  (optimizer_ok E o -> optimizer_ok E (fst s')).
Proof.
  unfold with_prompts.
  pose proof (__getattr___preserves E n (prompts o) w) as Hp.
  pose proof (__getattr___frame E n (prompts o) w) as [Hsub Hsame].
  destruct (__getattr__ E n (prompts o, w)) as [r [p w']]. simpl in *.
  split; [reflexivity |]. split; [reflexivity |]. split; [exact Hsame |].
  intros [Hok Hs]. destruct (Hp Hok) as (Hok' & _ & _).
  split; [exact Hok' | simpl; congruence].
Qed.

Lemma steady_template (n : string) : steady E (with_prompts (__getattr__ E n)).
Proof.
  intros [o w].
  pose proof (with_prompts_frame n o w) as H. cbv zeta in H.
  destruct H as (Hm & Hmo & (Hh & _) & Hok).
  unfold extends. cbn [fst snd].
  split; [rewrite Hm; reflexivity |].
  split; [exact Hmo |]. split; [exact Hh | exact Hok].
Qed.

Lemma steady_deref (r : nat) : steady E (deref (O := ResumeOptimizer) r).
Proof.
  intros [o w]. unfold deref. destruct (heap w !! r); apply extends_refl.
Qed.

Lemma steady__chat_completion (message : string) (fmt : option Schema) :
  steady E (_chat_completion E message fmt).
Proof.
  intros [o w]. rewrite _chat_completion_run. simpl.
  destruct (sdk E _ _) as [c | e]; [destruct (choices c) as [| ch rest] |];
    simpl; (split; [| split; [reflexivity | split; [reflexivity | intros H; exact H]]]).
  all: repeat apply prefix_app_r; reflexivity.
Qed.

Lemma steady_render (t : Template) (kwargs : list (string * option string)) :
  steady E (render E t kwargs).
Proof.
  intros s. unfold render, lift_result.
  destruct (render_source E (source t) kwargs); apply extends_refl.
Qed.

Lemma steady_print_as_yaml (m : Message) : steady E (print_as_yaml E m).
Proof.
  intros [o w]. split; [reflexivity |]. split; [reflexivity |].
  split; [reflexivity | intros H; exact H].
Qed.

Lemma steady_run_stage (st : Stage) : steady E (run_stage E st).
Proof.
  destruct st; simpl; unfold stage_1, stage_2, stage_3, stage_4, stage_5;
    repeat (first [ apply steady__chat_completion
                  | apply steady_template
                  | apply steady_render
                  | apply steady_deref
                  | apply steady_ret
                  | apply steady_bind; [| intros ?]
                  | progress cbv zeta ]).
Qed.

Lemma steady_run_stages (sts : list Stage) : steady E (run_stages E sts).
Proof.
  induction sts as [| st rest IH]; simpl; [apply steady_ret |].
  apply steady_bind; [apply steady_run_stage | intros m].
  apply steady_bind; [exact IH | intros ms; apply steady_ret].
Qed.

Lemma steady_optimize_resume (jd : string) (r : nat) (prefs : option string) :
  steady E (optimize_resume E jd r prefs).
Proof.
  unfold optimize_resume.
  repeat (first [ apply (steady_run_stage (Stage1 jd prefs))
                | apply (steady_run_stage (Stage2 r))
                | apply (steady_run_stage Stage3)
                | apply (steady_run_stage Stage4)
                | apply (steady_run_stage Stage5)
                | apply steady_print_as_yaml
                | apply steady_ret
                | apply steady_bind; [| intros ?] ]).
Qed.

Lemma steady_run_operation (op : Operation) : steady E (run_operation E op).
Proof.
  destruct op; simpl.
  - apply steady_forget, steady__chat_completion.
  - apply steady_forget, steady_run_stage.
  - apply steady_print_as_yaml.
  - apply steady_forget, steady_optimize_resume.
Qed.

End Frame.

(** C9.  [optimize_resume] leaves the caller's objects as they are: the
    heap after the pipeline, whether it returned or raised, is the heap
    before it, so the [Resume] behind [current_resume] has all its fields
    unchanged. *)
Theorem optimize_resume_keeps_resume (E : Env) (job_description : string)
    (current_resume : nat) (user_preferences : option string)
    (o : Optimizer.ResumeOptimizer) (w : World) :
  let '(_, (_, w')) :=
    Optimizer.optimize_resume E job_description current_resume user_preferences (o, w) in
  heap w' = heap w /\ heap w' !! current_resume = heap w !! current_resume.
Proof.
  pose proof (steady_optimize_resume E job_description current_resume
                user_preferences (o, w)) as (_ & _ & H & _).
  destruct (Optimizer.optimize_resume E _ _ _ (o, w)) as [r [o' w']].
  simpl in H. split; [exact H | rewrite H; reflexivity].
Qed.

(** On the demo installation: a run that returns and a run that raises
    at stage 1 both leave the resume at reference 0 in place. *)
Example keeps_resume_on_demo :
  heap (snd (snd (Optimizer.optimize_resume Demo.env "JD" 0 None
                    (Demo.optimizer Demo.env, Demo.world_after_init)))) !! 0%nat
    = Some Demo.resume /\
  heap (snd (snd (Optimizer.optimize_resume Demo.limited_env "JD" 0 None
                    (Demo.optimizer Demo.limited_env, Demo.world_after_init)))) !! 0%nat
    = Some Demo.resume.
Proof. split; reflexivity. Qed.


(** ** The stages *)
Section StageFacts.
Import Providers Prompts Vocabulary Optimizer.
Variable E : Env.

Lemma bind_ret_r {S A} (c : M S A) (s : S) : bind c (fun a => ret a) s = c s.
Proof. unfold bind, ret. destruct (c s) as [[a | e] s']; reflexivity. Qed.

Lemma stage_name_no_slash (st : Stage) : no_slash (stage_name st) = true.
Proof. destruct st; reflexivity. Qed.

(** With the file in place and compiling, a sound optimizer gets its
    template. *)
Lemma with_prompts_result (n src : string) (o : ResumeOptimizer) (w : World) :
  optimizer_ok E o -> no_slash n = true ->
  template_source E "optimization" n = Some src ->
  compile_source E src = None ->
  exists t : Template,
    fst (with_prompts (__getattr__ E n) (o, w)) = Return t /\ source t = src.
Proof.
  intros [Hok Hsub] Hn Hsrc Hcomp.
  pose proof (__getattr___resolves E n (prompts o) w Hok) as H.
  rewrite Hsub in H. specialize (H eq_refl Hn).
  unfold template_source in Hsrc. unfold template_file_path in H.
  destruct (fs E _) as [[| s | pages] |]; try discriminate.
  injection Hsrc as ->. rewrite Hcomp in H. destruct H as (t & Hr & _ & Hs).
  exists t. split; [| exact Hs].
  unfold with_prompts.
  destruct (__getattr__ E n (prompts o, w)) as [r [p w']]. exact Hr.
Qed.

(** Rendering in one step. *)
Lemma render_run {S} (t : Template) (kwargs : list (string * option string)) (s : S) :
  render E t kwargs s = (render_source E (source t) kwargs, s).
Proof. reflexivity. Qed.

(** A stage either raises before it reaches the service, the
    conversation untouched, or is one [_chat_completion] with the
    schema of the stage, on the conversation as it was. *)
Lemma run_stage_shape (st : Stage) (o : ResumeOptimizer) (w : World) :
  (exists e o0 w0,
      run_stage E st (o, w) = (Raise e, (o0, w0)) /\
      messages o0 = messages o /\ api_calls w0 = api_calls w) \/
  (exists prompt o0 w0,
      messages o0 = messages o /\ model o0 = model o /\
      api_calls w0 = api_calls w /\
      run_stage E st (o, w) =
      _chat_completion E prompt (Some (stage_schema st)) (o0, w0)).
Proof.
  pose proof (with_prompts_frame E (stage_name st) o w) as H. cbv zeta in H.
  destruct H as (Hm & Hmo & (_ & Hc & _) & _).
  remember (run_stage E st (o, w)) as res eqn:Hres.
  destruct st; cbn [stage_name stage_schema run_stage] in *;
    unfold stage_1, stage_2, stage_3, stage_4, stage_5 in Hres;
    unfold bind at 1 in Hres;
    match type of Hres with
    | context [with_prompts ?c (o, w)] =>
        destruct (with_prompts c (o, w)) as [[t | e] [o0 w0]]
    end; cbn [fst snd] in *.
  all: try (left; exists e, o0, w0; repeat (split; [assumption |]); assumption).
  2: { unfold bind at 1, deref in Hres.
       destruct (heap w0 !! current_resume) as [r |] eqn:Hr.
       2: { left. eexists _, o0, w0. repeat (split; [eassumption |]). assumption. }
       unfold bind at 1 in Hres. rewrite render_run in Hres.
       destruct (render_source E (source t) _) as [text | e].
       - right. exists text, o0, w0. repeat (split; [assumption |]). exact Hres.
       - left. exists e, o0, w0. repeat (split; [assumption |]). assumption. }
  all: unfold bind at 1 in Hres; rewrite render_run in Hres;
    destruct (render_source E (source t) _) as [text | e];
    [ right; exists text, o0, w0; repeat (split; [assumption |]);
      rewrite ?bind_ret_r in Hres; exact Hres
    | left; exists e, o0, w0; repeat (split; [assumption |]); assumption ].
Qed.

(** With its template in place and rendering, and its argument a
    [Resume], a stage on a sound optimizer is the [_chat_completion] of
    its prompt. *)
Lemma run_stage_ready (st : Stage) (o : ResumeOptimizer) (w : World) (src : string) :
  optimizer_ok E o ->
  template_source E "optimization" (stage_name st) = Some src ->
  renders E src (stage_kwargs E (heap w) st) ->
  stage_ready (heap w) st ->
  exists o0 w0,
    messages o0 = messages o /\ model o0 = model o /\
    same_but_loads w w0 /\ optimizer_ok E o0 /\
    run_stage E st (o, w) =
    _chat_completion E (stage_prompt E (heap w) st src) (Some (stage_schema st)) (o0, w0).
Proof.
  intros Hok Hsrc [Hcomp [text Hrender]] Hready.
  pose proof (with_prompts_frame E (stage_name st) o w) as H. cbv zeta in H.
  destruct H as (Hm & Hmo & Hsame & Hok').
  destruct (with_prompts_result (stage_name st) src o w Hok (stage_name_no_slash st)
              Hsrc Hcomp) as (t & Hr & Hs).
  specialize (Hok' Hok).
  assert (Hprompt : stage_prompt E (heap w) st src = text)
    by (unfold stage_prompt, rendered; rewrite Hrender; reflexivity).
  rewrite Hprompt.
  remember (run_stage E st (o, w)) as res eqn:Hres.
  destruct st; cbn [stage_name stage_schema run_stage] in *;
    unfold stage_1, stage_2, stage_3, stage_4, stage_5 in Hres;
    unfold bind at 1 in Hres;
    match type of Hres with
    | context [with_prompts ?c (o, w)] =>
        destruct (with_prompts c (o, w)) as [r [o0 w0]]
    end; cbn [fst snd] in *; subst r; exists o0, w0;
    (split; [exact Hm |]); (split; [exact Hmo |]);
    (split; [exact Hsame |]); (split; [exact Hok' |]);
    cbn [stage_kwargs] in Hrender.
  2: { unfold bind at 1, deref in Hres.
       destruct Hsame as (Hh & _). rewrite Hh in Hres.
       destruct Hready as [resume Hresume]. rewrite Hresume in Hres, Hrender.
       unfold bind at 1 in Hres. rewrite render_run, Hs, Hrender in Hres.
       exact Hres. }
  all: unfold bind at 1 in Hres; rewrite render_run, Hs, Hrender in Hres;
    rewrite ?bind_ret_r in Hres; exact Hres.
Qed.

(** A stage that returns has appended its user turn and the assistant
    turn of what it returns. *)
Lemma run_stage_completed (st : Stage) (o o' : ResumeOptimizer) (w w' : World)
    (m : Message) :
  run_stage E st (o, w) = (Return m, (o', w')) ->
  exists prompt : string,
    messages o' = (messages o ++ [user_message prompt; assistant_message m])%list.
Proof.
  intros Hrun.
  destruct (run_stage_shape st o w)
    as [(e & o0 & w0 & Hr & _) | (prompt & o0 & w0 & Hm & _ & _ & Hr)];
    rewrite Hr in Hrun; [discriminate |].
  rewrite _chat_completion_run in Hrun. simpl in Hrun.
  destruct (sdk E _ _) as [c | e]; [| discriminate].
  destruct (choices c) as [| ch rest]; [discriminate |].
  injection Hrun as <- <- <-. exists prompt. simpl.
  rewrite Hm, <- app_assoc. reflexivity.
Qed.

End StageFacts.

Section StageOutcome.
Import Providers Prompts Vocabulary Optimizer.
Variable E : Env.

(** What a ready stage does, whatever the service answers. *)
Lemma run_stage_outcome (st : Stage) (o : ResumeOptimizer) (w : World) (src : string) :
  optimizer_ok E o ->
  template_source E "optimization" (stage_name st) = Some src ->
  renders E src (stage_kwargs E (heap w) st) ->
  stage_ready (heap w) st ->
  let prompt := stage_prompt E (heap w) st src in
  let history := (messages o ++ [user_message prompt])%list in
  let rq := conversation_request (model o) history (Some (stage_schema st)) in
  let '(r, (o', w')) := run_stage E st (o, w) in
  api_calls w' = (api_calls w ++ [rq])%list /\
  heap w' = heap w /\ log w' = log w /\ sleeps w' = sleeps w /\
  model o' = model o /\ optimizer_ok E o' /\
  match r with
  | Return m =>
      answer E (api_calls w) rq = Some m /\
      messages o' = (history ++ [assistant_message m])%list
  | Raise _ =>
      answer E (api_calls w) rq = None /\ messages o' = history
  end.
Proof.
  intros Hok Hsrc Hrend Hready prompt history rq.
  destruct (run_stage_ready E st o w src Hok Hsrc Hrend Hready)
    as (o0 & w0 & Hm & Hmo & (Hh & Hc & Hs & Hl) & Hok0 & Hrun).
  rewrite Hrun, _chat_completion_run. cbv zeta.
  unfold stage_request. cbn [messages model append_message].
  rewrite Hm, Hmo, Hc. fold prompt. fold history. fold rq.
  unfold answer.
  destruct (sdk E (api_calls w) rq) as [c | e].
  - destruct (choices c) as [| ch rest]; cbn [record_call api_calls heap log sleeps
      messages model append_message]; rewrite ?Hm, ?Hc, ?Hh, ?Hl, ?Hs;
      repeat (split; [reflexivity || exact Hmo || exact Hok0 |]);
      split; reflexivity.
  - cbn [record_call api_calls heap log sleeps messages model append_message].
    rewrite ?Hm, ?Hc, ?Hh, ?Hl, ?Hs.
    repeat (split; [reflexivity || exact Hmo || exact Hok0 |]).
    split; reflexivity.
Qed.

(** Completed stages: two messages each, and every answer is in the
    conversation as an assistant turn. *)
Lemma run_stages_completed (sts : list Stage) :
  forall (o o' : ResumeOptimizer) (w w' : World) (ms : list Message),
    run_stages E sts (o, w) = (Return ms, (o', w')) ->
    length (messages o') = (length (messages o) + 2 * length sts)%nat /\
    messages o `prefix_of` messages o' /\
    Forall (fun m => assistant_message m ∈ messages o') ms.
Proof.
  induction sts as [| st rest IH]; intros o o' w w' ms Hrun; simpl in Hrun.
  - injection Hrun as <- <- <-. simpl. split; [lia |]. split; [reflexivity | constructor].
  - unfold bind at 1 in Hrun.
    destruct (run_stage E st (o, w)) as [[m | e] [o1 w1]] eqn:Hst; [| discriminate].
    unfold bind at 1 in Hrun.
    destruct (run_stages E rest (o1, w1)) as [[ms' | e] [o2 w2]] eqn:Hrest;
      [| discriminate].
    injection Hrun as <- <- <-.
    destruct (run_stage_completed E st o o1 w w1 m Hst) as (prompt & Hm1).
    destruct (IH o1 o2 w1 w2 ms' Hrest) as (Hlen & Hpre & Hall).
    rewrite Hm1, length_app in Hlen. simpl in Hlen.
    split; [simpl; lia |]. split.
    + etransitivity; [| exact Hpre]. rewrite Hm1. apply prefix_app_r. reflexivity.
    + constructor; [| exact Hall].
      destruct Hpre as [k ->]. rewrite Hm1.
      apply elem_of_app. left. apply elem_of_app. right.
      apply elem_of_cons. right. apply elem_of_cons. left. reflexivity.
Qed.

(** Completed stages leave the conversation they found, followed by
    their turns: for each stage, in order, its prompt and its output. *)
Lemma run_stages_turns (sts : list Stage) :
  forall (o o' : ResumeOptimizer) (w w' : World) (ms : list Message),
    run_stages E sts (o, w) = (Return ms, (o', w')) ->
    length ms = length sts /\
    exists prompts : list string,
      length prompts = length ms /\
      messages o' = (messages o ++ turns prompts ms)%list.
Proof.
  induction sts as [| st rest IH]; intros o o' w w' ms Hrun; simpl in Hrun.
  - injection Hrun as <- <- <-. split; [reflexivity |].
    exists []. split; [reflexivity |]. simpl. rewrite app_nil_r. reflexivity.
  - unfold bind at 1 in Hrun.
    destruct (run_stage E st (o, w)) as [[m | e] [o1 w1]] eqn:Hst; [| discriminate].
    unfold bind at 1 in Hrun.
    destruct (run_stages E rest (o1, w1)) as [[ms' | e] [o2 w2]] eqn:Hrest;
      [| discriminate].
    injection Hrun as <- <- <-.
    destruct (run_stage_completed E st o o1 w w1 m Hst) as (prompt & Hm1).
    destruct (IH o1 o2 w1 w2 ms' Hrest) as (Hlen & prompts & Hpl & Hm2).
    split; [simpl; congruence |].
    exists (prompt :: prompts). split; [simpl; congruence |].
    rewrite Hm2, Hm1, <- app_assoc. reflexivity.
Qed.

(** [ResumeOptimizer.__init__] gives a sound optimizer on the default
    provider whose conversation is the system message alone. *)
Lemma Optimizer__init___ok (model_name : string) (w0 w : World) (o : ResumeOptimizer) :
  Optimizer.__init__ E model_name w0 = (Return o, w) ->
  optimizer_ok E o /\ model o = model_name /\ llm o = provider E /\
  exists sys : string,
    messages o = [ {| role := "system"; content := content_str sys |} ].
Proof.
  unfold Optimizer.__init__. unfold bind at 1.
  destruct (OpenAIProvider__init__ E None None w0) as [[p0 | e] w1] eqn:Hllm;
    [| discriminate].
  destruct (OpenAIProvider__init___default E _ _ _ _ Hllm) as [-> ->].
  unfold bind at 1.
  destruct (Prompts.__init__ E "optimization" w0) as [[p | e] w1] eqn:Hinit;
    [| discriminate].
  destruct (__init___ok E _ _ _ _ Hinit) as (Hok & Hsub & ->).
  pose proof (__getattr___preserves E "system" p w0 Hok) as Hp.
  unfold bind at 1.
  destruct (__getattr__ E "system" (p, w0)) as [[t | e] [p' w2]]; [| discriminate].
  rewrite render_run. destruct (render_source E (source t) []) as [text | e];
    [| discriminate].
  intros [= <- <-]. simpl in Hp. destruct Hp as (Hok' & Hsub' & _).
  split; [split; [exact Hok' | simpl; congruence] |].
  split; [reflexivity |]. split; [reflexivity |]. eexists. reflexivity.
Qed.

End StageOutcome.

Section PipelineFacts.
Import Providers Prompts Vocabulary Optimizer.
Variable E : Env.

(** The requests of a trace: one per stage, in order, each to the
    synchronous [parse] endpoint with the stage's schema. *)
Lemma pipeline_trace_calls (model_name : string) (objects : gmap nat Resume)
    (sts : list Stage) :
  forall (history history' : list ChatMessage) (calls calls' : list Request)
         (ms : list Message),
    pipeline_trace E model_name objects sts history calls = Some (ms, history', calls') ->
    length ms = length sts /\
    exists new : list Request,
      calls' = (calls ++ new)%list /\
      map response_format new = map (fun st => Some (stage_schema st)) sts /\
      Forall (fun rq => endpoint rq = beta_chat_completions_parse /\
                        async_client rq = false) new.
Proof.
  induction sts as [| st rest IH]; intros history history' calls calls' ms H;
    simpl in H.
  - injection H as <- <- <-. split; [reflexivity |].
    exists []. rewrite app_nil_r. repeat split. constructor.
  - destruct (answer E calls _) as [m |]; [| discriminate].
    destruct (pipeline_trace E model_name objects rest _ _)
      as [[[ms' h'] c'] |] eqn:Hrest; [| discriminate].
    injection H as <- <- <-.
    destruct (IH _ _ _ _ _ Hrest) as (Hlen & new & Hc & Hf & Hall).
    split; [simpl; congruence |].
    eexists (_ :: new). rewrite Hc, <- app_assoc. split; [reflexivity |].
    split; [simpl; rewrite Hf; reflexivity |].
    constructor; [split; reflexivity | exact Hall].
Qed.

(** The last output of a trace is what the service answered to its
    last request. *)
Lemma pipeline_trace_last (model_name : string) (objects : gmap nat Resume)
    (sts : list Stage) :
  forall (history history' : list ChatMessage) (calls calls' : list Request)
         (ms : list Message),
    pipeline_trace E model_name objects sts history calls = Some (ms, history', calls') ->
    sts <> [] ->
    exists (before : list Request) (rq : Request) (m : Message),
      calls' = (before ++ [rq])%list /\ last ms = Some m /\
      answer E before rq = Some m.
Proof.
  induction sts as [| st rest IH]; intros history history' calls calls' ms H Hne;
    [contradiction |].
  simpl in H.
  destruct (answer E calls _) as [m |] eqn:Hans; [| discriminate].
  destruct (pipeline_trace E model_name objects rest _ _)
    as [[[ms' h'] c'] |] eqn:Hrest; [| discriminate].
  injection H as <- <- <-.
  destruct rest as [| st2 rest].
  - simpl in Hrest. injection Hrest as <- <- <-.
    eexists calls, _, m. split; [reflexivity |]. split; [reflexivity | exact Hans].
  - destruct (IH _ _ _ _ _ Hrest) as (before & rq & m' & Hc & Hl & Ha);
      [discriminate |].
    exists before, rq, m'. split; [exact Hc |]. split; [| exact Ha].
    destruct ms' as [| m0 ms']; [discriminate Hl |]. exact Hl.
Qed.

(** With templates in place and a service that answers, the logged
    stages run as the trace says. *)
Lemma run_stages_logged_trace (sts : list Stage) :
  service_answers E ->
  forall (o : ResumeOptimizer) (w : World),
    optimizer_ok E o ->
    Forall (fun st =>
              (exists src : string,
                  template_source E "optimization" (stage_name st) = Some src /\
                  renders E src (stage_kwargs E (heap w) st)) /\
              stage_ready (heap w) st) sts ->
    exists (ms : list Message) (o' : ResumeOptimizer) (w' : World),
      run_stages_logged E sts (o, w) = (Return ms, (o', w')) /\
      pipeline_trace E (model o) (heap w) sts (messages o) (api_calls w)
        = Some (ms, messages o', api_calls w') /\
      log w' = (log w ++ map (yaml_dump E) ms)%list /\
      heap w' = heap w /\ sleeps w' = sleeps w.
Proof.
  intros Hsvc. induction sts as [| st rest IH]; intros o w Hok Hall.
  - exists [], o, w. simpl. rewrite app_nil_r. repeat split.
  - inversion Hall as [| ? ? [[src [Hsrc Hrend]] Hready] Hrest]; subst.
    pose proof (run_stage_outcome E st o w src Hok Hsrc Hrend Hready) as H.
    cbv zeta in H.
    destruct (run_stage E st (o, w)) as [r [o1 w1]] eqn:Hrun.
    destruct H as (Hc & Hh & Hl & Hs & Hmo & Hok1 & Hr).
    destruct r as [m | e].
    2: { destruct Hr as [Hnone _]. destruct (Hsvc (api_calls w)
           (conversation_request (model o)
              (messages o ++ [user_message (stage_prompt E (heap w) st src)])
              (Some (stage_schema st)))) as [m Hm].
         congruence. }
    destruct Hr as [Hans Hm].
    assert (Hall1 : Forall (fun st =>
                              (exists src : string,
                                  template_source E "optimization" (stage_name st)
                                    = Some src /\
                                  renders E src
                                    (stage_kwargs E
                                       (heap (record_log (yaml_dump E m) w1)) st)) /\
                              stage_ready (heap (record_log (yaml_dump E m) w1)) st)
                      rest)
      by (simpl; rewrite Hh; exact Hrest).
    destruct (IH o1 (record_log (yaml_dump E m) w1) Hok1 Hall1)
      as (ms & o' & w' & Hruns & Htrace & Hlog & Hheap & Hsl).
    exists (m :: ms), o', w'.
    split.
    { simpl. unfold bind at 1. rewrite Hrun. unfold bind at 1.
      unfold print_as_yaml at 1, on_snd, modify. unfold bind at 1.
      rewrite Hruns. reflexivity. }
    split.
    { simpl. unfold stage_source. rewrite Hsrc. simpl default.
      rewrite Hans. simpl in Htrace.
      rewrite Hmo, Hh, Hm, Hc in Htrace. rewrite Htrace. reflexivity. }
    simpl in Hlog, Hheap, Hsl.
    split; [rewrite Hlog, Hl, <- app_assoc; reflexivity |].
    split; congruence.
Qed.

(** [optimize_resume] is the logged run of its five stages, returning
    the fifth answer. *)
Lemma optimize_resume_as_stages (jd : string) (r : nat) (prefs : option string)
    (s : ResumeOptimizer * World) :
  match run_stages_logged E (the_five_stages jd r prefs) s with
  | (Return ms, s') =>
      exists m1 m2 m3 m4 m5 : Message,
        ms = [m1; m2; m3; m4; m5] /\
        optimize_resume E jd r prefs s = (Return m5, s')
  | (Raise e, s') => optimize_resume E jd r prefs s = (Raise e, s')
  end.
Proof.
  unfold optimize_resume, the_five_stages. simpl run_stages_logged.
  change (stage_1 E jd prefs) with (run_stage E (Stage1 jd prefs)).
  change (stage_2 E r) with (run_stage E (Stage2 r)).
  change (stage_3 E) with (run_stage E Stage3).
  change (stage_4 E) with (run_stage E Stage4).
  change (stage_5 E) with (run_stage E Stage5).
  unfold bind.
  destruct (run_stage E (Stage1 jd prefs) s) as [[m1 | e] s1]; [| reflexivity].
  destruct (print_as_yaml E m1 s1) as [[[] | e] s1'] eqn:Hp1; [| reflexivity].
  destruct (run_stage E (Stage2 r) s1') as [[m2 | e] s2]; [| reflexivity].
  destruct (print_as_yaml E m2 s2) as [[[] | e] s2'] eqn:Hp2; [| reflexivity].
  destruct (run_stage E Stage3 s2') as [[m3 | e] s3]; [| reflexivity].
  destruct (print_as_yaml E m3 s3) as [[[] | e] s3'] eqn:Hp3; [| reflexivity].
  destruct (run_stage E Stage4 s3') as [[m4 | e] s4]; [| reflexivity].
  destruct (print_as_yaml E m4 s4) as [[[] | e] s4'] eqn:Hp4; [| reflexivity].
  destruct (run_stage E Stage5 s4') as [[m5 | e] s5]; [| reflexivity].
  destruct (print_as_yaml E m5 s5) as [[[] | e] s5'] eqn:Hp5; [| reflexivity].
  simpl. exists m1, m2, m3, m4, m5. split; reflexivity.
Qed.

End PipelineFacts.

(** ** The pipeline *)
Section PipelineClaims.
Import Providers Prompts Vocabulary Optimizer.

Lemma demo_optimizer_ok : optimizer_ok Demo.env (Demo.optimizer Demo.env).
Proof.
  apply (Optimizer__init___ok Demo.env "gpt-4o" Demo.world Demo.world_after_init).
  reflexivity.
Qed.

Lemma refusing_optimizer_ok :
  optimizer_ok Demo.refusing_env (Demo.optimizer Demo.refusing_env).
Proof.
  apply (Optimizer__init___ok Demo.refusing_env "gpt-4o" Demo.world
           Demo.world_after_init).
  reflexivity.
Qed.

(** C5.  Each stage is one call of [structured_chat_completion].  After
    any stages that completed, the conversation is the one they
    started from followed, for each of them in order, by its prompt as
    a user turn and its output as an assistant turn.  A stage whose
    template is in place and renders then sends exactly one request,
    to the synchronous [parse] endpoint; the messages of that request
    are this whole conversation, ended by the stage's own prompt, so
    every earlier output goes out with it as an assistant turn; and its
    [response_format] is the stage's own schema.  When the call
    returns, its output joins the conversation as an assistant turn,
    to go out with the next stage's request. *)
Theorem stage_sends_history_and_schema (E : Env) (o o1 : ResumeOptimizer)
    (w w1 : World) (earlier : list Stage) (outputs : list Message)
    (st : Stage) (src : string) :
  optimizer_ok E o ->
  run_stages E earlier (o, w) = (Return outputs, (o1, w1)) ->
  template_source E "optimization" (stage_name st) = Some src ->
  renders E src (stage_kwargs E (heap w1) st) ->
  stage_ready (heap w1) st ->
  exists prompts : list string,
    length prompts = length outputs /\ length outputs = length earlier /\
    messages o1 = (messages o ++ turns prompts outputs)%list /\
    let history :=
      (messages o ++ turns prompts outputs ++
       [ {| role := "user";
            content := content_str (stage_prompt E (heap w1) st src) |} ])%list in
    let rq :=
      {| endpoint := beta_chat_completions_parse;
         async_client := false;
         response_format := Some (stage_schema st);
         params := {| p_model := model o;
                      p_messages := history;
                      p_temperature := 3 # 10;
                      p_max_tokens := None |} |} in
    Forall (fun m =>
              {| role := "assistant";
                 content := match message_content m with
                            | Some text => content_str text
                            | None => content_none
                            end |} ∈ p_messages (params rq)) outputs /\
    let '(r, (o2, w2)) := run_stage E st (o1, w1) in
    api_calls w2 = (api_calls w1 ++ [rq])%list /\
    match r with
    | Return m =>
        answer E (api_calls w1) rq = Some m /\
        messages o2 =
        (history ++
         [ {| role := "assistant";
              content := match message_content m with
                         | Some text => content_str text
                         | None => content_none
                         end |} ])%list
    | Raise _ => answer E (api_calls w1) rq = None /\ messages o2 = history
    end.
Proof.
  intros Hok Hearlier Hsrc Hrend Hready.
  destruct (run_stages_turns E earlier o o1 w w1 outputs Hearlier)
    as (Hlen & prompts & Hpl & Hturns).
  destruct (run_stages_completed E earlier o o1 w w1 outputs Hearlier)
    as (_ & _ & Hall).
  pose proof (steady_run_stages E earlier (o, w)) as (_ & Hmo & _ & Hok1).
  rewrite Hearlier in Hmo, Hok1. cbn [fst snd] in Hmo, Hok1. specialize (Hok1 Hok).
  exists prompts. split; [exact Hpl |]. split; [exact Hlen |].
  split; [exact Hturns |]. cbv zeta.
  split.
  { cbn [params p_messages]. rewrite app_assoc, <- Hturns.
    eapply Forall_impl; [exact Hall |]. intros m Hm.
    apply elem_of_app. left. exact Hm. }
  pose proof (run_stage_outcome E st o1 w1 src Hok1 Hsrc Hrend Hready) as H.
  cbv zeta in H. rewrite Hmo, Hturns, <- app_assoc in H.
  destruct (run_stage E st (o1, w1)) as [r [o2 w2]].
  destruct H as (Hc & _ & _ & _ & _ & _ & Hr).
  split; [exact Hc |]. exact Hr.
Qed.

Lemma stage_sends_history_and_schema_witness :
  let sys := {| role := "system"; content := content_str "You optimize resumes." |} in
  let u1 :=
    {| role := "user";
       content := content_str "Analyze the job. job_description=JD user_preferences=None" |} in
  let a1 := {| role := "assistant"; content := content_str "{}" |} in
  let u2 :=
    {| role := "user";
       content := content_str "Find the gaps. current_resume_json=Engineer" |} in
  let request history fmt :=
    {| endpoint := beta_chat_completions_parse;
       async_client := false;
       response_format := Some fmt;
       params := {| p_model := "gpt-4o";
                    p_messages := history;
                    p_temperature := 3 # 10;
                    p_max_tokens := None |} |} in
  let t1 := {| template_id := 1; filename := "optimization/stage_1.jinja";
               source := "Analyze the job." |} in
  let o := Demo.optimizer Demo.env in
  let o1 :=
    {| llm := provider Demo.env;
       prompts := set_templates (<["stage_1" := t1]> (_templates Demo.loader)) Demo.loader;
       model := "gpt-4o";
       messages := [sys; u1; a1] |} in
  let w1 :=
    {| heap := {[ 0%nat := Demo.resume ]};
       api_calls := [request [sys; u1] JobAnalysis];
       sleeps := []; log := [];
       template_loads := ["optimization/system.jinja"; "optimization/stage_1.jinja"] |} in
  optimizer_ok Demo.env o /\
  run_stages Demo.env [Stage1 "JD" None] (o, Demo.world_after_init)
    = (Return [Demo.reply], (o1, w1)) /\
  template_source Demo.env "optimization" "stage_2" = Some "Find the gaps." /\
  renders Demo.env "Find the gaps." (stage_kwargs Demo.env (heap w1) (Stage2 0)) /\
  stage_ready (heap w1) (Stage2 0) /\
  run_stage Demo.env (Stage2 0) (o1, w1) =
    (Return Demo.reply,
     ({| llm := provider Demo.env;
         prompts :=
           set_templates
             (<["stage_2" := {| template_id := 2;
                                filename := "optimization/stage_2.jinja";
                                source := "Find the gaps." |}]>
                (<["stage_1" := t1]> (_templates Demo.loader))) Demo.loader;
         model := "gpt-4o";
         messages := [sys; u1; a1; u2; a1] |},
      {| heap := {[ 0%nat := Demo.resume ]};
         api_calls := [request [sys; u1] JobAnalysis;
                       request [sys; u1; a1; u2] GapAnalysis];
         sleeps := []; log := [];
         template_loads := ["optimization/system.jinja"; "optimization/stage_1.jinja";
                            "optimization/stage_2.jinja"] |})) /\
  exists prompts : list string,
    length prompts = 1%nat /\
    messages o1 = (messages o ++ turns prompts [Demo.reply])%list.
Proof.
  intros sys u1 a1 u2 request t1 o o1 w1.
  assert (Hrun : run_stages Demo.env [Stage1 "JD" None] (o, Demo.world_after_init)
                 = (Return [Demo.reply], (o1, w1))) by reflexivity.
  assert (Hrend : renders Demo.env "Find the gaps."
                    (stage_kwargs Demo.env (heap w1) (Stage2 0)))
    by (split; [reflexivity | eexists; reflexivity]).
  assert (Hready : stage_ready (heap w1) (Stage2 0))
    by (exists Demo.resume; reflexivity).
  split; [exact demo_optimizer_ok |]. split; [exact Hrun |].
  split; [reflexivity |]. split; [exact Hrend |]. split; [exact Hready |].
  split; [reflexivity |].
  destruct (stage_sends_history_and_schema Demo.env o o1 Demo.world_after_init
              w1 [Stage1 "JD" None] [Demo.reply] (Stage2 0) "Find the gaps."
              demo_optimizer_ok Hrun eq_refl Hrend Hready)
    as (prompts & Hlen & _ & Hm & _).
  exists prompts. split; [exact Hlen | exact Hm].
Defined.

(** C1.  With the five stage templates in place, a service that
    answers, and a [Resume] behind [current_resume], [optimize_resume]
    returns after exactly five requests, one per stage, each to the
    synchronous [parse] endpoint, with the schemas [JobAnalysis],
    [GapAnalysis], [ContentPrioritization], [OptimizedResume], [Resume]
    in this order; the conversation and the requests are those of
    [pipeline_trace] on the stages job analysis, gap analysis, content
    prioritization, content optimization, final resume; each answer is
    logged once and nothing is slept.  What it returns is not a
    [Resume]: it is [m5], the chat message the service answered to the
    fifth request, whatever its [parsed] field holds. *)
Theorem optimize_resume_returns_the_message (E : Env) (o : ResumeOptimizer)
    (w : World) (job_description : string) (current_resume : nat)
    (user_preferences : option string) :
  optimizer_ok E o ->
  templates_installed E ->
  service_answers E ->
  is_Some (heap w !! current_resume) ->
  exists (m1 m2 m3 m4 m5 : Message) (o' : ResumeOptimizer) (w' : World)
         (new : list Request) (before : list Request) (rq5 : Request),
    optimize_resume E job_description current_resume user_preferences (o, w)
      = (Return m5, (o', w')) /\
    pipeline_trace E (model o) (heap w)
      (the_five_stages job_description current_resume user_preferences)
      (messages o) (api_calls w)
      = Some ([m1; m2; m3; m4; m5], messages o', api_calls w') /\
    api_calls w' = (api_calls w ++ new)%list /\
    length new = 5%nat /\
    map response_format new =
      [Some JobAnalysis; Some GapAnalysis; Some ContentPrioritization;
       Some OptimizedResume; Some ResumeSchema] /\
    Forall (fun rq => endpoint rq = beta_chat_completions_parse /\
                      async_client rq = false) new /\
    log w' = (log w ++ map (yaml_dump E) [m1; m2; m3; m4; m5])%list /\
    sleeps w' = sleeps w /\
    api_calls w' = (before ++ [rq5])%list /\
    match sdk E before rq5 with
    | Return c => exists rest, choices c = {| message := m5 |} :: rest
    | Raise _ => False
    end.
Proof.
  intros Hok Hinst Hsvc Href.
  assert (Hall : Forall (fun st =>
                           (exists src : string,
                               template_source E "optimization" (stage_name st)
                                 = Some src /\
                               renders E src (stage_kwargs E (heap w) st)) /\
                           stage_ready (heap w) st)
                   (the_five_stages job_description current_resume user_preferences)).
  { unfold templates_installed in Hinst.
    repeat match goal with
           | H : Forall _ (_ :: _) |- _ => inversion H; clear H; subst
           end.
    repeat match goal with
           | H : exists src, _ /\ _ |- _ => destruct H as (? & ? & ?)
           end.
    unfold the_five_stages.
    repeat (constructor; [split; [eexists; split; [eassumption | auto] | simpl; auto] |]).
    constructor. }
  destruct (run_stages_logged_trace E _ Hsvc o w Hok Hall)
    as (ms & o' & w' & Hrun & Htrace & Hlog & _ & Hsl).
  pose proof (optimize_resume_as_stages E job_description current_resume
                user_preferences (o, w)) as Hopt.
  rewrite Hrun in Hopt. destruct Hopt as (m1 & m2 & m3 & m4 & m5 & -> & Hopt).
  destruct (pipeline_trace_calls E _ _ _ _ _ _ _ _ Htrace)
    as (_ & new & Hc & Hf & Hep).
  destruct (pipeline_trace_last E _ _ _ _ _ _ _ _ Htrace)
    as (before & rq5 & m & Hb & Hlast & Hans); [discriminate |].
  injection Hlast as <-.
  exists m1, m2, m3, m4, m5, o', w', new, before, rq5.
  split; [exact Hopt |]. split; [exact Htrace |]. split; [exact Hc |].
  split; [rewrite <- (length_map response_format), Hf; reflexivity |].
  split; [exact Hf |]. split; [exact Hep |]. split; [exact Hlog |].
  split; [exact Hsl |]. split; [exact Hb |].
  unfold answer in Hans. destruct (sdk E before rq5) as [c | e]; [| discriminate].
  destruct (choices c) as [| [m] rest]; [discriminate |].
  injection Hans as ->. exists rest. reflexivity.
Qed.

Lemma demo_templates_installed : templates_installed Demo.env.
Proof.
  unfold templates_installed.
  repeat constructor; eexists; (split; [reflexivity |]);
    intros kwargs; (split; [reflexivity | eexists; reflexivity]).
Qed.

Lemma demo_service_answers : service_answers Demo.env.
Proof. intros history rq. exists Demo.reply. reflexivity. Qed.

Lemma refusing_templates_installed : templates_installed Demo.refusing_env.
Proof.
  unfold templates_installed.
  repeat constructor; eexists; (split; [reflexivity |]);
    intros kwargs; (split; [reflexivity | eexists; reflexivity]).
Qed.

Lemma refusing_service_answers : service_answers Demo.refusing_env.
Proof. intros history rq. exists Demo.refusal_message. reflexivity. Qed.

Lemma optimize_resume_returns_the_message_witness :
  optimizer_ok Demo.refusing_env (Demo.optimizer Demo.refusing_env) /\
  templates_installed Demo.refusing_env /\
  service_answers Demo.refusing_env /\
  is_Some (heap Demo.world_after_init !! 0%nat) /\
  exists (m5 : Message) (s' : ResumeOptimizer * World),
    optimize_resume Demo.refusing_env "JD" 0 None
      (Demo.optimizer Demo.refusing_env, Demo.world_after_init)
      = (Return m5, s') /\
    m5 = {| message_content := None; parsed := None;
            refusal := Some "I'm sorry, I can't help with that." |} /\
    parsed m5 = None /\
    length (api_calls (snd s')) = 5%nat.
Proof.
  assert (Href : is_Some (heap Demo.world_after_init !! 0%nat))
    by (exists Demo.resume; reflexivity).
  split; [exact refusing_optimizer_ok |].
  split; [exact refusing_templates_installed |].
  split; [exact refusing_service_answers |]. split; [exact Href |].
  destruct (optimize_resume_returns_the_message Demo.refusing_env
              (Demo.optimizer Demo.refusing_env) Demo.world_after_init "JD" 0 None
              refusing_optimizer_ok refusing_templates_installed
              refusing_service_answers Href)
    as (m1 & m2 & m3 & m4 & m5 & o' & w' & new & before & rq5 &
        Hopt & _ & Hc & Hlen & _ & _ & _ & _ & _ & Hans).
  exists m5, (o', w'). split; [exact Hopt |].
  assert (Hm5 : m5 = Demo.refusal_message).
  { change (sdk Demo.refusing_env before rq5)
      with (Return (A := Completion)
              {| choices := [ {| message := Demo.refusal_message |} ] |}) in Hans.
    destruct Hans as [rest Hrest]. injection Hrest as <- _. reflexivity. }
  split; [exact Hm5 |]. split; [rewrite Hm5; reflexivity |].
  cbn [snd]. rewrite Hc, length_app, Hlen. reflexivity.
Defined.

(** On the demo installation the pipeline returns the message of the
    fifth call, whose [parsed] field holds the [Resume] object; a
    caller that takes the value for a [Resume] finds none of its
    fields on it. *)
Example optimize_resume_demo :
  let '(r, (o', w')) :=
    optimize_resume Demo.env "JD" 0 None (Demo.optimizer Demo.env, Demo.world_after_init) in
  r = Return Demo.reply /\
  parsed Demo.reply = Some (resume_object Demo.resume) /\
  length (api_calls w') = 5%nat /\ length (messages o') = 11%nat.
Proof. vm_compute. repeat split; reflexivity. Qed.

(** C2.  The conversation only grows at its end.  Every operation
    leaves the messages it found as a prefix of the messages it leaves;
    a stage that returns has appended one user message and then one
    assistant message; so after the constructor and [n] completed
    stages there are [1 + 2 * n] messages, the first of which is the
    system message the constructor put there. *)
Theorem conversation_is_append_only (E : Env) (model_name : string)
    (w0 w w' : World) (o o' : ResumeOptimizer) (sts : list Stage)
    (outputs : list Message) :
  Optimizer.__init__ E model_name w0 = (Return o, w) ->
  run_stages E sts (o, w) = (Return outputs, (o', w')) ->
  (exists sys : string,
      messages o = [ {| role := "system"; content := content_str sys |} ] /\
      head (messages o') = Some {| role := "system"; content := content_str sys |}) /\
  length (messages o') = (1 + 2 * length sts)%nat /\
  (forall (op : Operation) (s : ResumeOptimizer * World),
      messages (fst s) `prefix_of` messages (fst (snd (run_operation E op s)))) /\
  (forall (st : Stage) (s s' : ResumeOptimizer * World) (m : Message),
      run_stage E st s = (Return m, s') ->
      exists prompt : string,
        messages (fst s') =
        (messages (fst s) ++ [user_message prompt; assistant_message m])%list).
Proof.
  intros Hinit Hrun.
  destruct (Optimizer__init___ok E model_name w0 w o Hinit)
    as (_ & _ & _ & sys & Hsys).
  destruct (run_stages_completed E sts o o' w w' outputs Hrun) as (Hlen & Hpre & _).
  split; [| split; [| split]].
  - exists sys. split; [exact Hsys |].
    destruct Hpre as [k Hk]. rewrite Hk, Hsys. reflexivity.
  - rewrite Hlen, Hsys. reflexivity.
  - intros op s. apply (steady_run_operation E op s).
  - intros st [o1 w1] [o2 w2] m Hst. simpl.
    apply (run_stage_completed E st o1 o2 w1 w2 m Hst).
Qed.

Lemma conversation_is_append_only_witness :
  let sts := [Stage3] in
  let s' := snd (run_stages Demo.env sts (Demo.optimizer Demo.env, Demo.world_after_init)) in
  Optimizer.__init__ Demo.env "gpt-4o" Demo.world
    = (Return (Demo.optimizer Demo.env), Demo.world_after_init) /\
  run_stages Demo.env sts (Demo.optimizer Demo.env, Demo.world_after_init)
    = (Return [Demo.reply], s') /\
  length (messages (fst s')) = 3%nat /\
  head (messages (fst s')) =
    Some {| role := "system"; content := content_str "You optimize resumes." |}.
Proof.
  intros sts s'.
  assert (Hinit : Optimizer.__init__ Demo.env "gpt-4o" Demo.world
                  = (Return (Demo.optimizer Demo.env), Demo.world_after_init))
    by reflexivity.
  assert (Hrun : run_stages Demo.env sts (Demo.optimizer Demo.env, Demo.world_after_init)
                 = (Return [Demo.reply], (fst s', snd s'))) by reflexivity.
  split; [exact Hinit |]. split; [reflexivity |].
  destruct (conversation_is_append_only Demo.env "gpt-4o" Demo.world
              Demo.world_after_init (snd s') (Demo.optimizer Demo.env) (fst s') sts
              [Demo.reply] Hinit Hrun) as ((sys & Hsys & Hhead) & Hlen & _).
  split; [exact Hlen |].
  rewrite Hhead. injection Hsys as <-. reflexivity.
Defined.

(** C3.  A stage's call is not retried: when the service answers the
    request of [_chat_completion] with a transient error, that error is
    raised at once, after this one request and without any sleep. *)
Theorem stage_call_not_retried (E : Env) (o : ResumeOptimizer)
    (w : World) (prompt : string) (fmt : option Schema) (e : Exc) :
  let o1 := append_message (user_message prompt) o in
  let rq := stage_request o1 fmt in
  sdk E (api_calls w) rq = Raise e ->
  transient e = true ->
  _chat_completion E prompt fmt (o, w) = (Raise e, (o1, record_call rq w)) /\
  api_calls (record_call rq w) = (api_calls w ++ [rq])%list /\
  sleeps (record_call rq w) = sleeps w.
Proof.
  intros o1 rq Hsdk Htr. rewrite _chat_completion_run. cbv zeta.
  fold o1. fold rq. rewrite Hsdk. unfold translated. rewrite Htr.
  repeat split.
Qed.

Lemma stage_call_not_retried_witness :
  let o := Demo.optimizer Demo.flaky_env in
  let o1 := append_message (user_message "Analyze the job.") o in
  let rq := stage_request o1 (Some JobAnalysis) in
  let e := exc RateLimitError "Rate limit reached" in
  sdk Demo.flaky_env (api_calls Demo.world_after_init) rq = Raise e /\
  transient e = true /\
  _chat_completion Demo.flaky_env "Analyze the job." (Some JobAnalysis)
    (o, Demo.world_after_init)
  = (Raise e, (o1, record_call rq Demo.world_after_init)).
Proof.
  intros o o1 rq e.
  split; [reflexivity |]. split; [reflexivity |].
  apply (stage_call_not_retried Demo.flaky_env o Demo.world_after_init
           "Analyze the job." (Some JobAnalysis) e); reflexivity.
Defined.

(** The same rate limit met by the whole pipeline: it ends at stage 1
    with the [RateLimitError], one request sent, nothing slept. *)
Example pipeline_meets_rate_limit :
  let '(r, (_, w')) :=
    optimize_resume Demo.flaky_env "JD" 0 None
      (Demo.optimizer Demo.flaky_env, Demo.world_after_init) in
  r = Raise (exc RateLimitError "Rate limit reached") /\
  length (api_calls w') = 1%nat /\ sleeps w' = [].
Proof. vm_compute. repeat split; reflexivity. Qed.

End PipelineClaims.

(** ** The parser *)
Section ParserFacts.
Import Providers Prompts Utils Vocabulary Parser.
Variable E : Env.

(** The page loop renders the pages in order, one image each. *)
Lemma pages_loop_from (dpi : Z) (suffix : list Page) :
  forall (done : list Page) (images : list Image),
    fold_left
      (fun images page_number =>
         match (done ++ suffix)%list !! page_number with
         | Some page => (images ++ [page_to_image E dpi page])%list
         | None => images
         end)
      (seq (length done) (length suffix)) images
    = (images ++ map (page_to_image E dpi) suffix)%list.
Proof.
  induction suffix as [| page rest IH]; intros done images; simpl.
  - rewrite app_nil_r. reflexivity.
  - rewrite list_lookup_middle by reflexivity.
    specialize (IH (done ++ [page])%list (images ++ [page_to_image E dpi page])%list).
    rewrite length_app in IH. simpl in IH.
    rewrite Nat.add_1_r, <- !app_assoc in IH. simpl in IH.
    exact IH.
Qed.

Lemma pages_loop_map (dpi : Z) (pdf_document : list Page) :
  pages_loop E dpi pdf_document = map (page_to_image E dpi) pdf_document.
Proof. exact (pages_loop_from dpi pdf_document [] []). Qed.

Lemma pdf_to_images_missing (pdf_path : string) (dpi : Z) (w : World) :
  fs E (fspath (Path_ pdf_path)) = None ->
  pdf_to_images E pdf_path dpi w =
  (Raise (exc FileNotFoundError ("PDF file not found: " +:+ fspath (Path_ pdf_path))), w).
Proof. intros H. unfold pdf_to_images, exists_. rewrite H. reflexivity. Qed.

Lemma pdf_to_images_pdf (pdf_path : string) (dpi : Z) (w : World) (pages : list Page) :
  fs E (fspath (Path_ pdf_path)) = Some (PdfFile pages) ->
  pdf_to_images E pdf_path dpi w = (Return (map (page_to_image E dpi) pages), w).
Proof.
  intros H. unfold pdf_to_images, exists_, fitz_open, bind. rewrite H. simpl.
  rewrite pages_loop_map. reflexivity.
Qed.

(** With the file in place and compiling, a sound parser gets its
    template, and the access changes the cache and the record of loads
    only. *)
Lemma parser_template (n src : string) (p : ResumeParser) (w : World) :
  parser_ok E p -> no_slash n = true ->
  template_source E "extraction" n = Some src ->
  compile_source E src = None ->
  exists (t : Template) (p' : ResumeParser) (w' : World),
    with_prompts (__getattr__ E n) (p, w) = (Return t, (p', w')) /\
    source t = src /\ parser_ok E p' /\ model p' = model p /\
    same_but_loads w w'.
Proof.
  intros [Hok Hsub] Hn Hsrc Hcomp.
  pose proof (__getattr___resolves E n (prompts p) w Hok) as H.
  rewrite Hsub in H. specialize (H eq_refl Hn).
  unfold template_source in Hsrc. unfold template_file_path in H.
  destruct (fs E _) as [[| s | pages] |]; try discriminate.
  injection Hsrc as ->. rewrite Hcomp in H. destruct H as (t & Hr & _ & Hs).
  pose proof (__getattr___preserves E n (prompts p) w Hok) as (Hok' & Hsub' & Hsame).
  unfold with_prompts.
  destruct (__getattr__ E n (prompts p, w)) as [r [l' w']]. simpl in *. subst r.
  exists t, (set_prompts l' p), w'. split; [reflexivity |]. split; [exact Hs |].
  split; [split; [exact Hok' | simpl; congruence] |].
  split; [reflexivity | exact Hsame].
Qed.

(** [_llm_parser] is one request, whatever the service answers. *)
Lemma _llm_parser_run (base64_images : list string) (p : ResumeParser) (w : World)
    (sys usr sys_text usr_text : string) :
  parser_ok E p ->
  template_source E "extraction" "system" = Some sys ->
  template_source E "extraction" "user" = Some usr ->
  compile_source E sys = None -> compile_source E usr = None ->
  render_source E sys [] = Return sys_text ->
  render_source E usr [] = Return usr_text ->
  let rq := parser_request (model p) sys_text usr_text base64_images in
  let '(r, (_, w')) := _llm_parser E base64_images (p, w) in
  api_calls w' = (api_calls w ++ [rq])%list /\ heap w' = heap w /\
  r = match sdk E (api_calls w) rq with
      | Return c =>
          match choices c with
          | ch :: _ => Return (parsed (message ch))
          | [] => Raise (wrapped (exc IndexError "list index out of range"))
          end
      | Raise e => Raise (translated e)
      end.
Proof.
  intros Hok Hsys Husr Hcs Hcu Hrs Hru rq.
  destruct (parser_template "system" sys p w Hok eq_refl Hsys Hcs)
    as (t1 & p1 & w1 & Hr1 & Hs1 & Hok1 & Hm1 & (Hh1 & Hc1 & _)).
  destruct (parser_template "user" usr p1 w1 Hok1 eq_refl Husr Hcu)
    as (t2 & p2 & w2 & Hr2 & Hs2 & Hok2 & Hm2 & (Hh2 & Hc2 & _)).
  unfold _llm_parser. unfold bind at 1. rewrite Hr1.
  unfold bind at 1. rewrite render_run, Hs1, Hrs.
  unfold bind at 1. rewrite Hr2.
  unfold bind at 1. rewrite render_run, Hs2, Hru.
  unfold bind at 1, get. unfold bind at 1, on_snd.
  rewrite structured_chat_completion_run. cbn [fst].
  rewrite Hm2, Hm1.
  change (request_of beta_chat_completions_parse false (Some ResumeSchema) _)
    with rq.
  rewrite Hc2, Hc1.
  destruct (sdk E (api_calls w) rq) as [c | e].
  - destruct (choices c) as [| ch rest]; cbn; rewrite Hc2, Hc1, Hh2, Hh1; auto.
  - cbn. rewrite Hc2, Hc1, Hh2, Hh1. auto.
Qed.

End ParserFacts.

Section ParserClaims.
Import Providers Prompts Utils Vocabulary Parser.

(** C6.  For a path at which nothing exists, [parse_resume] raises
    [FileNotFoundError] and leaves parser and world as they were: no
    request is sent.  For a path that holds a PDF, with the two
    templates of the parser in place, it renders exactly one image per
    page, encodes each as a base64 JPEG data url, and sends exactly one
    request, to the synchronous [parse] endpoint with the [Resume]
    schema: its messages are the system prompt and one user message
    made of the user prompt followed by one image entry per page, in
    page order.  It returns the [parsed] field of the first answer, so
    the validated [Resume] whenever the answer carries one, and raises
    when the service gives no answer. *)
Theorem parse_resume_sends_pages (E : Env) (p : ResumeParser) (w : World)
    (pdf_path : string) :
  let path := fspath (Path_ pdf_path) in
  (fs E path = None ->
   parse_resume E pdf_path (p, w) =
   (Raise (exc FileNotFoundError ("PDF file not found: " +:+ path)), (p, w))) /\
  (forall (pages : list Page) (sys usr sys_text usr_text : string),
      fs E path = Some (PdfFile pages) ->
      parser_ok E p ->
      template_source E "extraction" "system" = Some sys ->
      template_source E "extraction" "user" = Some usr ->
      compile_source E sys = None -> compile_source E usr = None ->
      render_source E sys [] = Return sys_text ->
      render_source E usr [] = Return usr_text ->
      let image page :=
        let pixmap := get_pixmap E page (300 # 72) in
        {| im_mode := "RGB"; im_size := (width pixmap, height pixmap);
           im_data := samples pixmap |} in
      let url page :=
        "data:image/jpeg;base64," +:+ b64encode E (save_jpeg E (image page)) in
      let rq :=
        {| endpoint := beta_chat_completions_parse;
           async_client := false;
           response_format := Some ResumeSchema;
           params :=
             {| p_model := model p;
                p_messages :=
                  [ {| role := "system"; content := content_str sys_text |};
                    {| role := "user";
                       content :=
                         content_parts
                           (text_part usr_text
                              :: map (fun page => image_url_part (url page)) pages) |} ];
                p_temperature := 2 # 10;
                p_max_tokens := None |} |} in
      pdf_to_images E pdf_path 300 w = (Return (map image pages), w) /\
      length (map image pages) = length pages /\
      let '(r, (_, w')) := parse_resume E pdf_path (p, w) in
      api_calls w' = (api_calls w ++ [rq])%list /\
      match sdk E (api_calls w) rq with
      | Return c =>
          match choices c with
          | ch :: _ =>
              r = Return (parsed (message ch)) /\
              forall resume : Resume,
                parsed (message ch) = Some (resume_object resume) ->
                r = Return (Some (resume_object resume))
          | [] => exists e : Exc, r = Raise e
          end
      | Raise _ => exists e : Exc, r = Raise e
      end).
Proof.
  cbv zeta. split.
  - intros Hfs. unfold parse_resume. unfold bind at 1, on_snd.
    rewrite (pdf_to_images_missing E pdf_path 300 w Hfs). reflexivity.
  - intros pages sys usr sys_text usr_text Hfs Hok Hsys Husr Hcs Hcu Hrs Hru.
    split; [apply (pdf_to_images_pdf E pdf_path 300 w pages Hfs) |].
    split; [apply length_map |].
    unfold parse_resume. unfold bind at 1, on_snd.
    rewrite (pdf_to_images_pdf E pdf_path 300 w pages Hfs).
    rewrite bind_ret_r.
    pose proof (_llm_parser_run E
                  (map (image_to_base64 E) (map (page_to_image E 300) pages))
                  p w sys usr sys_text usr_text Hok Hsys Husr Hcs Hcu Hrs Hru) as H.
    cbv zeta in H.
    destruct (_llm_parser E _ (p, w)) as [r [p' w']].
    destruct H as (Hc & _ & Hr).
    unfold parser_request in Hc, Hr. rewrite !map_map in Hc, Hr.
    unfold image_to_base64, page_to_image in Hc, Hr.
    split; [exact Hc |].
    destruct (sdk E (api_calls w) _) as [c | e]; [| eexists; exact Hr].
    destruct (choices c) as [| ch rest]; [eexists; exact Hr |].
    split; [exact Hr |]. intros resume Hp. rewrite Hr, Hp. reflexivity.
Qed.

Lemma demo_parser_ok : parser_ok Demo.env Demo.parser.
Proof.
  destruct (__init___ok Demo.env "extraction" empty_world empty_world
              (prompts Demo.parser) eq_refl) as (H & Hs & _).
  split; assumption.
Qed.

Lemma parse_resume_sends_pages_witness :
  let rq :=
    {| endpoint := beta_chat_completions_parse;
       async_client := false;
       response_format := Some ResumeSchema;
       params :=
         {| p_model := "gpt-4o-mini";
            p_messages :=
              [ {| role := "system"; content := content_str "You read resumes." |};
                {| role := "user";
                   content :=
                     content_parts
                       [ text_part "Extract this resume.";
                         image_url_part "data:image/jpeg;base64,page one";
                         image_url_part "data:image/jpeg;base64,page two" ] |} ];
            p_temperature := 2 # 10;
            p_max_tokens := None |} |} in
  fs Demo.env (fspath (Path_ "/home/none.pdf")) = None /\
  parse_resume Demo.env "/home/none.pdf" (Demo.parser, Demo.world)
    = (Raise (exc FileNotFoundError "PDF file not found: /home/none.pdf"),
       (Demo.parser, Demo.world)) /\
  fs Demo.env (fspath (Path_ "/home/cv.pdf")) = Some (PdfFile ["page one"; "page two"]) /\
  parser_ok Demo.env Demo.parser /\
  template_source Demo.env "extraction" "system" = Some "You read resumes." /\
  template_source Demo.env "extraction" "user" = Some "Extract this resume." /\
  let '(r, (_, w')) := parse_resume Demo.env "/home/cv.pdf" (Demo.parser, Demo.world) in
  api_calls w' = [rq] /\
  r = Return (Some (resume_object Demo.resume)).
Proof.
  intros rq.
  destruct (parse_resume_sends_pages Demo.env Demo.parser Demo.world "/home/none.pdf")
    as [Hmissing _].
  destruct (parse_resume_sends_pages Demo.env Demo.parser Demo.world "/home/cv.pdf")
    as [_ Hpdf].
  split; [reflexivity |]. split; [exact (Hmissing eq_refl) |].
  split; [reflexivity |]. split; [exact demo_parser_ok |].
  split; [reflexivity |]. split; [reflexivity |].
  specialize (Hpdf ["page one"; "page two"] "You read resumes." "Extract this resume."
                "You read resumes." "Extract this resume."
                eq_refl demo_parser_ok eq_refl eq_refl eq_refl eq_refl eq_refl eq_refl).
  cbv zeta in Hpdf. destruct Hpdf as (_ & _ & Hpdf).
  destruct (parse_resume Demo.env "/home/cv.pdf" (Demo.parser, Demo.world))
    as [r [p' w']].
  destruct Hpdf as [Hc Hr]. split; [exact Hc |].
  change (sdk Demo.env (api_calls Demo.world) _) with (Return Demo.completion) in Hr.
  cbn [choices Demo.completion] in Hr. destruct Hr as [_ Hr].
  apply (Hr Demo.resume). reflexivity.
Defined.

(** On the demo installation the parser returns the [Resume] that the
    service parsed; when the service declines, it returns [None]. *)
Example parse_resume_demo :
  fst (parse_resume Demo.env "/home/cv.pdf" (Demo.parser, Demo.world))
    = Return (Some (resume_object Demo.resume)) /\
  fst (parse_resume Demo.refusing_env "/home/cv.pdf" (Demo.parser, Demo.world))
    = Return None.
Proof. split; reflexivity. Qed.

End ParserClaims.

(** * Further properties *)

(** ** The provider layer *)
Section ProviderExtras.
Import Tenacity Providers Vocabulary BaseProviderMethods.

(** X1.  The tuple of the retry decorator and of the [except] clauses is
    [APIError] alone: every subclass of [APIError], such as
    [AuthenticationError] and [BadRequestError], is retried and re-raised
    unchanged; every other exception, such as the SDK's
    [LengthFinishReasonError], is neither retried nor let through but
    wrapped in an [LLMError]. *)
Theorem retried_exceptions_are_api_errors :
  (forall e : Exc,
      retry_if get_openai_retry_decorator e = isinstance e APIError /\
      translated e = if isinstance e APIError then e else wrapped e) /\
  Forall (fun c => forall msg, retry_if get_openai_retry_decorator (exc c msg) = true)
    [APIError; APIConnectionError; APITimeoutError; APIStatusError;
     APIResponseValidationError; RateLimitError; AuthenticationError;
     BadRequestError; PermissionDeniedError; NotFoundError; ConflictError;
     UnprocessableEntityError; InternalServerError] /\
  Forall (fun c => forall msg, retry_if get_openai_retry_decorator (exc c msg) = false)
    [Exception; OpenAIError; LengthFinishReasonError; ContentFilterFinishReasonError;
     LLMError; RetryError; ValueError; AttributeError; IndexError; TypeError].
Proof.
  split; [| split].
  - intros e. split.
    + apply transient_is_api_error.
    + unfold translated. rewrite transient_is_api_error. reflexivity.
  - repeat constructor.
  - repeat constructor.
Qed.

Variable E : Env.

(** The outcomes of the retried [chat_completion], from attempt
    [attempt_number] on with [remaining] attempts left after it. *)
Lemma attempts_chat_completion_outcome (a : CallArgs) :
  let P := get_openai_retry_decorator in
  let rq := request_of chat_completions_create false None a in
  forall (remaining attempt_number : nat) (w : World),
    let '(r, w') := attempts P remaining attempt_number (chat_completion_method E a) w in
    exists before : list Request,
      api_calls w' = (before ++ [rq])%list /\
      match r with
      | Return c => sdk E before rq = Return c
      | Raise x =>
          (exists e0 : Exc,
              x = wrapped e0 /\ transient e0 = false /\ sdk E before rq = Raise e0) \/
          (exists e : Exc,
              x = retry_error e /\ transient e = true /\ sdk E before rq = Raise e /\
              length (api_calls w') = (length (api_calls w) + S remaining)%nat)
      end.
Proof.
  intros P rq.
  induction remaining as [| r IH]; intros n w; cbn [attempts];
    rewrite chat_completion_method_run; fold rq;
    destruct (sdk E (api_calls w) rq) as [c | e] eqn:Hsdk.
  - exists (api_calls w). split; [reflexivity | exact Hsdk].
  - unfold translated. destruct (transient e) eqn:Htr.
    + change (retry_if P e) with (transient e). rewrite Htr. cbn [negb].
      exists (api_calls w). split; [reflexivity |].
      right. exists e. repeat split; try assumption.
      cbn [record_call api_calls]. rewrite length_app. reflexivity.
    + change (retry_if P (wrapped e)) with false. cbn [negb].
      exists (api_calls w). split; [reflexivity |].
      left. exists e. auto.
  - exists (api_calls w). split; [reflexivity | exact Hsdk].
  - unfold translated. destruct (transient e) eqn:Htr.
    + change (retry_if P e) with (transient e). rewrite Htr. cbn [negb].
      specialize (IH (S n) (record_sleep (wait P n) (record_call rq w))).
      destruct (attempts P r (S n) _ _) as [res w'].
      destruct IH as (before & Hb & Hres). exists before. split; [exact Hb |].
      destruct res as [c | x]; [exact Hres |].
      destruct Hres as [Hl | (e' & -> & Ht & Hs & Hlen)]; [left; exact Hl |].
      right. exists e'. repeat split; try assumption.
      rewrite Hlen. cbn [record_sleep record_call api_calls].
      rewrite length_app. simpl. lia.
    + change (retry_if P (wrapped e)) with false. cbn [negb].
      exists (api_calls w). split; [reflexivity |].
      left. exists e. auto.
Qed.

(** X2.  The retried [chat_completion] of an [OpenAIProvider], built
    without a decorator of the caller's, ends in one of three ways: it returns what the service answered to the last request;
    or it raises the [LLMError] that wraps a non-transient failure of the
    last request; or, the fifth request having failed transiently like
    those before, it raises tenacity's [RetryError].  It never raises a
    transient exception itself, and never an [LLMError] for a transient
    failure. *)
Theorem chat_completion_outcomes (api_key : option string) (p : OpenAIProvider)
    (w0 w1 : World) (a : CallArgs) (w : World) :
  OpenAIProvider__init__ E api_key None w0 = (Return p, w1) ->
  let rq := request_of chat_completions_create false None a in
  let '(r, w') := chat_completion p a w in
  exists before : list Request,
    api_calls w' = (before ++ [rq])%list /\
    match r with
    | Return c => sdk E before rq = Return c
    | Raise x =>
        transient x = false /\
        ((exists e0 : Exc,
             x = wrapped e0 /\ transient e0 = false /\ sdk E before rq = Raise e0) \/
         (exists e : Exc,
             x = retry_error e /\ transient e = true /\ sdk E before rq = Raise e /\
             length (api_calls w') = (length (api_calls w) + 5)%nat))
    end.
Proof.
  intros Hinit rq.
  destruct (OpenAIProvider__init___default E _ _ _ _ Hinit) as [-> _].
  pose proof (attempts_chat_completion_outcome a 4 1 w) as H. cbv zeta in H.
  change (chat_completion (provider E) a w)
    with (attempts get_openai_retry_decorator 4 1 (chat_completion_method E a) w).
  destruct (attempts _ 4 1 _ w) as [r w'].
  destruct H as (before & Hb & Hr). exists before. split; [exact Hb |].
  destruct r as [c | x]; [exact Hr |].
  split; [| exact Hr].
  destruct Hr as [(e0 & -> & _) | (e & -> & _)]; reflexivity.
Qed.

(** A retried call whose every attempt raises the same retried
    exception gives up with a [RetryError] around it. *)
Lemma attempts_all_fail {A} (P : RetryPolicy) (fn : M World A) (e : Exc)
    (step : World -> World) :
  (forall w, fn w = (Raise e, step w)) ->
  retry_if P e = true ->
  forall (remaining n : nat) (w : World),
    attempts P remaining n fn w = (Raise (retry_error e), exhausted P step remaining n w).
Proof.
  intros Hfn Hre. induction remaining as [| r IH]; intros n w; cbn [attempts exhausted];
    rewrite Hfn, Hre; cbn [negb]; [reflexivity | apply IH].
Qed.

Lemma exhausted_counts (P : RetryPolicy) (step : World -> World) (kc ks : nat) :
  (forall w, length (api_calls (step w)) = (length (api_calls w) + kc)%nat /\
             length (sleeps (step w)) = (length (sleeps w) + ks)%nat) ->
  forall (remaining n : nat) (w : World),
    length (api_calls (exhausted P step remaining n w))
      = (length (api_calls w) + S remaining * kc)%nat /\
    length (sleeps (exhausted P step remaining n w))
      = (length (sleeps w) + S remaining * ks + remaining)%nat.
Proof.
  intros Hstep. induction remaining as [| r IH]; intros n w; cbn [exhausted].
  - destruct (Hstep w) as [Hc Hs]. rewrite Hc, Hs. lia.
  - destruct (IH (S n) (record_sleep (wait P n) (step w))) as [Hc Hs].
    destruct (Hstep w) as [Hc1 Hs1].
    rewrite Hc, Hs. cbn [record_sleep api_calls sleeps].
    rewrite length_app, Hc1, Hs1. simpl length. lia.
Qed.

(** X3.  Assigning [retry_decorator] decorates the decorated methods once
    more.  Against a service that fails transiently throughout, a
    provider reassigned the OpenAI decorator still gives up after 5
    requests, since the [RetryError] of the inner decorator is not
    retried; a provider assigned the default decorator retries that
    [RetryError] too and sends 25 requests, with 24 sleeps, before its
    own [RetryError]. *)
Theorem retry_decorator_setter_stacks (api_key : option string)
    (p : OpenAIProvider) (wa wb : World) (a : CallArgs) (w : World) (e : Exc) :
  OpenAIProvider__init__ E api_key None wa = (Return p, wb) ->
  (forall history rq, sdk E history rq = Raise e) ->
  transient e = true ->
  let '(r1, w1) := chat_completion (set_retry_decorator get_openai_retry_decorator p) a w in
  let '(r2, w2) := chat_completion (set_retry_decorator get_default_retry_decorator p) a w in
  r1 = Raise (retry_error e) /\
  length (api_calls w1) = (length (api_calls w) + 5)%nat /\
  r2 = Raise (retry_error (retry_error e)) /\
  length (api_calls w2) = (length (api_calls w) + 25)%nat /\
  length (sleeps w2) = (length (sleeps w) + 24)%nat.
Proof.
  intros Hinit Hsdk Htr.
  destruct (OpenAIProvider__init___default E _ _ _ _ Hinit) as [-> _].
  set (p := provider E).
  set (rq := request_of chat_completions_create false None a).
  assert (Hfn : forall w0, chat_completion_method E a w0 = (Raise e, record_call rq w0)).
  { intros w0. rewrite chat_completion_method_run, Hsdk. unfold translated.
    rewrite Htr. reflexivity. }
  assert (Hinner : forall w0,
             chat_completion p a w0 =
             (Raise (retry_error e),
              exhausted get_openai_retry_decorator (record_call rq) 4 1 w0)).
  { intros w0. exact (attempts_all_fail get_openai_retry_decorator _ e _ Hfn Htr 4 1 w0). }
  assert (Hstep1 : forall w0,
             length (api_calls (record_call rq w0)) = (length (api_calls w0) + 1)%nat /\
             length (sleeps (record_call rq w0)) = (length (sleeps w0) + 0)%nat).
  { intros w0. cbn [record_call api_calls sleeps]. rewrite length_app. simpl. lia. }
  pose proof (exhausted_counts get_openai_retry_decorator _ 1 0 Hstep1 4 1) as Hin.
  change (chat_completion (set_retry_decorator get_openai_retry_decorator p) a w)
    with (attempts get_openai_retry_decorator 4 1 (chat_completion p a) w).
  change (chat_completion (set_retry_decorator get_default_retry_decorator p) a w)
    with (attempts get_default_retry_decorator 4 1 (chat_completion p a) w).
  rewrite (attempts_all_fail get_default_retry_decorator _ (retry_error e) _ Hinner
             eq_refl 4 1 w).
  cbn [attempts]. rewrite Hinner.
  change (retry_if get_openai_retry_decorator (retry_error e)) with false. cbn [negb].
  destruct (Hin w) as [Hc1 _].
  assert (Hstep2 : forall w0,
             length (api_calls (exhausted get_openai_retry_decorator (record_call rq) 4 1 w0))
               = (length (api_calls w0) + 5)%nat /\
             length (sleeps (exhausted get_openai_retry_decorator (record_call rq) 4 1 w0))
               = (length (sleeps w0) + 4)%nat).
  { intros w0. destruct (Hin w0) as [Hc Hs]. rewrite Hc, Hs. lia. }
  destruct (exhausted_counts get_default_retry_decorator _ 5 4 Hstep2 4 1 w) as [Hc2 Hs2].
  split; [reflexivity |]. split; [rewrite Hc1; lia |].
  split; [reflexivity |]. split; [rewrite Hc2; lia | rewrite Hs2; lia].
Qed.

End ProviderExtras.

Section ProviderExtrasOnDemo.
Import Tenacity Providers Vocabulary BaseProviderMethods.

Lemma chat_completion_outcomes_witness :
  let rq := request_of chat_completions_create false None Demo.args in
  OpenAIProvider__init__ Demo.flaky_env None None empty_world
    = (Return (provider Demo.flaky_env), empty_world) /\
  let '(r, w') := chat_completion (provider Demo.flaky_env) Demo.args empty_world in
  r = Return Demo.completion /\ api_calls w' = [rq; rq] /\ sleeps w' = [4%Z] /\
  exists before : list Request,
    api_calls w' = (before ++ [rq])%list /\
    sdk Demo.flaky_env before rq = Return Demo.completion.
Proof.
  intros rq.
  assert (Hinit : OpenAIProvider__init__ Demo.flaky_env None None empty_world
                  = (Return (provider Demo.flaky_env), empty_world)) by reflexivity.
  split; [exact Hinit |].
  pose proof (chat_completion_outcomes Demo.flaky_env None (provider Demo.flaky_env)
                empty_world empty_world Demo.args empty_world Hinit) as H.
  cbv zeta in H.
  change (chat_completion (provider Demo.flaky_env) Demo.args empty_world)
    with (Return (A := Completion) Demo.completion,
          {| heap := ∅; api_calls := [rq; rq]; sleeps := [4%Z]; log := [];
             template_loads := [] |}) in H |- *.
  split; [reflexivity |]. split; [reflexivity |]. split; [reflexivity |]. exact H.
Defined.

Lemma retry_decorator_setter_stacks_witness :
  let e := exc RateLimitError "Rate limit reached" in
  let p := provider Demo.limited_env in
  OpenAIProvider__init__ Demo.limited_env None None empty_world
    = (Return p, empty_world) /\
  (forall history rq, sdk Demo.limited_env history rq = Raise e) /\
  transient e = true /\
  let '(r1, w1) :=
    chat_completion (set_retry_decorator get_openai_retry_decorator p) Demo.args empty_world in
  let '(r2, w2) :=
    chat_completion (set_retry_decorator get_default_retry_decorator p) Demo.args empty_world in
  r1 = Raise (retry_error e) /\
  length (api_calls w1) = 5%nat /\
  r2 = Raise (retry_error (retry_error e)) /\
  length (api_calls w2) = 25%nat /\
  length (sleeps w2) = 24%nat.
Proof.
  intros e p.
  assert (H1 : forall history rq, sdk Demo.limited_env history rq = Raise e)
    by (intros; reflexivity).
  split; [reflexivity |]. split; [exact H1 |]. split; [reflexivity |].
  exact (retry_decorator_setter_stacks Demo.limited_env None p empty_world empty_world
           Demo.args empty_world e eq_refl H1 eq_refl).
Defined.

End ProviderExtrasOnDemo.

(** X4.  A provider of the base class retries its own [NotImplementedError]:
    [BaseProvider().chat_completion] sends nothing, sleeps 4, 4, 4 and 8
    seconds, and raises a [RetryError]. *)
Theorem base_provider_retries_not_implemented
    (a : Providers.CallArgs) (w : World) :
  let '(r, w') :=
    Providers.chat_completion (BaseProviderMethods.BaseProvider None) a w in
  r = Raise (retry_error (exc NotImplementedError "")) /\
  api_calls w' = api_calls w /\
  sleeps w' = (sleeps w ++ [4; 4; 4; 8]%Z)%list.
Proof.
  simpl. split; [reflexivity |]. split; [reflexivity |].
  rewrite <- !app_assoc. reflexivity.
Qed.

(** ** The prompt loader *)
Section PromptLoaderExtras.
Import Prompts Vocabulary.
Variable E : Env.

(** An access stores at most the accessed name. *)
Lemma __getattr___dom (a n : string) (l : PromptLoader) (w : World) :
  is_Some (_templates (fst (snd (__getattr__ E a (l, w)))) !! n) ->
  is_Some (_templates l !! n) \/ n = a.
Proof.
  rewrite __getattr___run.
  destruct (_templates l !! a) as [t |] eqn:Ha; [auto |].
  cbv zeta. destruct (fst (get_template E _ _ w)) as [t | e]; cbn [fst snd]; auto.
  cbn [set_templates _templates].
  destruct (decide (a = n)) as [-> | Hne]; [auto |].
  rewrite lookup_insert_ne by exact Hne. auto.
Qed.

Lemma run_accesses_dom (names : list string) (n : string) :
  forall (l : PromptLoader) (w : World),
    is_Some (_templates (fst (run_accesses E names (l, w))) !! n) ->
    is_Some (_templates l !! n) \/ n ∈ names.
Proof.
  induction names as [| a rest IH]; intros l w H; simpl in H; [auto |].
  pose proof (__getattr___dom a n l w) as Hd.
  destruct (__getattr__ E a (l, w)) as [r [l' w']]. simpl in *.
  destruct (IH l' w' H) as [Hin | Hin].
  - destruct (Hd Hin) as [Hl | ->]; [auto |]. right. apply elem_of_cons. auto.
  - right. apply elem_of_cons. auto.
Qed.

(** What jinja2 raises for a template name does not depend on the
    loads made before. *)
Lemma get_template_raises_again (env : Environment) (file : string) (w w' : World)
    (e : Exc) :
  fst (get_template E env file w) = Raise e ->
  fst (get_template E env file w') = Raise e.
Proof.
  unfold get_template. cbn [fst].
  destruct (split_template_path file) as [pieces |]; [| auto].
  destruct (fs E _) as [[| src | pages] |]; auto.
  destruct (compile_source E src); [auto | discriminate].
Qed.

(** X5.  The cache of a loader holds what the files hold.  On a loader built
    by the constructor, after any accesses, every cached entry was
    accessed by its name, carries the file name
    [<subfolder>/<name>.jinja], which has no piece [..], and has the
    content of that file under the prompts directory as its source,
    which compiles. *)
Theorem cache_holds_the_files (subfolder_ : string) (w w' : World) (l : PromptLoader)
    (names : list string) (n : string) (t : Template) :
  __init__ E subfolder_ w = (Return l, w') ->
  _templates (fst (run_accesses E names (l, w'))) !! n = Some t ->
  n ∈ names /\
  filename t = template_file subfolder_ n /\
  has_dotdot (template_file subfolder_ n) = false /\
  fs E (file_of E subfolder_ n) = Some (File (source t)) /\
  compile_source E (source t) = None.
Proof.
  intros Hinit Hn.
  destruct (__init___ok E _ _ _ _ Hinit) as (Hok & Hsub & ->).
  destruct (run_accesses_preserves E names l w Hok) as [[_ Hc] Hsub'].
  destruct (Hc n t Hn) as (Hf & Hfs & Hcomp). rewrite Hsub', Hsub in Hf.
  split.
  - destruct (run_accesses_dom names n l w) as [Hl | Hin]; [eauto | | exact Hin].
    rewrite __init___run in Hinit. destruct (exists_ E _); [| discriminate].
    injection Hinit as <-. simpl in Hl. rewrite lookup_empty in Hl.
    destruct Hl as [? Hl]. discriminate.
  - split; [exact Hf |]. rewrite Hf, found_source_at in Hfs. unfold file_of.
    destruct (has_dotdot (template_file subfolder_ n)); [discriminate |].
    split; [reflexivity |].
    destruct (fs E _) as [[| src | pages] |]; try discriminate.
    injection Hfs as ->. split; [reflexivity | exact Hcomp].
Qed.

(** X6.  A failed access is not remembered.  It finds nothing cached, asks
    jinja2 once and leaves the loader as it was.  What it raises is an
    [AttributeError] when jinja2 raised a [TemplateNotFound], and else
    what jinja2 raised: on a loader that searches the prompts
    directory, an [AttributeError] when the name of the file has a
    piece [..] or there is no regular file of that name; a
    [UnicodeDecodeError] when the file is no UTF-8 text; and for a file
    that does not compile the exception of the compiler, a
    [TemplateSyntaxError] for one.  The same access made again asks
    jinja2 again and fails in the same way. *)
Theorem failed_access_is_not_cached (template_name : string) (l l' : PromptLoader)
    (w w' : World) (e : Exc) :
  __getattr__ E template_name (l, w) = (Raise e, (l', w')) ->
  let file := template_file (subfolder l) template_name in
  let not_found :=
    exc AttributeError
      ("No template file '" +:+ template_name +:+ ".jinja' found in '" +:+
       subfolder l +:+ "' subfolder") in
  l' = l /\
  _templates l !! template_name = None /\
  template_loads w' = (template_loads w ++ [file])%list /\
  (searchpath (template_env l) = prompts_dir E ->
   if has_dotdot file then e = not_found
   else
     match fs E (file_of E (subfolder l) template_name) with
     | Some (File src) =>
         exists raised : Exc,
           compile_source E src = Some raised /\
           e = if isinstance raised TemplateNotFound then not_found else raised
     | Some (PdfFile _) =>
         e = exc UnicodeDecodeError "'utf-8' codec can't decode byte"
     | _ => e = not_found
     end) /\
  let '(r2, (l2, w2)) := __getattr__ E template_name (l', w') in
  r2 = Raise e /\ l2 = l /\
  template_loads w2 = (template_loads w ++ [file; file])%list.
Proof.
  intros H. rewrite __getattr___run in H.
  destruct (_templates l !! template_name) as [t |] eqn:Hc; [discriminate |].
  cbv zeta in H |- *.
  destruct (fst (get_template E (template_env l)
                   (template_file (subfolder l) template_name) w))
    as [t | raised] eqn:Hg; [discriminate |].
  injection H as <- <- <-.
  split; [reflexivity |]. split; [reflexivity |]. split; [reflexivity |].
  split.
  - intros Hsp. rewrite (get_template_at E _ _ _ Hsp) in Hg. unfold file_of.
    destruct (has_dotdot (template_file (subfolder l) template_name)).
    { injection Hg as <-. reflexivity. }
    destruct (fs E _) as [[| src | pages] |];
      try (injection Hg as <-; reflexivity).
    destruct (compile_source E src) as [x |]; [| discriminate].
    injection Hg as <-. exists x. split; reflexivity.
  - rewrite __getattr___run, Hc. cbv zeta.
    rewrite (get_template_raises_again _ _ w _ raised Hg).
    split; [reflexivity |]. split; [reflexivity |].
    cbn [record_load template_loads]. rewrite <- app_assoc. reflexivity.
Qed.

End PromptLoaderExtras.

Section PromptLoaderExtrasOnDemo.
Import Prompts Vocabulary.

Lemma cache_holds_the_files_witness :
  let l0 := fst (run_accesses Demo.env ["stage_1"; "missing"; "stage_2"]
                   (set_templates ∅ Demo.loader, empty_world)) in
  let t := {| template_id := 2; filename := "optimization/stage_2.jinja";
              source := "Find the gaps." |} in
  __init__ Demo.env "optimization" empty_world
    = (Return (set_templates ∅ Demo.loader), empty_world) /\
  _templates l0 !! "stage_2" = Some t /\
  "stage_2" ∈ ["stage_1"; "missing"; "stage_2"] /\
  filename t = "optimization/stage_2.jinja" /\
  fs Demo.env "/pkg/prompt_templates/optimization/stage_2.jinja"
    = Some (File (source t)).
Proof.
  intros l0 t.
  assert (Hinit : __init__ Demo.env "optimization" empty_world
                  = (Return (set_templates ∅ Demo.loader), empty_world)) by reflexivity.
  assert (Hn : _templates l0 !! "stage_2" = Some t) by reflexivity.
  split; [exact Hinit |]. split; [exact Hn |].
  destruct (cache_holds_the_files Demo.env "optimization" empty_world empty_world
              (set_templates ∅ Demo.loader) ["stage_1"; "missing"; "stage_2"]
              "stage_2" t Hinit Hn) as (Hin & Hf & _ & Hfs & _).
  split; [exact Hin |]. split; [exact Hf | exact Hfs].
Defined.

Lemma failed_access_is_not_cached_witness :
  let e := exc TemplateSyntaxError
             "Expected an expression, got 'end of statement block'" in
  let w1 := record_load "optimization/broken.jinja" empty_world in
  __getattr__ Demo.env "broken" (Demo.loader, empty_world) = (Raise e, (Demo.loader, w1)) /\
  fs Demo.env "/pkg/prompt_templates/optimization/broken.jinja" = Some (File "{% if %}") /\
  let '(r2, (l2, w2)) := __getattr__ Demo.env "broken" (Demo.loader, w1) in
  r2 = Raise e /\ l2 = Demo.loader /\
  template_loads w2 = ["optimization/broken.jinja"; "optimization/broken.jinja"].
Proof.
  intros e w1.
  assert (H : __getattr__ Demo.env "broken" (Demo.loader, empty_world)
              = (Raise e, (Demo.loader, w1))) by reflexivity.
  split; [exact H |]. split; [reflexivity |].
  destruct (failed_access_is_not_cached Demo.env "broken" Demo.loader Demo.loader
              empty_world w1 e H) as (_ & _ & _ & _ & H2).
  exact H2.
Defined.

(** The same on a name without a file: an [AttributeError], twice. *)
Example missing_template_is_asked_for_again :
  let e := exc AttributeError
             "No template file 'missing.jinja' found in 'optimization' subfolder" in
  let s1 := snd (__getattr__ Demo.env "missing" (Demo.loader, empty_world)) in
  fst (__getattr__ Demo.env "missing" (Demo.loader, empty_world)) = Raise e /\
  fst (__getattr__ Demo.env "missing" s1) = Raise e /\
  template_loads (snd (snd (__getattr__ Demo.env "missing" s1)))
    = ["optimization/missing.jinja"; "optimization/missing.jinja"].
Proof. repeat split; reflexivity. Qed.

End PromptLoaderExtrasOnDemo.
(** ** Rasterizing and parsing *)
Section ParserExtras.
Import Providers Prompts Utils Vocabulary Parser.
Variable E : Env.

(** X7.  [pdf_to_images] keeps the pages in order: for a PDF at the path,
    as [pathlib] writes it, it returns as
    many images as there are pages, the image at each index being the
    rendering of the page at that index at zoom [dpi / 72], and leaves
    the world alone. *)
Theorem pdf_to_images_in_page_order (pdf_path : string) (dpi : Z) (w : World)
    (pages : list Page) :
  fs E (fspath (Path_ pdf_path)) = Some (PdfFile pages) ->
  exists images : list Image,
    pdf_to_images E pdf_path dpi w = (Return images, w) /\
    length images = length pages /\
    forall i : nat,
      images !! i =
      (fun page =>
         let pixmap := get_pixmap E page (Qmake dpi 72) in
         {| im_mode := "RGB"; im_size := (width pixmap, height pixmap);
            im_data := samples pixmap |}) <$> pages !! i.
Proof.
  intros Hfs. exists (map (page_to_image E dpi) pages).
  split; [apply pdf_to_images_pdf; exact Hfs |].
  split; [apply length_map |].
  intros i. apply list_lookup_fmap.
Qed.

(** [pdf_to_images] never changes the world. *)
Lemma pdf_to_images_world (pdf_path : string) (dpi : Z) (w : World) :
  snd (pdf_to_images E pdf_path dpi w) = w.
Proof.
  unfold pdf_to_images, fitz_open, bind.
  cbv zeta. destruct (negb (exists_ E _)); [reflexivity |].
  destruct (fs E _) as [[| src | pages] |]; reflexivity.
Qed.

(** A template access of the parser changes the record of loads only. *)
Lemma parser_with_prompts_frame (n : string) (p : ResumeParser) (w : World) :
  let s' := snd (with_prompts (__getattr__ E n) (p, w)) in
  model (fst s') = model p /\ same_but_loads w (snd s').
Proof.
  unfold with_prompts.
  pose proof (__getattr___frame E n (prompts p) w) as [_ Hsame].
  destruct (__getattr__ E n (prompts p, w)) as [r [l' w']]. simpl in *.
  split; [reflexivity | exact Hsame].
Qed.

(** X8.  [parse_resume] is not retried either.  Whatever the file system
    holds and whatever the service answers, a call of [parse_resume]
    sends no request or exactly one, to the synchronous [parse] endpoint
    with the schema [Resume] and the parser's model, never sleeps, and
    leaves the caller's objects and the log alone; when it returns, it
    has sent exactly one. *)
Theorem parse_resume_sends_at_most_one_request (p : ResumeParser) (w : World)
    (pdf_path : string) :
  let '(r, (p', w')) := parse_resume E pdf_path (p, w) in
  sleeps w' = sleeps w /\ heap w' = heap w /\ log w' = log w /\
  model p' = model p /\
  ((api_calls w' = api_calls w /\ exists e, r = Raise e) \/
   exists rq : Request,
     api_calls w' = (api_calls w ++ [rq])%list /\
     endpoint rq = beta_chat_completions_parse /\ async_client rq = false /\
     response_format rq = Some ResumeSchema /\ p_model (params rq) = model p).
Proof.
  unfold parse_resume. unfold bind at 1, on_snd.
  pose proof (pdf_to_images_world pdf_path 300 w) as Hw.
  destruct (pdf_to_images E pdf_path 300 w) as [[images | e] w0]; simpl in Hw; subst w0.
  2: { repeat (split; [reflexivity |]). left. split; [reflexivity | eauto]. }
  rewrite bind_ret_r. unfold _llm_parser. unfold bind at 1.
  pose proof (parser_with_prompts_frame "system" p w) as H1. cbv zeta in H1.
  destruct (with_prompts (__getattr__ E "system") (p, w)) as [[t1 | e] [p1 w1]];
    cbn [fst snd] in H1; destruct H1 as (Hm1 & Hh1 & Hc1 & Hs1 & Hl1).
  2: { repeat (split; [assumption |]). left. split; [assumption | eauto]. }
  unfold bind at 1. rewrite render_run.
  destruct (render_source E (source t1) []) as [system_prompt | e].
  2: { repeat (split; [assumption |]). left. split; [assumption | eauto]. }
  unfold bind at 1.
  pose proof (parser_with_prompts_frame "user" p1 w1) as H2. cbv zeta in H2.
  destruct (with_prompts (__getattr__ E "user") (p1, w1)) as [[t2 | e] [p2 w2]];
    cbn [fst snd] in H2; destruct H2 as (Hm2 & Hh2 & Hc2 & Hs2 & Hl2).
  2: { repeat (split; [congruence |]). left. split; [congruence | eauto]. }
  unfold bind at 1. rewrite render_run.
  destruct (render_source E (source t2) []) as [user_prompt | e].
  2: { repeat (split; [congruence |]). left. split; [congruence | eauto]. }
  unfold bind at 1, get. unfold bind at 1, on_snd.
  rewrite structured_chat_completion_run. cbn [fst].
  match goal with
  | |- context [record_call ?q w2] => set (rq := q)
  end.
  assert (Hrest :
            sleeps (record_call rq w2) = sleeps w /\
            heap (record_call rq w2) = heap w /\
            log (record_call rq w2) = log w /\
            model p2 = model p /\
            exists rq0 : Request,
              api_calls (record_call rq w2) = (api_calls w ++ [rq0])%list /\
              endpoint rq0 = beta_chat_completions_parse /\ async_client rq0 = false /\
              response_format rq0 = Some ResumeSchema /\ p_model (params rq0) = model p).
  { cbn [record_call sleeps heap log api_calls].
    repeat (split; [congruence |]).
    exists rq. split; [congruence |]. repeat (split; [reflexivity |]).
    unfold rq. cbn. congruence. }
  destruct Hrest as (Ha & Hb & Hc & Hd & He).
  destruct (sdk E (api_calls w2) rq) as [c | e]; [destruct (choices c) as [| ch rest] |];
    cbn; repeat (split; [assumption |]); right; exact He.
Qed.

End ParserExtras.

Section ParserExtrasOnDemo.
Import Providers Prompts Utils Vocabulary Parser.

Lemma pdf_to_images_in_page_order_witness :
  fs Demo.env (fspath (Path_ "/home/cv.pdf"))
    = Some (PdfFile ["page one"; "page two"]) /\
  exists images : list Image,
    pdf_to_images Demo.env "/home/cv.pdf" 300 empty_world = (Return images, empty_world) /\
    length images = 2%nat /\
    images !! 1%nat =
      Some {| im_mode := "RGB"; im_size := (1, 1)%Z; im_data := "page two" |}.
Proof.
  split; [reflexivity |].
  destruct (pdf_to_images_in_page_order Demo.env "/home/cv.pdf" 300 empty_world
              ["page one"; "page two"] eq_refl) as (images & Hrun & Hlen & Hat).
  exists images. split; [exact Hrun |]. split; [exact Hlen |].
  rewrite Hat. reflexivity.
Defined.

End ParserExtrasOnDemo.

(** ** The optimizer *)
Section OptimizerExtras.
Import Providers Prompts Vocabulary Optimizer.
Variable E : Env.

(** X9.  A stage whose call fails leaves its user turn behind.  When the
    service gives no answer, the stage raises with the conversation one
    user message longer, and the same stage called again sends a request
    that carries its prompt twice in a row. *)
Theorem failed_stage_leaves_its_user_turn (st : Stage) (o : ResumeOptimizer)
    (w : World) (src : string) :
  optimizer_ok E o ->
  template_source E "optimization" (stage_name st) = Some src ->
  renders E src (stage_kwargs E (heap w) st) ->
  stage_ready (heap w) st ->
  let prompt := stage_prompt E (heap w) st src in
  let rq := conversation_request (model o) (messages o ++ [user_message prompt])%list
              (Some (stage_schema st)) in
  let rq2 := conversation_request (model o)
               (messages o ++ [user_message prompt; user_message prompt])%list
               (Some (stage_schema st)) in
  answer E (api_calls w) rq = None ->
  let '(r1, (o1, w1)) := run_stage E st (o, w) in
  (exists e, r1 = Raise e) /\
  messages o1 = (messages o ++ [user_message prompt])%list /\
  let '(_, (_, w2)) := run_stage E st (o1, w1) in
  api_calls w2 = (api_calls w ++ [rq; rq2])%list.
Proof.
  intros Hok Hsrc Hrend Hready prompt rq rq2 Hnone.
  pose proof (run_stage_outcome E st o w src Hok Hsrc Hrend Hready) as H1.
  cbv zeta in H1. fold prompt in H1. fold rq in H1.
  destruct (run_stage E st (o, w)) as [r1 [o1 w1]].
  destruct H1 as (Hc1 & Hh1 & _ & _ & Hmo1 & Hok1 & Hr1).
  destruct r1 as [m | e]; [destruct Hr1 as [Hsome _]; congruence |].
  destruct Hr1 as [_ Hm1].
  split; [eauto |]. split; [exact Hm1 |].
  assert (Hready1 : stage_ready (heap w1) st) by (rewrite Hh1; exact Hready).
  assert (Hrend1 : renders E src (stage_kwargs E (heap w1) st))
    by (rewrite Hh1; exact Hrend).
  pose proof (run_stage_outcome E st o1 w1 src Hok1 Hsrc Hrend1 Hready1) as H2.
  cbv zeta in H2. rewrite Hh1, Hm1, Hmo1, Hc1, <- app_assoc in H2.
  fold prompt in H2. simpl app in H2. fold rq2 in H2.
  destruct (run_stage E st (o1, w1)) as [r2 [o2 w2]].
  destruct H2 as (Hc2 & _). rewrite Hc2, <- app_assoc. reflexivity.
Qed.

(** X10.  A stage whose template file is missing raises an [AttributeError]
    before anything is sent, and leaves the conversation as it was. *)
Theorem stage_without_template_sends_nothing (st : Stage) (o : ResumeOptimizer)
    (w : World) :
  optimizer_ok E o ->
  no_file E (template_file_path E "optimization" (stage_name st)) ->
  let '(r, (o', w')) := run_stage E st (o, w) in
  r = Raise (exc AttributeError
               ("No template file '" +:+ stage_name st +:+
                ".jinja' found in 'optimization' subfolder")) /\
  messages o' = messages o /\ api_calls w' = api_calls w.
Proof.
  intros [Hok Hsub] Hsrc.
  pose proof (with_prompts_frame E (stage_name st) o w) as H. cbv zeta in H.
  destruct H as (Hm & _ & (_ & Hc & _) & _).
  assert (Hr : fst (with_prompts (__getattr__ E (stage_name st)) (o, w))
               = Raise (exc AttributeError
                          ("No template file '" +:+ stage_name st +:+
                           ".jinja' found in 'optimization' subfolder"))).
  { pose proof (__getattr___resolves E (stage_name st) (prompts o) w Hok) as Hres.
    rewrite Hsub in Hres. specialize (Hres eq_refl (stage_name_no_slash st)).
    unfold with_prompts.
    destruct (__getattr__ E (stage_name st) (prompts o, w)) as [r [p' w']].
    destruct Hsrc as [Hsrc | Hsrc]; rewrite Hsrc in Hres; exact Hres. }
  remember (run_stage E st (o, w)) as res eqn:Hres.
  destruct st; cbn [stage_name run_stage] in *;
    unfold stage_1, stage_2, stage_3, stage_4, stage_5 in Hres;
    unfold bind at 1 in Hres;
    match type of Hres with
    | context [with_prompts ?c (o, w)] =>
        destruct (with_prompts c (o, w)) as [r [o0 w0]]
    end; cbn [fst snd] in *; subst r; subst res;
    (split; [reflexivity |]); split; assumption.
Qed.

End OptimizerExtras.

Section OptimizerExtrasOnDemo.
Import Providers Prompts Vocabulary Optimizer.

Lemma failed_stage_leaves_its_user_turn_witness :
  let E := Demo.limited_env in
  let o := Demo.optimizer E in
  let prompt := "Prioritize." in
  let rq := conversation_request "gpt-4o" (messages o ++ [user_message prompt])%list
              (Some ContentPrioritization) in
  let rq2 := conversation_request "gpt-4o"
               (messages o ++ [user_message prompt; user_message prompt])%list
               (Some ContentPrioritization) in
  optimizer_ok E o /\
  template_source E "optimization" "stage_3" = Some "Prioritize." /\
  renders E "Prioritize." [] /\
  answer E (api_calls Demo.world_after_init) rq = None /\
  let '(r1, (o1, w1)) := run_stage E Stage3 (o, Demo.world_after_init) in
  (exists e, r1 = Raise e) /\
  messages o1 = (messages o ++ [user_message prompt])%list /\
  let '(_, (_, w2)) := run_stage E Stage3 (o1, w1) in
  api_calls w2 = (api_calls Demo.world_after_init ++ [rq; rq2])%list.
Proof.
  intros E o prompt rq rq2.
  assert (Hok : optimizer_ok E o).
  { apply (Optimizer__init___ok E "gpt-4o" Demo.world Demo.world_after_init).
    reflexivity. }
  assert (Hrend : renders E "Prioritize." [])
    by (split; [reflexivity | eexists; reflexivity]).
  split; [exact Hok |]. split; [reflexivity |]. split; [exact Hrend |].
  split; [reflexivity |].
  exact (failed_stage_leaves_its_user_turn E Stage3 o Demo.world_after_init
           "Prioritize." Hok eq_refl Hrend I eq_refl).
Defined.

Lemma stage_without_template_sends_nothing_witness :
  let E := DemoMore.incomplete_env in
  let o := Demo.optimizer E in
  optimizer_ok E o /\
  fs E "/pkg/prompt_templates/optimization/stage_3.jinja" = None /\
  let '(r, (o', w')) := run_stage E Stage3 (o, Demo.world_after_init) in
  r = Raise (exc AttributeError
               "No template file 'stage_3.jinja' found in 'optimization' subfolder") /\
  messages o' = messages o /\ api_calls w' = api_calls Demo.world_after_init.
Proof.
  intros E o.
  assert (Hok : optimizer_ok E o).
  { apply (Optimizer__init___ok E "gpt-4o" Demo.world Demo.world_after_init).
    reflexivity. }
  split; [exact Hok |]. split; [reflexivity |].
  exact (stage_without_template_sends_nothing E Stage3 o Demo.world_after_init
           Hok (or_introl eq_refl)).
Defined.

End OptimizerExtrasOnDemo.

Section PipelineEffects.
Import Providers Prompts Vocabulary Optimizer.
Variable E : Env.

(** [_chat_completion] sends one request, and adds two messages when it
    returns and one when it raises. *)
Lemma _chat_completion_effects (prompt : string) (fmt : option Schema)
    (o : ResumeOptimizer) (w : World) :
  let '(r, (o', w')) := _chat_completion E prompt fmt (o, w) in
  sleeps w' = sleeps w /\ log w' = log w /\
  exists rq : Request,
    api_calls w' = (api_calls w ++ [rq])%list /\
    length (messages o') =
      (length (messages o) + match r with Return _ => 2 | Raise _ => 1 end)%nat.
Proof.
  rewrite _chat_completion_run. cbv zeta.
  destruct (sdk E _ _) as [c | e]; [destruct (choices c) as [| ch rest] |];
    (split; [reflexivity |]); (split; [reflexivity |]);
    eexists; (split; [reflexivity |]);
    cbn [messages append_message]; rewrite ?length_app; simpl; lia.
Qed.

(** A stage either raises before it reaches the service, or is one
    [_chat_completion]; up to there only the record of loads changes. *)
Lemma run_stage_shape_frame (st : Stage) (o : ResumeOptimizer) (w : World) :
  (exists e o0 w0,
      run_stage E st (o, w) = (Raise e, (o0, w0)) /\
      messages o0 = messages o /\ same_but_loads w w0) \/
  (exists prompt o0 w0,
      messages o0 = messages o /\ same_but_loads w w0 /\
      run_stage E st (o, w) =
      _chat_completion E prompt (Some (stage_schema st)) (o0, w0)).
Proof.
  pose proof (with_prompts_frame E (stage_name st) o w) as H. cbv zeta in H.
  destruct H as (Hm & _ & Hsame & _).
  remember (run_stage E st (o, w)) as res eqn:Hres.
  destruct st; cbn [stage_name stage_schema run_stage] in *;
    unfold stage_1, stage_2, stage_3, stage_4, stage_5 in Hres;
    unfold bind at 1 in Hres;
    match type of Hres with
    | context [with_prompts ?c (o, w)] =>
        destruct (with_prompts c (o, w)) as [[t | e] [o0 w0]]
    end; cbn [fst snd] in *.
  all: try (left; exists e, o0, w0; repeat (split; [assumption |]); assumption).
  2: { unfold bind at 1, deref in Hres.
       destruct (heap w0 !! current_resume) as [r |] eqn:Hr.
       2: { left. eexists _, o0, w0. repeat (split; [eassumption |]). assumption. }
       unfold bind at 1 in Hres. rewrite render_run in Hres.
       destruct (render_source E (source t) _) as [text | e].
       - right. exists text, o0, w0. repeat (split; [assumption |]). exact Hres.
       - left. exists e, o0, w0. repeat (split; [assumption |]). assumption. }
  all: unfold bind at 1 in Hres; rewrite render_run in Hres;
    destruct (render_source E (source t) _) as [text | e];
    [ right; exists text, o0, w0; repeat (split; [assumption |]);
      rewrite ?bind_ret_r in Hres; exact Hres
    | left; exists e, o0, w0; repeat (split; [assumption |]); assumption ].
Qed.

(** The effects of one stage, whatever the environment. *)
Lemma run_stage_effects (st : Stage) (o : ResumeOptimizer) (w : World) :
  let '(r, (o', w')) := run_stage E st (o, w) in
  sleeps w' = sleeps w /\ log w' = log w /\
  match r with
  | Return _ =>
      exists rq : Request,
        api_calls w' = (api_calls w ++ [rq])%list /\
        length (messages o') = (length (messages o) + 2)%nat
  | Raise _ =>
      (api_calls w' = api_calls w /\ messages o' = messages o) \/
      (exists rq : Request,
          api_calls w' = (api_calls w ++ [rq])%list /\
          length (messages o') = (length (messages o) + 1)%nat)
  end.
Proof.
  destruct (run_stage_shape_frame st o w)
    as [(e & o0 & w0 & -> & Hm & (_ & Hc & Hs & Hl))
       | (prompt & o0 & w0 & Hm & (_ & Hc & Hs & Hl) & ->)].
  - split; [exact Hs |]. split; [exact Hl |]. left. split; assumption.
  - pose proof (_chat_completion_effects prompt (Some (stage_schema st)) o0 w0) as H.
    destruct (_chat_completion E prompt _ (o0, w0)) as [r [o' w']].
    destruct H as (Hs' & Hl' & rq & Hc' & Hlen).
    rewrite Hm, Hc in *. split; [congruence |]. split; [congruence |].
    destruct r as [m | e]; [exists rq; auto | right; exists rq; auto].
Qed.

(** The effects of the logged stages, whatever the environment. *)
Lemma run_stages_logged_effects (sts : list Stage) :
  forall (o : ResumeOptimizer) (w : World),
    let '(r, (o', w')) := run_stages_logged E sts (o, w) in
    exists (new : list Request) (lines : list string),
      api_calls w' = (api_calls w ++ new)%list /\
      log w' = (log w ++ lines)%list /\
      sleeps w' = sleeps w /\
      length (messages o') = (length (messages o) + length new + length lines)%nat /\
      (length lines <= length new <= length sts)%nat /\
      match r with
      | Return ms => length lines = length sts /\ length ms = length sts
      | Raise _ => (length lines < length sts)%nat
      end.
Proof.
  induction sts as [| st rest IH]; intros o w.
  - exists [], []. simpl. rewrite !app_nil_r. repeat split; lia.
  - cbn [run_stages_logged]. unfold bind at 1.
    pose proof (run_stage_effects st o w) as Hst.
    destruct (run_stage E st (o, w)) as [[m | e] [o1 w1]].
    + destruct Hst as (Hs & Hl & rq & Hc & Hlen).
      unfold bind at 1. unfold print_as_yaml at 1, on_snd, modify.
      unfold bind at 1.
      specialize (IH o1 (record_log (yaml_dump E m) w1)).
      destruct (run_stages_logged E rest (o1, record_log (yaml_dump E m) w1))
        as [r [o' w']].
      destruct IH as (new & lines & Hc' & Hl' & Hs' & Hlen' & Hle & Hr).
      cbn [record_log api_calls log sleeps] in Hc', Hl', Hs'.
      destruct r as [ms | e]; cbn [ret];
        exists (rq :: new), (yaml_dump E m :: lines);
        (split; [rewrite Hc', Hc, <- app_assoc; reflexivity |]);
        (split; [rewrite Hl', Hl, <- app_assoc; reflexivity |]);
        (split; [congruence |]);
        (split; [rewrite Hlen', Hlen; simpl; lia |]);
        (split; [simpl; lia |]); simpl; [destruct Hr; split; lia | lia].
    + destruct Hst as (Hs & Hl & [[Hc Hm] | (rq & Hc & Hlen)]).
      * exists [], []. rewrite !app_nil_r, Hm. simpl.
        repeat (split; [congruence || lia |]). lia.
      * exists [rq], []. rewrite !app_nil_r. simpl.
        repeat (split; [congruence || lia |]). lia.
Qed.

(** X11.  Whatever the environment, [optimize_resume] sends at most five
    requests and never sleeps; it logs one line per stage that returned,
    and has added to the conversation one message per request sent and
    one per stage that returned.  When it returns there were five
    requests and five lines; when it raises, fewer than five lines. *)
Theorem optimize_resume_effects (job_description : string) (current_resume : nat)
    (user_preferences : option string) (o : ResumeOptimizer) (w : World) :
  let '(r, (o', w')) :=
    optimize_resume E job_description current_resume user_preferences (o, w) in
  exists (new : list Request) (lines : list string),
    api_calls w' = (api_calls w ++ new)%list /\
    log w' = (log w ++ lines)%list /\
    sleeps w' = sleeps w /\
    length (messages o') = (length (messages o) + length new + length lines)%nat /\
    (length lines <= length new <= 5)%nat /\
    match r with
    | Return _ => length new = 5%nat /\ length lines = 5%nat
    | Raise _ => (length lines < 5)%nat
    end.
Proof.
  pose proof (optimize_resume_as_stages E job_description current_resume
                user_preferences (o, w)) as Hopt.
  pose proof (run_stages_logged_effects
                (the_five_stages job_description current_resume user_preferences)
                o w) as Heff.
  destruct (run_stages_logged E _ (o, w)) as [[ms | e] [o' w']].
  - destruct Hopt as (m1 & m2 & m3 & m4 & m5 & _ & ->).
    destruct Heff as (new & lines & Hc & Hl & Hs & Hlen & Hle & Hr & _).
    exists new, lines. simpl in *. repeat (split; [assumption || lia |]). lia.
  - rewrite Hopt.
    destruct Heff as (new & lines & Hc & Hl & Hs & Hlen & Hle & Hr).
    exists new, lines. simpl in *. repeat (split; [assumption || lia |]). lia.
Qed.

End PipelineEffects.

Section OptimizerReuse.
Import Providers Prompts Vocabulary Optimizer.
Variable E : Env.

(** A trace adds two messages per stage to the conversation it started
    from, and its first request is the one of its first stage. *)
Lemma pipeline_trace_history (model_name : string) (objects : gmap nat Resume)
    (sts : list Stage) :
  forall (history history' : list ChatMessage) (calls calls' : list Request)
         (ms : list Message),
    pipeline_trace E model_name objects sts history calls = Some (ms, history', calls') ->
    length history' = (length history + 2 * length sts)%nat /\
    history `prefix_of` history' /\
    match sts with
    | [] => True
    | st :: _ =>
        calls' !! length calls =
        Some (conversation_request model_name
                (history ++ [user_message (stage_prompt E objects st (stage_source E st))])%list
                (Some (stage_schema st)))
    end.
Proof.
  induction sts as [| st rest IH]; intros history history' calls calls' ms H;
    simpl in H.
  - injection H as <- <- <-. simpl. split; [lia |]. split; [reflexivity | exact I].
  - destruct (answer E calls _) as [m |]; [| discriminate].
    destruct (pipeline_trace E model_name objects rest _ _)
      as [[[ms' h'] c'] |] eqn:Hrest; [| discriminate].
    injection H as <- <- <-.
    destruct (IH _ _ _ _ _ Hrest) as (Hlen & Hpre & _).
    destruct (pipeline_trace_calls E _ _ _ _ _ _ _ _ Hrest) as (_ & new & -> & _).
    rewrite !length_app in Hlen. simpl in Hlen.
    split; [simpl; lia |]. split.
    + etransitivity; [| exact Hpre]. rewrite <- app_assoc. apply prefix_app_r. reflexivity.
    + rewrite <- app_assoc. rewrite lookup_app_r by lia.
      rewrite Nat.sub_diag. reflexivity.
Qed.

(** X12.  An optimizer is not reset between runs.  With the templates in place
    and a service that answers, a second [optimize_resume] on the same
    instance continues the conversation of the first: its first request
    carries every message of the first run before its own prompt, and
    after both runs the conversation has grown by twenty messages. *)
Theorem second_run_continues_the_conversation (o : ResumeOptimizer) (w : World)
    (jd jd' : string) (r r' : nat) (prefs prefs' : option string) :
  optimizer_ok E o ->
  templates_installed E ->
  service_answers E ->
  is_Some (heap w !! r) ->
  is_Some (heap w !! r') ->
  exists (m m' : Message) (o1 o2 : ResumeOptimizer) (w1 w2 : World),
    optimize_resume E jd r prefs (o, w) = (Return m, (o1, w1)) /\
    optimize_resume E jd' r' prefs' (o1, w1) = (Return m', (o2, w2)) /\
    length (messages o1) = (length (messages o) + 10)%nat /\
    length (messages o2) = (length (messages o) + 20)%nat /\
    messages o1 `prefix_of` messages o2 /\
    api_calls w2 !! length (api_calls w1) =
      Some (conversation_request (model o)
              (messages o1 ++
               [user_message (stage_prompt E (heap w) (Stage1 jd' prefs')
                                (stage_source E (Stage1 jd' prefs')))])%list
              (Some JobAnalysis)).
Proof.
  intros Hok Hinst Hsvc Href Href'.
  assert (Hall : forall (objects : gmap nat Resume) x y z,
             is_Some (objects !! y) ->
             Forall (fun st =>
                       (exists src : string,
                           template_source E "optimization" (stage_name st) = Some src /\
                           renders E src (stage_kwargs E objects st)) /\
                       stage_ready objects st)
               (the_five_stages x y z)).
  { intros objects x y z Hy. unfold templates_installed in Hinst.
    repeat match goal with
           | H : Forall _ (_ :: _) |- _ => inversion H; clear H; subst
           end.
    repeat match goal with
           | H : exists src, _ /\ _ |- _ => destruct H as (? & ? & ?)
           end.
    unfold the_five_stages.
    repeat (constructor; [split; [eexists; split; [eassumption | auto] | simpl; auto] |]).
    constructor. }
  destruct (run_stages_logged_trace E _ Hsvc o w Hok (Hall (heap w) jd r prefs Href))
    as (ms & o1 & w1 & Hrun & Htrace & _ & Hheap & _).
  pose proof (optimize_resume_as_stages E jd r prefs (o, w)) as Hopt.
  rewrite Hrun in Hopt. destruct Hopt as (m1 & m2 & m3 & m4 & m5 & -> & Hopt).
  pose proof (steady_optimize_resume E jd r prefs (o, w)) as Hst.
  rewrite Hopt in Hst. destruct Hst as (_ & Hmo & _ & Hok1). specialize (Hok1 Hok).
  cbn [fst snd] in Hmo, Hok1.
  assert (Href1 : is_Some (heap w1 !! r')) by (rewrite Hheap; exact Href').
  destruct (run_stages_logged_trace E _ Hsvc o1 w1 Hok1 (Hall (heap w1) jd' r' prefs' Href1))
    as (ms' & o2 & w2 & Hrun' & Htrace' & _).
  pose proof (optimize_resume_as_stages E jd' r' prefs' (o1, w1)) as Hopt'.
  rewrite Hrun' in Hopt'. destruct Hopt' as (n1 & n2 & n3 & n4 & n5 & -> & Hopt').
  destruct (pipeline_trace_history _ _ _ _ _ _ _ _ Htrace) as (Hlen1 & _ & _).
  destruct (pipeline_trace_history _ _ _ _ _ _ _ _ Htrace') as (Hlen2 & Hpre2 & Hfirst).
  exists m5, n5, o1, o2, w1, w2.
  split; [exact Hopt |]. split; [exact Hopt' |].
  simpl in Hlen1, Hlen2.
  split; [lia |]. split; [lia |]. split; [exact Hpre2 |].
  unfold the_five_stages in Hfirst. rewrite Hmo, Hheap in Hfirst. exact Hfirst.
Qed.

(** X13.  [ResumeOptimizer(model)] sends nothing.  Without a key for the
    service it raises the [OpenAIError] of the client, the world
    untouched, before any folder is looked at.  Else it raises a
    [ValueError], the world untouched, when the folder [optimization]
    is missing; else it asks jinja2 for [optimization/system.jinja]
    once, and raises an [AttributeError] when there is no such regular
    file, a [UnicodeDecodeError] when the file is no UTF-8 text, and
    what jinja2 raises when the file does not compile or does not
    render; else it returns an optimizer on the default provider, with
    the given model, whose conversation is the rendered system
    template alone. *)
Theorem optimizer_constructor (model_name : string) (w : World) :
  let folder := prompts_dir E +:+ "/optimization" in
  let file := prompts_dir E +:+ "/optimization/system.jinja" in
  let not_found :=
    exc AttributeError
      "No template file 'system.jinja' found in 'optimization' subfolder" in
  let '(r, w') := Optimizer.__init__ E model_name w in
  api_calls w' = api_calls w /\ sleeps w' = sleeps w /\
  match api_key_env E with
  | None =>
      r = Raise (exc OpenAIError
                   "The api_key client option must be set either by passing api_key to the client or by setting the OPENAI_API_KEY environment variable") /\
      w' = w
  | Some _ =>
      match fs E folder with
      | None =>
          r = Raise (exc ValueError
                       "Subfolder 'optimization' does not exist in prompts directory") /\
          w' = w
      | Some _ =>
          template_loads w' = (template_loads w ++ ["optimization/system.jinja"])%list /\
          match fs E file with
          | Some (File src) =>
              match compile_source E src with
              | Some e =>
                  r = Raise (if isinstance e TemplateNotFound then not_found else e)
              | None =>
                  match render_source E src [] with
                  | Raise e => r = Raise e
                  | Return text =>
                      exists o : ResumeOptimizer,
                        r = Return o /\ model o = model_name /\
                        llm o = provider E /\
                        messages o =
                          [ {| role := "system"; content := content_str text |} ] /\
                        source <$> _templates (prompts o) !! "system" = Some src
                  end
              end
          | Some (PdfFile _) =>
              r = Raise (exc UnicodeDecodeError "'utf-8' codec can't decode byte")
          | _ => r = Raise not_found
          end
      end
  end.
Proof.
  intros folder file not_found. unfold Optimizer.__init__.
  unfold bind at 1. rewrite OpenAIProvider__init___run.
  destruct (api_key_env E) as [key |];
    [| split; [reflexivity |]; split; [reflexivity |]; split; reflexivity].
  unfold bind at 1. rewrite __init___run.
  rewrite (subfolder_path E "optimization" eq_refl).
  change (prompts_dir E +:+ "/" +:+ "optimization") with folder. unfold exists_.
  destruct (fs E folder) as [node |];
    [| split; [reflexivity |]; split; [reflexivity |]; split; reflexivity].
  unfold bind at 1. rewrite __getattr___run.
  cbn [_templates subfolder template_env]. rewrite lookup_empty. cbv zeta.
  rewrite (get_template_plain E "optimization" "system"
             {| searchpath := prompts_dir E; trim_blocks := true;
                lstrip_blocks := true |} w eq_refl eq_refl eq_refl).
  change (template_file_path E "optimization" "system") with file.
  change (template_file "optimization" "system") with "optimization/system.jinja".
  destruct (fs E file) as [[| src | pages] |];
    try (split; [reflexivity |]; split; [reflexivity |]; split; reflexivity).
  destruct (compile_source E src) as [e |];
    [split; [reflexivity |]; split; [reflexivity |]; split; reflexivity |].
  rewrite render_run. cbn [source].
  destruct (render_source E src []) as [text | e];
    (split; [reflexivity |]); (split; [reflexivity |]); (split; [reflexivity |]);
    [| reflexivity].
  eexists. split; [reflexivity |]. split; [reflexivity |]. split; [reflexivity |].
  split; [reflexivity |]. cbn [prompts set_templates _templates].
  rewrite lookup_insert_eq. reflexivity.
Qed.

(** The constructor on the demo installation, with and without a key. *)
Example optimizer_constructor_demo :
  Optimizer.__init__ Demo.env "gpt-4o" Demo.world
    = (Return (Demo.optimizer Demo.env), Demo.world_after_init) /\
  Optimizer.__init__ Demo.keyless_env "gpt-4o" Demo.world
    = (Raise (exc OpenAIError
                "The api_key client option must be set either by passing api_key to the client or by setting the OPENAI_API_KEY environment variable"),
       Demo.world).
Proof. split; reflexivity. Qed.

End OptimizerReuse.

Section OptimizerReuseOnDemo.
Import Providers Prompts Vocabulary Optimizer.

Lemma second_run_continues_the_conversation_witness :
  let E := Demo.env in
  let o := Demo.optimizer E in
  let w := Demo.world_after_init in
  optimizer_ok E o /\ templates_installed E /\ service_answers E /\
  is_Some (heap w !! 0%nat) /\
  exists (m m' : Message) (o1 o2 : ResumeOptimizer) (w1 w2 : World),
    optimize_resume E "JD" 0 None (o, w) = (Return m, (o1, w1)) /\
    optimize_resume E "Other JD" 0 (Some "brief") (o1, w1) = (Return m', (o2, w2)) /\
    length (messages o1) = (length (messages o) + 10)%nat /\
    length (messages o2) = (length (messages o) + 20)%nat /\
    messages o1 `prefix_of` messages o2 /\
    api_calls w2 !! length (api_calls w1) =
      Some (conversation_request (model o)
              (messages o1 ++
               [user_message (stage_prompt E (heap w) (Stage1 "Other JD" (Some "brief"))
                                (stage_source E (Stage1 "Other JD" (Some "brief"))))])%list
              (Some JobAnalysis)).
Proof.
  intros E o w.
  assert (Href : is_Some (heap w !! 0%nat)) by (exists Demo.resume; reflexivity).
  split; [exact demo_optimizer_ok |]. split; [exact demo_templates_installed |].
  split; [exact demo_service_answers |]. split; [exact Href |].
  exact (second_run_continues_the_conversation E o w "JD" "Other JD" 0 0 None
           (Some "brief") demo_optimizer_ok demo_templates_installed
           demo_service_answers Href Href).
Defined.

End OptimizerReuseOnDemo.

(** ** The id log of the Assistants wrapper *)
Section IDLoggerFacts.
Import Assistants.
Variable R : Remote.

Lemma dict_zip_id (a b c : string) : dict_zip HEADER [a; b; c] !! "id" = Some c.
Proof. reflexivity. Qed.

Lemma dict_zip_type (a b c : string) : dict_zip HEADER [a; b; c] !! "type" = Some b.
Proof. reflexivity. Qed.

Lemma three_fields (row : Row) :
  length row = 3%nat -> exists a b c, row = [a; b; c].
Proof.
  destruct row as [| a [| b [| c [| x rest]]]]; try discriminate. eauto.
Qed.

(** Reading a well-formed log gives the ids below the header. *)
Lemma ids_of_body (body : list Row) :
  Forall (fun row => length row = 3%nat) body ->
  ids_of (map (dict_zip HEADER) body) = Done (logged_ids (HEADER :: body)).
Proof.
  unfold logged_ids. simpl tail.
  induction 1 as [| row rest Hrow _ IH]; [reflexivity |].
  destruct (three_fields row Hrow) as (a & b & c & ->).
  cbn [map ids_of]. unfold getitem. rewrite dict_zip_id, IH. reflexivity.
Qed.

Lemma logged_ids_app (body : list Row) (a b c : string) :
  logged_ids (HEADER :: body ++ [[a; b; c]]) = (logged_ids (HEADER :: body) ++ [c])%list.
Proof. unfold logged_ids. simpl tail. rewrite omap_app. reflexivity. Qed.

(** One call of [log_id] on a logger that opened an existing,
    well-formed log. *)
Lemma log_id_existing (object : ApiObject) (self : IDLogger) (d : Disk)
    (body : list Row) :
  is_new self = false ->
  unflushed self = [] ->
  files d !! csv_file_path self = Some (HEADER :: body) ->
  Forall (fun row => length row = 3%nat) body ->
  log_id R object self d =
  if bool_decide (id object ∈ logged_ids (HEADER :: body))
  then (Done tt, (self, d))
  else (Done tt,
        ({| csv_file_path := csv_file_path self; is_new := false; unflushed := [] |},
         {| files := <[csv_file_path self :=
                        HEADER :: body ++ [[now R (ticks d); class_name object; id object]]]>
                       (files d);
            ticks := S (ticks d); deleted := deleted d |})).
Proof.
  intros Hnew Hbuf Hfile Hbody. unfold log_id, retrieve_all.
  rewrite Hnew, Hfile. cbn [negb]. rewrite (ids_of_body body Hbody).
  destruct (bool_decide _); [reflexivity |].
  unfold write_row, flush, write_file. cbn. rewrite Hnew, Hbuf, Hfile. reflexivity.
Qed.

End IDLoggerFacts.

Section IDLoggerExtras.
Import Assistants.
Variable R : Remote.

Lemma log_ids_existing (objects : list ApiObject) (path : string) (d : Disk)
    (body : list Row) :
  files d !! path = Some (HEADER :: body) ->
  Forall (fun row => length row = 3%nat) body ->
  NoDup (logged_ids (HEADER :: body)) ->
  exists (d' : Disk) (added : list Row),
    log_ids R objects {| csv_file_path := path; is_new := false; unflushed := [] |} d
    = (Done tt, ({| csv_file_path := path; is_new := false; unflushed := [] |}, d')) /\
    files d' = <[path := HEADER :: body ++ added]> (files d) /\
    deleted d' = deleted d /\
    Forall (fun row => length row = 3%nat) (body ++ added) /\
    NoDup (logged_ids (HEADER :: body ++ added)) /\
    (forall o, o ∈ objects -> id o ∈ logged_ids (HEADER :: body ++ added)) /\
    (forall row, row ∈ added -> exists o t, o ∈ objects /\ row = [t; class_name o; id o]).
Proof.
  revert d body. induction objects as [| o rest IH]; intros d body Hfile Hbody Hnd.
  - exists d, []. rewrite app_nil_r. split; [reflexivity |].
    split; [symmetry; apply insert_id; exact Hfile |].
    split; [reflexivity |]. split; [exact Hbody |]. split; [exact Hnd |].
    split; [intros o Ho; inversion Ho | intros row Hrow; inversion Hrow].
  - cbn [log_ids].
    rewrite (log_id_existing R o {| csv_file_path := path; is_new := false; unflushed := [] |} d body eq_refl eq_refl Hfile Hbody). cbn [csv_file_path].
    case_bool_decide as Hin.
    + destruct (IH d body Hfile Hbody Hnd) as (d' & added & Hrun & Hf & Hdel & Hb & Hn & Hall & Hrows).
      exists d', added. split; [exact Hrun |]. split; [exact Hf |].
      split; [exact Hdel |]. split; [exact Hb |]. split; [exact Hn |].
      split.
      * intros o' Ho'. apply elem_of_cons in Ho' as [-> | Ho']; [| auto].
        unfold logged_ids in *. simpl tail in *. rewrite omap_app.
        apply elem_of_app. left. exact Hin.
      * intros row Hrow. destruct (Hrows row Hrow) as (o' & t & Ho' & ->).
        exists o', t. split; [apply elem_of_cons; auto | reflexivity].
    + set (row := [now R (ticks d); class_name o; id o]).
      set (d1 := {| files := _; ticks := _; deleted := _ |}).
      assert (Hfile1 : files d1 !! path = Some (HEADER :: body ++ [row])).
      { subst d1. cbn. apply lookup_insert_eq. }
      assert (Hbody1 : Forall (fun row => length row = 3%nat) (body ++ [row])).
      { apply Forall_app. split; [exact Hbody | repeat constructor]. }
      assert (Hnd1 : NoDup (logged_ids (HEADER :: body ++ [row]))).
      { subst row. rewrite logged_ids_app. apply NoDup_app.
        split; [exact Hnd |]. split; [| apply NoDup_singleton].
        intros x Hx Hx'. apply list_elem_of_singleton in Hx'. subst x. contradiction. }
      destruct (IH d1 (body ++ [row])%list Hfile1 Hbody1 Hnd1)
        as (d' & added & Hrun & Hf & Hdel & Hb & Hn & Hall & Hrows).
      rewrite <- app_assoc in Hf, Hb, Hn, Hall.
      exists d', (row :: added). split; [exact Hrun |].
      split; [rewrite Hf; subst d1; cbn; apply insert_insert_eq |].
      split; [exact Hdel |]. split; [exact Hb |]. split; [exact Hn |].
      split.
      * intros o' Ho'. apply elem_of_cons in Ho' as [-> | Ho']; [| auto].
        unfold logged_ids. simpl tail. rewrite omap_app. apply elem_of_app. right.
        cbn. apply elem_of_cons. left. reflexivity.
      * intros r Hr. apply elem_of_cons in Hr as [-> | Hr].
        -- exists o, (now R (ticks d)). split; [apply elem_of_cons; auto | reflexivity].
        -- destruct (Hrows r Hr) as (o' & t & Ho' & ->).
           exists o', t. split; [apply elem_of_cons; auto | reflexivity].
Qed.

Lemma app_shift {A : Type} (x u : list A) (r : A) (rs : list A) :
  ((x ++ u ++ [r]) ++ [] ++ rs = x ++ u ++ r :: rs)%list.
Proof. rewrite <- !app_assoc. reflexivity. Qed.

(** A logger that created its file: every call writes a row. *)
Lemma log_ids_new (objects : list ApiObject) (o : ApiObject) (self : IDLogger) (d : Disk) :
  is_new self = true ->
  exists d' : Disk,
    log_ids R (o :: objects) self d
    = (Done tt, ({| csv_file_path := csv_file_path self; is_new := true; unflushed := [] |}, d')) /\
    files d' = <[csv_file_path self :=
                  (default [] (files d !! csv_file_path self) ++ unflushed self
                   ++ rows_from R (ticks d) (o :: objects))%list]> (files d) /\
    ticks d' = (ticks d + S (length objects))%nat /\
    deleted d' = deleted d.
Proof.
  revert o self d. induction objects as [| o2 rest IH]; intros o self d Hnew.
  - cbn [log_ids]. unfold log_id. rewrite Hnew. cbn [negb].
    unfold write_row, flush, write_file. cbn. rewrite Hnew.
    eexists. split; [reflexivity |]. cbn.
    split; [reflexivity |]. split; [lia | reflexivity].
  - remember (o2 :: rest) as objs eqn:Hobjs.
    cbn [log_ids]. unfold log_id at 1. rewrite Hnew. cbn [negb].
    unfold write_row, flush, write_file. cbn [csv_file_path is_new unflushed files ticks deleted].
    rewrite Hnew. subst objs.
    match goal with
    | |- context [log_ids R (o2 :: rest) ?s ?d1] =>
        destruct (IH o2 s d1 eq_refl) as (d' & Hrun & Hf & Ht & Hd)
    end.
    cbn [csv_file_path is_new unflushed files ticks deleted] in *.
    exists d'. split; [exact Hrun |].
    split.
    + rewrite Hf, lookup_insert_eq, insert_insert_eq. cbn [default rows_from].
      unfold Datatypes.id. rewrite app_shift. reflexivity.
    + split; [rewrite Ht; cbn [length]; lia | exact Hd].
Qed.

Lemma logged_ids_rows_from (t : nat) (objects : list ApiObject) :
  logged_ids (HEADER :: rows_from R t objects) = map id objects.
Proof.
  unfold logged_ids. simpl tail. revert t.
  induction objects as [| o rest IH]; intros t; [reflexivity |].
  cbn. f_equal. apply IH.
Qed.

(** The loop of [delete_all] touches no file and only adds deletions. *)
Lemma delete_rows_frame (rows : list (gmap string string)) (d : Disk) :
  files (snd (delete_rows R rows d)) = files d /\
  ticks (snd (delete_rows R rows d)) = ticks d /\
  deleted d `prefix_of` deleted (snd (delete_rows R rows d)).
Proof.
  revert d. induction rows as [| row rest IH]; intros d; cbn [delete_rows].
  - cbn. split; [reflexivity |]. split; reflexivity.
  - destruct (getitem row "type") as [type | e]; [| cbn; split; [| split]; reflexivity].
    destruct (kind_of type) as [k |]; [| apply IH].
    destruct (getitem row "id") as [i | e]; [| cbn; split; [| split]; reflexivity].
    unfold remote_delete. destruct (refuses R (deleted d) (k, i)) as [e |].
    + cbn. split; [| split]; reflexivity.
    + match goal with |- context [delete_rows R rest ?d1] =>
        destruct (IH d1) as (Hf & Ht & Hd) end.
      cbn in Hf, Ht, Hd. split; [exact Hf |]. split; [exact Ht |].
      etransitivity; [| exact Hd]. apply prefix_app_r. reflexivity.
Qed.

Lemma deletions_for_cons (a b c : string) (rest : list Row) :
  deletions_for ([a; b; c] :: rest)
  = match kind_of b with
    | Some k => (k, c) :: deletions_for rest
    | None => deletions_for rest
    end.
Proof. unfold deletions_for. cbn. destruct (kind_of b); reflexivity. Qed.

(** Over a well-formed log and a service that refuses none of its
    deletions, the loop asks for them in the order of the rows. *)
Lemma delete_rows_ok (body : list Row) (d : Disk) :
  Forall (fun row => length row = 3%nat) body ->
  Forall (fun x => forall history, refuses R history x = None) (deletions_for body) ->
  delete_rows R (map (dict_zip HEADER) body) d
  = (Done tt, {| files := files d; ticks := ticks d;
                 deleted := deleted d ++ deletions_for body |}).
Proof.
  intros Hbody. revert d. induction Hbody as [| row rest Hrow _ IH]; intros d Hok.
  - cbn. rewrite app_nil_r. destruct d; reflexivity.
  - destruct (three_fields row Hrow) as (a & b & c & ->).
    cbn [map delete_rows]. unfold getitem. rewrite dict_zip_type, dict_zip_id.
    rewrite deletions_for_cons in *.
    destruct (kind_of b) as [k |].
    + apply Forall_cons in Hok as [Hk Hrest].
      unfold remote_delete. rewrite Hk. rewrite (IH _ Hrest). cbn.
      rewrite <- app_assoc. reflexivity.
    + apply IH. exact Hok.
Qed.

(** Against a service that refuses to delete what was deleted before, the
    loop fails as soon as a deletion comes up a second time. *)
Lemma delete_rows_repeated (body : list Row) (d : Disk) :
  (forall history x, x ∈ history -> refuses R history x <> None) ->
  Forall (fun row => length row = 3%nat) body ->
  (exists x, x ∈ deletions_for body /\ x ∈ deleted d) \/ ~ NoDup (deletions_for body) ->
  exists (e : LogExc) (d' : Disk),
    delete_rows R (map (dict_zip HEADER) body) d = (Failed e, d').
Proof.
  intros Hstrict Hbody. revert d.
  induction Hbody as [| row rest Hrow _ IH]; intros d Hrep.
  - exfalso. destruct Hrep as [(x & Hx & _) | Hnd].
    + inversion Hx.
    + apply Hnd. constructor.
  - destruct (three_fields row Hrow) as (a & b & c & ->).
    cbn [map delete_rows]. unfold getitem. rewrite dict_zip_type, dict_zip_id.
    rewrite deletions_for_cons in Hrep.
    destruct (kind_of b) as [k |]; [| apply IH; exact Hrep].
    unfold remote_delete.
    destruct (refuses R (deleted d) (k, c)) as [e |] eqn:Href; [eauto |].
    assert (Hfresh : (k, c) ∉ deleted d).
    { intros Hin. apply (Hstrict _ _ Hin). exact Href. }
    apply IH. cbn [deleted].
    destruct Hrep as [(x & Hx & Hd) | Hnd].
    + apply elem_of_cons in Hx as [-> | Hx]; [contradiction |].
      left. exists x. split; [exact Hx |]. apply elem_of_app. left. exact Hd.
    + destruct (decide ((k, c) ∈ deletions_for rest)) as [Hin | Hout].
      * left. exists (k, c). split; [exact Hin |].
        apply elem_of_app. right. apply list_elem_of_singleton. reflexivity.
      * right. intros Hrest. apply Hnd. apply NoDup_cons. split; assumption.
Qed.

(** X14.  A logger that opened an existing log never writes an id a second
    time: whatever objects are logged, in whatever order and however
    often, the old rows stay in front, the file stays a header followed
    by rows of three fields, no id occurs twice in it, and every object
    that was logged has its id in it.  Nothing is deleted at the service. *)
Theorem existing_logger_never_repeats_an_id (objects : list ApiObject)
    (self : IDLogger) (d : Disk) (rows : list Row) :
  is_new self = false ->
  unflushed self = [] ->
  files d !! csv_file_path self = Some rows ->
  well_formed rows ->
  NoDup (logged_ids rows) ->
  exists (d' : Disk) (rows' : list Row),
    log_ids R objects self d = (Done tt, (self, d')) /\
    files d' = <[csv_file_path self := rows']> (files d) /\
    deleted d' = deleted d /\
    rows `prefix_of` rows' /\
    well_formed rows' /\
    NoDup (logged_ids rows') /\
    (forall o, o ∈ objects -> id o ∈ logged_ids rows').
Proof.
  intros Hnew Hbuf Hfile (body & -> & Hbody) Hnd.
  destruct self as [path new buf]. cbn in Hnew, Hbuf, Hfile. subst new buf.
  cbn [csv_file_path].
  destruct (log_ids_existing objects path d body Hfile Hbody Hnd)
    as (d' & added & Hrun & Hf & Hdel & Hb & Hn & Hall & _).
  exists d', (HEADER :: body ++ added)%list.
  split; [exact Hrun |]. split; [exact Hf |]. split; [exact Hdel |].
  split; [exists added; reflexivity |].
  split; [exists (body ++ added)%list; split; [reflexivity | exact Hb] |].
  split; [exact Hn | exact Hall].
Qed.

(** X15.  A logger that created its file checks nothing: each call of
    [log_id] writes a row, so the log holds one row per call in the order
    of the calls, an id logged twice is in it twice, and a later
    [delete_all] of the same logger deletes nothing and leaves the log as
    it is. *)
Theorem new_logger_logs_every_call (path : string) (d : Disk)
    (o : ApiObject) (objects : list ApiObject) :
  files d !! path = None ->
  exists (self' : IDLogger) (d' : Disk),
    log_ids R (o :: objects) (fst (__init__ path d)) (snd (__init__ path d))
    = (Done tt, (self', d')) /\
    files d' !! path = Some (HEADER :: rows_from R (ticks d) (o :: objects)) /\
    logged_ids (HEADER :: rows_from R (ticks d) (o :: objects)) = map id (o :: objects) /\
    delete_all R self' d' = (Done tt, (self', d')).
Proof.
  intros Hfile. unfold __init__. rewrite Hfile. cbn [fst snd].
  match goal with
  | |- context [log_ids R _ ?s ?d0] =>
      destruct (log_ids_new objects o s d0 eq_refl) as (d' & Hrun & Hf & _ & _)
  end.
  cbn [csv_file_path unflushed] in Hrun, Hf. unfold write_file in Hf.
  cbn [files ticks] in Hf. rewrite lookup_insert_eq in Hf. cbn [default] in Hf.
  eexists _, d'. split; [exact Hrun |].
  split; [rewrite Hf; apply lookup_insert_eq |].
  split; [apply logged_ids_rows_from | reflexivity].
Qed.

(** X16.  [delete_all] of a logger that opened an existing, well-formed log,
    with a service that refuses none of the deletions: the service is
    asked to delete the rows' objects in the order of the rows, each by
    the call of its type, rows of another type being passed over; then
    the log holds the header alone and reads back as no entries. *)
Theorem delete_all_clears_the_log (self : IDLogger) (d : Disk) (body : list Row) :
  is_new self = false ->
  unflushed self = [] ->
  client_error R = None ->
  files d !! csv_file_path self = Some (HEADER :: body) ->
  Forall (fun row => length row = 3%nat) body ->
  Forall (fun x => forall history, refuses R history x = None) (deletions_for body) ->
  exists d' : Disk,
    delete_all R self d = (Done tt, (self, d')) /\
    deleted d' = (deleted d ++ deletions_for body)%list /\
    files d' = <[csv_file_path self := [HEADER]]> (files d) /\
    retrieve_all self d' = Done [].
Proof.
  intros Hnew Hbuf Hclient Hfile Hbody Hok.
  destruct self as [path new buf]. cbn in Hnew, Hbuf, Hfile. subst new buf.
  unfold delete_all, retrieve_all. cbn [is_new negb csv_file_path].
  rewrite Hclient, Hfile, (delete_rows_ok body d Hbody Hok).
  unfold flush, write_file. cbn.
  eexists. split; [reflexivity |]. cbn.
  split; [reflexivity |].
  split; [rewrite app_nil_r; apply insert_insert_eq |].
  rewrite lookup_insert_eq. reflexivity.
Qed.

(** X17.  When [delete_all] raises, whatever the reason, the log is not
    touched: every file is as before, while the service may already have
    carried out some of the deletions, which the untouched log still
    lists. *)
Theorem failed_delete_all_keeps_the_log (self self' : IDLogger) (d d' : Disk)
    (e : LogExc) :
  delete_all R self d = (Failed e, (self', d')) ->
  self' = self /\ files d' = files d /\ deleted d `prefix_of` deleted d'.
Proof.
  unfold delete_all. destruct (negb (is_new self)); [| discriminate].
  destruct (client_error R) as [ce |].
  { intros [= _ <- <-]. split; [reflexivity |]. split; reflexivity. }
  destruct (retrieve_all self d) as [rows | e'].
  2: { intros [= _ <- <-]. split; [reflexivity |]. split; reflexivity. }
  destruct (delete_rows_frame rows d) as (Hf & _ & Hd).
  destruct (delete_rows R rows d) as [[u | e'] d1]; cbn [snd] in Hf, Hd.
  - destruct (flush self d1). discriminate.
  - intros [= _ <- <-]. split; [reflexivity |]. split; assumption.
Qed.

(** X18.  A log in which an object occurs twice cannot be cleared against a
    service that refuses to delete what it has deleted before:
    [delete_all] raises and the log stays as it is. *)
Theorem repeated_id_blocks_delete_all (self : IDLogger) (d : Disk) (body : list Row) :
  is_new self = false ->
  client_error R = None ->
  (forall history x, x ∈ history -> refuses R history x <> None) ->
  files d !! csv_file_path self = Some (HEADER :: body) ->
  Forall (fun row => length row = 3%nat) body ->
  ~ NoDup (deletions_for body) ->
  exists (e : LogExc) (d' : Disk),
    delete_all R self d = (Failed e, (self, d')) /\
    files d' = files d.
Proof.
  intros Hnew Hclient Hstrict Hfile Hbody Hrep.
  unfold delete_all, retrieve_all. rewrite Hnew, Hclient, Hfile. cbn [negb].
  destruct (delete_rows_repeated body d Hstrict Hbody (or_intror Hrep)) as (e & d' & Hrun).
  destruct (delete_rows_frame (map (dict_zip HEADER) body) d) as (Hf & _ & _).
  rewrite Hrun in Hf |- *. cbn [snd] in Hf.
  exists e, d'. split; [reflexivity | exact Hf].
Qed.

(** X19.  Two loggers on one fresh path: the first creates the file, but its
    header stays in its buffer, so the second finds an empty file; until
    the first has logged something, [log_id] and [delete_all] of the
    second raise StopIteration.  Once the first has logged an object, the
    second skips that object, while the first writes it again. *)
Theorem second_logger_on_a_fresh_path (path : string) (d : Disk) (o : ApiObject) :
  files d !! path = None ->
  client_error R = None ->
  let '(first, d1) := __init__ path d in
  let '(second, d2) := __init__ path d1 in
  is_new first = true /\ is_new second = false /\
  files d2 !! path = Some [] /\
  log_id R o second d2 = (Failed StopIteration, (second, d2)) /\
  delete_all R second d2 = (Failed StopIteration, (second, d2)) /\
  let '(_, (first', d3)) := log_id R o first d2 in
  files d3 !! path = Some [HEADER; [now R (ticks d); class_name o; id o]] /\
  log_id R o second d3 = (Done tt, (second, d3)) /\
  let '(_, (_, d4)) := log_id R o first' d3 in
  files d4 !! path = Some [HEADER; [now R (ticks d); class_name o; id o];
                           [now R (S (ticks d)); class_name o; id o]].
Proof.
  intros Hfile Hclient. unfold __init__. rewrite Hfile.
  unfold write_file at 1. cbn [files]. rewrite lookup_insert_eq.
  split; [reflexivity |]. split; [reflexivity |].
  split; [apply lookup_insert_eq |].
  split.
  { unfold log_id, retrieve_all. cbn. rewrite lookup_insert_eq. reflexivity. }
  split.
  { unfold delete_all, retrieve_all. cbn. rewrite Hclient, lookup_insert_eq. reflexivity. }
  unfold log_id at 1. cbn [is_new negb].
  unfold write_row, flush, write_file. cbn [csv_file_path is_new unflushed files ticks deleted].
  rewrite !lookup_insert_eq. cbn [default]. unfold Datatypes.id. cbn [app].
  split; [reflexivity |].
  split.
  { unfold log_id, retrieve_all. cbn [is_new negb csv_file_path files].
    rewrite lookup_insert_eq. cbn [map ids_of]. unfold getitem.
    rewrite dict_zip_id. cbn [ids_of].
    rewrite bool_decide_eq_true_2; [reflexivity |].
    apply list_elem_of_singleton. reflexivity. }
  unfold log_id. cbn [is_new negb].
  unfold write_row, flush, write_file. cbn [csv_file_path is_new unflushed files ticks deleted].
  rewrite !lookup_insert_eq. cbn [default]. unfold Datatypes.id. cbn [app].
  reflexivity.
Qed.
End IDLoggerExtras.

Section IDLoggerExtrasOnDemo.
Import Assistants AssistantsDemo.

Lemma existing_logger_never_repeats_an_id_witness :
  is_new old_logger = false /\
  unflushed old_logger = [] /\
  files old_disk !! csv_file_path old_logger = Some old_log /\
  well_formed old_log /\
  NoDup (logged_ids old_log) /\
  exists (d' : Disk) (rows' : list Row),
    log_ids service [thread; assistant; thread] old_logger old_disk
    = (Done tt, (old_logger, d')) /\
    files d' !! log_path = Some rows' /\
    NoDup (logged_ids rows').
Proof.
  assert (Hfile : files old_disk !! csv_file_path old_logger = Some old_log)
    by (vm_compute; reflexivity).
  assert (Hwf : well_formed old_log).
  { eexists. split; [reflexivity |]. repeat constructor. }
  assert (Hnd : NoDup (logged_ids old_log)).
  { apply (bool_decide_unpack _). vm_compute. reflexivity. }
  split; [reflexivity |]. split; [reflexivity |]. split; [exact Hfile |].
  split; [exact Hwf |]. split; [exact Hnd |].
  destruct (existing_logger_never_repeats_an_id service [thread; assistant; thread]
              old_logger old_disk old_log eq_refl eq_refl Hfile Hwf Hnd)
    as (d' & rows' & Hrun & Hf & _ & _ & _ & Hnd' & _).
  exists d', rows'. split; [exact Hrun |].
  split; [rewrite Hf; apply lookup_insert_eq | exact Hnd'].
Defined.

Lemma new_logger_logs_every_call_witness :
  files empty_disk !! log_path = None /\
  exists (self' : IDLogger) (d' : Disk),
    log_ids service [thread; thread]
      (fst (__init__ log_path empty_disk)) (snd (__init__ log_path empty_disk))
    = (Done tt, (self', d')) /\
    logged_ids (default [] (files d' !! log_path)) = ["thread_1"; "thread_1"] /\
    delete_all service self' d' = (Done tt, (self', d')).
Proof.
  split; [reflexivity |].
  destruct (new_logger_logs_every_call service log_path empty_disk thread [thread] eq_refl)
    as (self' & d' & Hrun & Hf & Hids & Hdel).
  exists self', d'. split; [exact Hrun |].
  split; [rewrite Hf; exact Hids | exact Hdel].
Defined.

Lemma delete_all_clears_the_log_witness :
  is_new old_logger = false /\
  client_error service = None /\
  files old_disk !! csv_file_path old_logger = Some old_log /\
  exists d' : Disk,
    delete_all service old_logger old_disk = (Done tt, (old_logger, d')) /\
    deleted d' = [(ThreadKind, "thread_0"); (AssistantKind, "asst_0")] /\
    files d' !! log_path = Some [HEADER].
Proof.
  assert (Hfile : files old_disk !! csv_file_path old_logger = Some old_log)
    by (vm_compute; reflexivity).
  split; [reflexivity |]. split; [reflexivity |]. split; [exact Hfile |].
  destruct (delete_all_clears_the_log service old_logger old_disk (tail old_log)
              eq_refl eq_refl eq_refl Hfile)
    as (d' & Hrun & Hdel & Hf & _).
  - repeat constructor.
  - apply Forall_forall. intros x _ history. reflexivity.
  - exists d'. split; [exact Hrun |]. split; [rewrite Hdel; reflexivity |].
    rewrite Hf. apply lookup_insert_eq.
Defined.

Lemma failed_delete_all_keeps_the_log_witness :
  let e := Other (exc NotFoundError "No such object") in
  let d' := {| files := files repeated_disk; ticks := 0;
               deleted := [(ThreadKind, "thread_0")] |} in
  delete_all strict_service repeated_logger repeated_disk
    = (Failed e, (repeated_logger, d')) /\
  files d' !! log_path = Some repeated_log.
Proof.
  intros e d'.
  assert (Hrun : delete_all strict_service repeated_logger repeated_disk
                 = (Failed e, (repeated_logger, d'))) by (vm_compute; reflexivity).
  split; [exact Hrun |].
  destruct (failed_delete_all_keeps_the_log strict_service repeated_logger repeated_logger
              repeated_disk d' e Hrun) as (_ & Hf & _).
  rewrite Hf. vm_compute. reflexivity.
Defined.

Lemma repeated_id_blocks_delete_all_witness :
  is_new repeated_logger = false /\
  files repeated_disk !! csv_file_path repeated_logger = Some repeated_log /\
  ~ NoDup (deletions_for (tail repeated_log)) /\
  exists (e : LogExc) (d' : Disk),
    delete_all strict_service repeated_logger repeated_disk
    = (Failed e, (repeated_logger, d')) /\
    files d' = files repeated_disk.
Proof.
  assert (Hfile : files repeated_disk !! csv_file_path repeated_logger = Some repeated_log)
    by (vm_compute; reflexivity).
  assert (Hrep : ~ NoDup (deletions_for (tail repeated_log))).
  { apply (bool_decide_unpack _). vm_compute. reflexivity. }
  split; [reflexivity |]. split; [exact Hfile |]. split; [exact Hrep |].
  apply (repeated_id_blocks_delete_all strict_service repeated_logger repeated_disk
           (tail repeated_log) eq_refl eq_refl); [| exact Hfile | | exact Hrep].
  - intros history x Hin. cbn. rewrite bool_decide_eq_true_2 by exact Hin. discriminate.
  - repeat constructor.
Defined.

Lemma second_logger_on_a_fresh_path_witness :
  files empty_disk !! log_path = None /\
  client_error service = None /\
  let '(first, d1) := __init__ log_path empty_disk in
  let '(second, d2) := __init__ log_path d1 in
  log_id service thread second d2 = (Failed StopIteration, (second, d2)) /\
  let '(_, (_, d3)) := log_id service thread first d2 in
  log_id service thread second d3 = (Done tt, (second, d3)).
Proof.
  split; [reflexivity |]. split; [reflexivity |].
  pose proof (second_logger_on_a_fresh_path service log_path empty_disk thread
                eq_refl eq_refl) as H.
  destruct (__init__ log_path empty_disk) as [first d1].
  destruct (__init__ log_path d1) as [second d2].
  destruct H as (_ & _ & _ & Hlog & _ & H).
  split; [exact Hlog |].
  destruct (log_id service thread first d2) as [r [first' d3]].
  destruct H as (_ & Hskip & _). exact Hskip.
Defined.

End IDLoggerExtrasOnDemo.

(** ** The PDF generator *)
Section PdfGeneratorExtras.
Import PdfGenerator.
Variable T : Tools.

(** A name that [tempfile] settles on names no file, and drawing names
    changes no file. *)
Lemma free_name_files (suffix : string) (tries : nat) (fs : Fs) :
  files (snd (free_name T suffix tries fs)) = files fs /\
  forall name, fst (free_name T suffix tries fs) = Some name -> files fs !! name = None.
Proof.
  revert fs. induction tries as [| tries IH]; intros fs; cbn [free_name].
  - split; [reflexivity | discriminate].
  - destruct (files fs !! (random_name T (names_drawn fs) +:+ suffix)) eqn:Hat.
    + apply (IH {| files := files fs; names_drawn := S (names_drawn fs) |}).
    + cbn. split; [reflexivity |]. intros name [= <-]. exact Hat.
Qed.

Lemma get_template_fs (self : PDFGenerator) (template_name : string) (fs : Fs) :
  snd (get_template T self template_name fs) = fs.
Proof.
  unfold get_template.
  destruct (Prompts.split_template_path template_name) as [pieces |]; [| reflexivity].
  destruct (find_source _ _ _) as [src |]; [| reflexivity].
  destruct (compile T src); reflexivity.
Qed.

Lemma render_html_fs (self : PDFGenerator) (template_name : string)
    (variables : Variables) (fs : Fs) :
  snd (render_html T self template_name variables fs) = fs.
Proof.
  unfold render_html, bind, lift_result.
  pose proof (get_template_fs self template_name fs) as H.
  destruct (get_template T self template_name fs) as [[src | e] fs1]; cbn in H; subst fs1;
    reflexivity.
Qed.

(** [generate_pdf] as a continuation of [render_html]. *)
Lemma generate_pdf_as_render_html (self : PDFGenerator) (template_name : string)
    (variables : Variables) (output_path : option string)
    (pdf_options : option Options) (fs : Fs) :
  generate_pdf T self template_name variables output_path pdf_options fs
  = match render_html T self template_name variables fs with
    | (Raise e, fs1) => (Raise e, fs1)
    | (Return html_content, fs1) =>
        (temp_html_path <-
           (temp_html <- NamedTemporaryFile T ".html";;
            data <- lift_result (encode T html_content);;
            write T temp_html data;;
            ret temp_html);;
         try_finally
           (output_path <- match output_path with
                           | None => mktemp T ".pdf"
                           | Some given => ret given
                           end;;
            from_file T temp_html_path output_path
              (match pdf_options with None => DEFAULT_OPTIONS | Some given => given end);;
            ret output_path)
           (unlink temp_html_path)) fs1
    end.
Proof.
  unfold generate_pdf, render_html, bind, lift_result.
  destruct (get_template T self template_name fs) as [[src | e] fs1]; [| reflexivity].
  destruct (render_template T src variables); reflexivity.
Qed.

(** Creating the temporary file and writing the HTML to it. *)
Lemma temp_file_run (html : string) (fs : Fs) :
  (temp_html <- NamedTemporaryFile T ".html";;
   data <- lift_result (encode T html);;
   write T temp_html data;;
   ret temp_html) fs
  = match free_name T ".html" TMP_MAX fs with
    | (None, fs1) => (Raise (exc OSError "No usable temporary file name found"), fs1)
    | (Some temp, fs1) =>
        match encode T html with
        | Raise e => (Raise e, set_files (<[temp := ""]> (files fs1)) fs1)
        | Return data =>
            match write_bytes T temp data with
            | Some (e, reached) =>
                (Raise e, set_files (<[temp := reached]> (files fs1)) fs1)
            | None => (Return temp, set_files (<[temp := data]> (files fs1)) fs1)
            end
        end
    end.
Proof.
  unfold bind at 1. unfold NamedTemporaryFile.
  destruct (free_name T ".html" TMP_MAX fs) as [[temp |] fs1]; [| reflexivity].
  unfold bind at 1, lift_result.
  destruct (encode T html) as [data | e]; [| reflexivity].
  unfold bind, write, ret.
  destruct (write_bytes T temp data) as [[e reached] |];
    unfold set_files; cbn [files names_drawn]; rewrite insert_insert_eq; reflexivity.
Qed.

(** The part of [generate_pdf] after the temporary file exists. *)
Lemma conversion_run (temp out html : string) (options : Options) (fs : Fs) :
  files fs !! temp = Some html ->
  try_finally
    (from_file T temp out options;; ret out)
    (unlink temp) fs
  = (match fst (wkhtmltopdf T html options) with
     | Return _ => Return out
     | Raise e => Raise e
     end,
     set_files
       (delete temp
          match snd (wkhtmltopdf T html options) with
          | Some pdf => <[out := pdf]> (files fs)
          | None => files fs
          end) fs).
Proof.
  intros Hat. unfold try_finally, bind, from_file, ret, unlink. rewrite Hat.
  destruct (wkhtmltopdf T html options) as [[u | e] [pdf |]]; cbn [fst snd set_files files].
  - destruct (decide (out = temp)) as [-> | Hne].
    + rewrite lookup_insert_eq. reflexivity.
    + rewrite lookup_insert_ne, Hat by exact Hne. reflexivity.
  - rewrite Hat. reflexivity.
  - destruct (decide (out = temp)) as [-> | Hne].
    + rewrite lookup_insert_eq. reflexivity.
    + rewrite lookup_insert_ne, Hat by exact Hne. reflexivity.
  - rewrite Hat. reflexivity.
Qed.

(** What [generate_pdf] does once the rendered HTML is in its temporary
    file [temp], which did not exist before. *)
Lemma after_the_temp_file (temp html : string) (output_path : option string)
    (options : Options) (fs : Fs) :
  files fs !! temp = Some html ->
  try_finally
    (output_path <- match output_path with
                    | None => mktemp T ".pdf"
                    | Some given => ret given
                    end;;
     from_file T temp output_path options;;
     ret output_path)
    (unlink temp) fs
  = match output_path with
    | Some out =>
        try_finally (from_file T temp out options;; ret out) (unlink temp) fs
    | None =>
        match free_name T ".pdf" TMP_MAX fs with
        | (None, fs') =>
            (Raise (exc OSError "No usable temporary filename found"),
             set_files (delete temp (files fs')) fs')
        | (Some out, fs') =>
            try_finally (from_file T temp out options;; ret out) (unlink temp) fs'
        end
    end.
Proof.
  intros Hat. destruct output_path as [out |]; [reflexivity |].
  unfold try_finally at 1. unfold bind at 1. unfold mktemp.
  pose proof (free_name_files ".pdf" TMP_MAX fs) as [Hfiles _].
  destruct (free_name T ".pdf" TMP_MAX fs) as [[out |] fs']; cbn [snd] in Hfiles.
  - reflexivity.
  - unfold unlink. rewrite Hfiles, Hat. reflexivity.
Qed.

(** X20.  Whatever [generate_pdf] meets (a missing template, a rendering
    error, a failing converter, no free temporary name), it leaves every
    file as it was, except the one at the output path, which is the one
    given and the one returned, and except the temporary HTML file when
    the HTML cannot be encoded or written: that file is created before
    the [try], so it stays behind, empty or with what reached it.  In
    every other outcome the temporary HTML file is gone. *)
Theorem generate_pdf_touches_only_the_output (self : PDFGenerator)
    (template_name : string) (variables : Variables)
    (output_path : option string) (pdf_options : option Options) (fs : Fs) :
  let '(r, fs') :=
    generate_pdf T self template_name variables output_path pdf_options fs in
  exists out : string,
    (forall given, output_path = Some given -> out = given) /\
    (forall returned, r = Return returned -> returned = out) /\
    let unchanged :=
      forall path, path <> out -> files fs' !! path = files fs !! path in
    match render_html T self template_name variables fs,
          free_name T ".html" TMP_MAX fs with
    | (Return html, _), (Some temp, _) =>
        files fs !! temp = None /\
        match encode T html with
        | Raise e => r = Raise e /\ files fs' = <[temp := ""]> (files fs)
        | Return data =>
            match write_bytes T temp data with
            | Some (e, reached) =>
                r = Raise e /\ files fs' = <[temp := reached]> (files fs)
            | None => unchanged /\ files fs' !! temp = None
            end
        end
    | _, _ => unchanged
    end.
Proof.
  rewrite generate_pdf_as_render_html.
  pose proof (render_html_fs self template_name variables fs) as Hfs.
  destruct (render_html T self template_name variables fs) as [[html | e] fs0];
    cbn [snd] in Hfs; subst fs0.
  2: { exists (default "" output_path). split; [intros given ->; reflexivity |].
       split; [discriminate |]. cbv zeta.
       destruct (free_name T ".html" TMP_MAX fs) as [[temp |] fs1];
         intros path _; reflexivity. }
  unfold bind at 1. rewrite temp_file_run.
  pose proof (free_name_files ".html" TMP_MAX fs) as [Hfiles Hfree].
  destruct (free_name T ".html" TMP_MAX fs) as [[temp |] fs1]; cbn [fst snd] in Hfiles, Hfree.
  2: { exists (default "" output_path). split; [intros given ->; reflexivity |].
       split; [discriminate |]. intros path _. rewrite Hfiles. reflexivity. }
  specialize (Hfree temp eq_refl).
  destruct (encode T html) as [data | e].
  2: { exists (default "" output_path). split; [intros given ->; reflexivity |].
       split; [discriminate |]. cbv zeta. split; [exact Hfree |].
       split; [reflexivity |]. cbn [set_files files]. rewrite Hfiles. reflexivity. }
  destruct (write_bytes T temp data) as [[e reached] |].
  { exists (default "" output_path). split; [intros given ->; reflexivity |].
    split; [discriminate |]. cbv zeta. split; [exact Hfree |].
    split; [reflexivity |]. cbn [set_files files]. rewrite Hfiles. reflexivity. }
  set (fs2 := set_files (<[temp := data]> (files fs1)) fs1).
  assert (Hat : files fs2 !! temp = Some data) by apply lookup_insert_eq.
  assert (Hconv : forall out fs3,
            files fs3 = files fs2 ->
            let '(r, fs') :=
              try_finally
                (from_file T temp out
                   (match pdf_options with None => DEFAULT_OPTIONS | Some given => given end);;
                 ret out)
                (unlink temp) fs3 in
            (forall returned, r = Return returned -> returned = out) /\
            (forall path, path <> out -> files fs' !! path = files fs !! path) /\
            files fs' !! temp = None).
  { intros out fs3 Hsame. rewrite (conversion_run temp out data); [| rewrite Hsame; exact Hat].
    split; [| split].
    - intros returned. destruct (fst (wkhtmltopdf T data _)); [| discriminate].
      intros [= <-]. reflexivity.
    - intros path Hne. cbn [set_files files]. rewrite Hsame. subst fs2. cbn [set_files files].
      rewrite Hfiles.
      destruct (decide (path = temp)) as [-> | Hnt].
      + rewrite lookup_delete_eq. symmetry. exact Hfree.
      + rewrite lookup_delete_ne by (intros Heq; apply Hnt; symmetry; exact Heq).
        destruct (snd (wkhtmltopdf T data _)).
        * rewrite lookup_insert_ne by (intros Heq; apply Hne; symmetry; exact Heq).
          apply lookup_insert_ne. intros Heq; apply Hnt; symmetry; exact Heq.
        * apply lookup_insert_ne. intros Heq; apply Hnt; symmetry; exact Heq.
    - cbn [set_files files]. apply lookup_delete_eq. }
  cbv beta iota. fold fs2.
  rewrite (after_the_temp_file temp data output_path _ fs2 Hat).
  destruct output_path as [out |].
  - specialize (Hconv out fs2 eq_refl).
    destruct (try_finally _ _ fs2) as [r fs'].
    destruct Hconv as (Hret & Hun & Hgone).
    exists out. split; [intros given [= <-]; reflexivity |].
    split; [exact Hret |]. cbv zeta. split; [exact Hfree |]. split; assumption.
  - pose proof (free_name_files ".pdf" TMP_MAX fs2) as [Hfiles2 _].
    destruct (free_name T ".pdf" TMP_MAX fs2) as [[out |] fs3]; cbn [snd] in Hfiles2.
    + specialize (Hconv out fs3 Hfiles2).
      destruct (try_finally _ _ fs3) as [r fs'].
      destruct Hconv as (Hret & Hun & Hgone).
      exists out. split; [discriminate |].
      split; [exact Hret |]. cbv zeta. split; [exact Hfree |]. split; assumption.
    + exists "". split; [discriminate |]. split; [discriminate |].
      cbv zeta. split; [exact Hfree |]. cbn [set_files files]. rewrite Hfiles2. subst fs2.
      cbn [set_files files]. split.
      * intros path _. rewrite delete_insert_id by (rewrite Hfiles; exact Hfree).
        rewrite Hfiles. reflexivity.
      * apply lookup_delete_eq.
Qed.

(** X21.  When the template cannot be loaded or rendered, [generate_pdf]
    raises what [render_html] raises, and has drawn no temporary name and
    created no file. *)
Theorem failed_rendering_creates_no_file (self : PDFGenerator)
    (template_name : string) (variables : Variables)
    (output_path : option string) (pdf_options : option Options)
    (fs fs1 : Fs) (e : Exc) :
  render_html T self template_name variables fs = (Raise e, fs1) ->
  generate_pdf T self template_name variables output_path pdf_options fs = (Raise e, fs).
Proof.
  intros Hrender. rewrite generate_pdf_as_render_html.
  pose proof (render_html_fs self template_name variables fs) as Hfs.
  rewrite Hrender in Hfs |- *. cbn [snd] in Hfs. subst fs1. reflexivity.
Qed.

(** X22.  With an output path given, and the HTML that [render_html] gives
    for the same template and variables encoded and written to the
    temporary file, [generate_pdf] converts exactly those bytes, with
    the options given or else A4 with 0.75in margins: it returns the
    path when the converter succeeds, raises the converter's exception
    otherwise, and the files afterwards are the files before with what
    the converter wrote at the output path. *)
Theorem generate_pdf_converts_the_rendered_html (self : PDFGenerator)
    (template_name : string) (variables : Variables) (out : string)
    (pdf_options : option Options) (fs fs1 : Fs) (html data temp : string) :
  render_html T self template_name variables fs = (Return html, fs) ->
  free_name T ".html" TMP_MAX fs = (Some temp, fs1) ->
  encode T html = Return data ->
  write_bytes T temp data = None ->
  out <> temp ->
  let converted := wkhtmltopdf T data (default DEFAULT_OPTIONS pdf_options) in
  generate_pdf T self template_name variables (Some out) pdf_options fs
  = (match fst converted with
     | Return _ => Return out
     | Raise e => Raise e
     end,
     set_files
       match snd converted with
       | Some pdf => <[out := pdf]> (files fs)
       | None => files fs
       end fs1).
Proof.
  intros Hrender Hname Henc Hwrite Hne converted.
  rewrite generate_pdf_as_render_html, Hrender.
  unfold bind at 1. rewrite temp_file_run.
  pose proof (free_name_files ".html" TMP_MAX fs) as [Hfiles Hfree].
  rewrite Hname in Hfiles, Hfree |- *. cbn [fst snd] in Hfiles, Hfree.
  rewrite Henc, Hwrite. cbv beta iota.
  specialize (Hfree temp eq_refl).
  set (fs2 := set_files (<[temp := data]> (files fs1)) fs1).
  assert (Hat : files fs2 !! temp = Some data) by apply lookup_insert_eq.
  rewrite (after_the_temp_file temp data (Some out) _ fs2 Hat).
  rewrite (conversion_run temp out data _ fs2 Hat).
  replace (match pdf_options with None => DEFAULT_OPTIONS | Some given => given end)
    with (default DEFAULT_OPTIONS pdf_options) by (destruct pdf_options; reflexivity).
  fold converted. f_equal. subst fs2. unfold set_files. cbn [files names_drawn].
  f_equal. rewrite Hfiles.
  assert (Hnt : temp <> out) by (intros Heq; apply Hne; symmetry; exact Heq).
  destruct (snd converted).
  - rewrite delete_insert_ne by exact Hnt.
    rewrite delete_insert_id by exact Hfree. reflexivity.
  - apply delete_insert_id. exact Hfree.
Qed.

End PdfGeneratorExtras.

Section PdfGeneratorExtrasOnDemo.
Import PdfGenerator PdfDemo.

Lemma failed_rendering_creates_no_file_witness :
  let e := exc RuntimeError "'title' is undefined" in
  render_html tools generator "sample.html" [] disk = (Raise e, disk) /\
  generate_pdf tools generator "sample.html" [] None None disk = (Raise e, disk).
Proof.
  intros e.
  assert (H : render_html tools generator "sample.html" [] disk = (Raise e, disk))
    by (vm_compute; reflexivity).
  split; [exact H |].
  exact (failed_rendering_creates_no_file tools generator "sample.html" [] None None
           disk disk e H).
Defined.

Lemma generate_pdf_converts_the_rendered_html_witness :
  let variables := [("title", "Sample")] in
  let fs1 := {| files := files disk; names_drawn := 2 |} in
  render_html tools generator "sample.html" variables disk
    = (Return "<html>Hello</html>", disk) /\
  free_name tools ".html" TMP_MAX disk = (Some "/tmp/tmpb.html", fs1) /\
  encode tools "<html>Hello</html>" = Return "<html>Hello</html>" /\
  write_bytes tools "/tmp/tmpb.html" "<html>Hello</html>" = None /\
  "out.pdf" <> "/tmp/tmpb.html" /\
  generate_pdf tools generator "sample.html" variables (Some "out.pdf") None disk
    = (Return "out.pdf",
       set_files (<["out.pdf" := "%PDF <html>Hello</html>"]> (files disk)) fs1).
Proof.
  intros variables fs1.
  assert (Hrender : render_html tools generator "sample.html" variables disk
                    = (Return "<html>Hello</html>", disk)) by (vm_compute; reflexivity).
  assert (Hname : free_name tools ".html" TMP_MAX disk = (Some "/tmp/tmpb.html", fs1))
    by (vm_compute; reflexivity).
  assert (Hne : "out.pdf" <> "/tmp/tmpb.html") by discriminate.
  split; [exact Hrender |]. split; [exact Hname |].
  split; [reflexivity |]. split; [reflexivity |]. split; [exact Hne |].
  exact (generate_pdf_converts_the_rendered_html tools generator "sample.html" variables
           "out.pdf" None disk fs1 "<html>Hello</html>" "<html>Hello</html>"
           "/tmp/tmpb.html" Hrender Hname eq_refl eq_refl Hne).
Defined.

(** HTML that cannot be encoded: the [UnicodeEncodeError] leaves the
    empty temporary file behind. *)
Example unencodable_html_leaves_the_temp_file :
  let '(r, fs') :=
    generate_pdf tools generator "surrogate.html" [("title", "Sample")]
      (Some "out.pdf") None disk in
  r = Raise (exc UnicodeEncodeError
               "'utf-8' codec can't encode character: surrogates not allowed") /\
  files disk !! "/tmp/tmpb.html" = None /\
  files fs' !! "/tmp/tmpb.html" = Some "" /\
  files fs' !! "out.pdf" = None.
Proof. vm_compute. repeat split; reflexivity. Qed.

End PdfGeneratorExtrasOnDemo.

(** ** The wrapper of the Assistants API *)
Section WrapperExtras.
Import Assistants Wrapper.
Variable S : Sdk.

(** A logger just constructed agrees with the disk, when the log was
    absent or well-formed. *)
Lemma init_log_ok (path : string) (d : Disk) :
  match files d !! path with
  | None => True
  | Some rows => well_formed rows
  end ->
  let '(logger, d') := Assistants.__init__ path d in
  csv_file_path logger = path /\ log_ok logger d' /\ deleted d' = deleted d.
Proof.
  unfold Assistants.__init__, log_ok.
  destruct (files d !! path) as [rows |] eqn:Hfile; intros Hwf; cbn.
  - destruct Hwf as (body & -> & Hbody).
    split; [reflexivity |]. split; [| reflexivity].
    split; [reflexivity |]. exists body. split; [exact Hfile | exact Hbody].
  - split; [reflexivity |]. split; [| reflexivity].
    left. split; [reflexivity | apply lookup_insert_eq].
Qed.

(** Under that agreement [log_id] returns, keeps the agreement and the
    ids already logged, and the object's id is in the log afterwards. *)
Lemma log_id_ok (R : Remote) (object : ApiObject) (logger : IDLogger) (d : Disk) :
  log_ok logger d ->
  exists (logger' : IDLogger) (d' : Disk),
    Assistants.log_id R object logger d = (Done tt, (logger', d')) /\
    csv_file_path logger' = csv_file_path logger /\
    log_ok logger' d' /\
    id object ∈ ids_on_disk (csv_file_path logger) d' /\
    (forall i, i ∈ ids_on_disk (csv_file_path logger) d ->
               i ∈ ids_on_disk (csv_file_path logger) d').
Proof.
  destruct logger as [path new buf]. unfold log_ok, ids_on_disk. cbn [csv_file_path is_new unflushed].
  destruct new.
  - intros Hok. unfold Assistants.log_id, write_row, flush, write_file.
    cbn [is_new negb csv_file_path unflushed files ticks deleted].
    eexists _, _. split; [reflexivity |]. cbn [csv_file_path is_new unflushed files].
    split; [reflexivity |]. rewrite lookup_insert_eq. cbn [default].
    destruct Hok as [[-> Hfile] | [-> (body & Hfile)]]; rewrite Hfile; cbn [default app].
    + split; [right; split; [reflexivity | eexists; reflexivity] |].
      split; [apply elem_of_cons; left; reflexivity |].
      intros i Hi. inversion Hi.
    + unfold Datatypes.id.
      change ((HEADER :: body) ++ [[now R (ticks d); class_name object; id object]])%list
        with (HEADER :: body ++ [[now R (ticks d); class_name object; id object]])%list.
      split; [right; split; [reflexivity | eexists; reflexivity] |].
      rewrite logged_ids_app.
      split; [apply elem_of_app; right; apply list_elem_of_singleton; reflexivity |].
      intros i Hi. apply elem_of_app. left. exact Hi.
  - intros [-> (body & Hfile & Hbody)].
    rewrite (log_id_existing R object {| csv_file_path := path; is_new := false; unflushed := [] |}
               d body eq_refl eq_refl Hfile Hbody).
    cbn [csv_file_path]. case_bool_decide as Hin.
    + eexists _, _. split; [reflexivity |]. split; [reflexivity |].
      split; [split; [reflexivity |]; exists body; split; assumption |].
      rewrite Hfile. cbn [default]. split; [exact Hin | auto].
    + eexists _, _. split; [reflexivity |]. split; [reflexivity |].
      cbn [csv_file_path is_new unflushed files]. rewrite lookup_insert_eq, Hfile.
      cbn [default]. unfold Datatypes.id.
      split.
      { split; [reflexivity |]. eexists. split; [reflexivity |].
        apply Forall_app. split; [exact Hbody | repeat constructor]. }
      rewrite logged_ids_app.
      split; [apply elem_of_app; right; apply list_elem_of_singleton; reflexivity |].
      intros i Hi. apply elem_of_app. left. exact Hi.
Qed.

(** The wrapper's [log_id] under the invariant of the logger. *)
Lemma wrapper_log_id (object : ApiObject) (self : OpenAIAssistant) (w : AWorld) :
  csv_file_path (_id_logger self) = id_log_file S ->
  log_ok (_id_logger self) (disk w) ->
  exists (logger' : IDLogger) (d' : Disk),
    Wrapper.log_id S object (self, w)
    = (Done tt, (set_id_logger logger' self, set_disk d' w)) /\
    csv_file_path logger' = id_log_file S /\
    log_ok logger' d' /\
    id object ∈ ids_on_disk (id_log_file S) d' /\
    (forall i, i ∈ ids_on_disk (id_log_file S) (disk w) ->
               i ∈ ids_on_disk (id_log_file S) d').
Proof.
  intros Hpath Hok.
  destruct (log_id_ok (remote S) object _ _ Hok)
    as (logger' & d' & Hrun & Hpath' & Hok' & Hin & Hmono).
  rewrite Hpath in Hpath', Hin, Hmono.
  exists logger', d'. unfold Wrapper.log_id. rewrite Hrun.
  split; [reflexivity |]. split; [exact Hpath' |]. split; [exact Hok' |].
  split; [exact Hin | exact Hmono].
Qed.

Ltac wstep :=
  unfold forget, last_item, wbind, request, request_list, modify_self, logger_info,
    done, fail, get_self, id_of;
  cbn [fst snd].

(** Every operation keeps the invariant and the assistant, whether it
    returns or raises. *)
Lemma run_op_ok (op : Op) (self : OpenAIAssistant) (w : AWorld) :
  wrapper_ok S self w ->
  wrapper_ok S (fst (snd (run_op S op (self, w)))) (snd (snd (run_op S op (self, w)))) /\
  _assistant (fst (snd (run_op S op (self, w)))) = _assistant self.
Proof.
  intros (Hpath & Hok & Hheld).
  assert (Hsame : forall w', disk w' = disk w -> wrapper_ok S self w').
  { intros w' Hd. unfold wrapper_ok. rewrite Hd. split; [exact Hpath |].
    split; [exact Hok | exact Hheld]. }
  destruct op as [file_path | file_id | thread_id | message role | poll |];
    cbn [run_op].
  - (* upload_file *)
    unfold upload_file. destruct (local_file S file_path) as [content |].
    2: { wstep. split; [apply Hsame; reflexivity | reflexivity]. }
    wstep. destruct (returns S (calls w) (FilesCreate content)) as [i | e].
    2: { wstep. split; [apply Hsame; reflexivity | reflexivity]. }
    wstep.
    set (file := {| class_name := "FileObject"; id := i |}).
    destruct (wrapper_log_id file (append_file file self) (record_call (FilesCreate content) w)
                Hpath Hok) as (logger' & d' & Hrun & Hpath' & Hok' & Hin & Hmono).
    rewrite Hrun. wstep.
    split; [| reflexivity].
    split; [exact Hpath' |]. split; [exact Hok' |].
    intros object Hobj. unfold held in Hobj. cbn in Hobj.
    rewrite !elem_of_app in Hobj.
    destruct Hobj as [Ho | [Ho | [Ho | Ho]]].
    + apply Hmono, Hheld. unfold held. rewrite !elem_of_app. auto.
    + apply Hmono, Hheld. unfold held. rewrite !elem_of_app. auto.
    + apply Hmono, Hheld. unfold held. rewrite !elem_of_app. auto.
    + apply list_elem_of_singleton in Ho. subst object. exact Hin.
  - (* load_file *)
    unfold load_file. wstep.
    destruct (returns S (calls w) (FilesRetrieve file_id));
      wstep; (split; [apply Hsame; reflexivity | reflexivity]).
  - (* create_or_load_thread *)
    unfold create_or_load_thread.
    assert (Hshape : forall (c : ApiCall) (line : string -> string),
              let step :=
                (t <- (i <- request S c;; done {| class_name := "Thread"; id := i |});;
                 modify_self (set_thread t);;
                 logger_info (line (id t)))%wrapper in
              wrapper_ok S (fst (snd ((step;; log_thread S)%wrapper (self, w))))
                           (snd (snd ((step;; log_thread S)%wrapper (self, w)))) /\
              _assistant (fst (snd ((step;; log_thread S)%wrapper (self, w))))
              = _assistant self).
    { intros c line step. subst step. wstep.
      destruct (returns S (calls w) c) as [i | e].
      2: { wstep. split; [apply Hsame; reflexivity | reflexivity]. }
      wstep. unfold log_thread. wstep. cbn [set_thread _thread].
      set (t := {| class_name := "Thread"; id := i |}).
      destruct (wrapper_log_id t (set_thread t self)
                  (record_info (line (id t)) (record_call c w)) Hpath Hok)
        as (logger' & d' & Hrun & Hpath' & Hok' & Hin & Hmono).
      rewrite Hrun. wstep.
      split; [| reflexivity].
      split; [exact Hpath' |]. split; [exact Hok' |].
      intros object Hobj. unfold held in Hobj. cbn in Hobj.
      rewrite !elem_of_app in Hobj.
      destruct Hobj as [Ho | Ho]; [| apply elem_of_cons in Ho as [-> | Ho]].
      + apply Hmono, Hheld. unfold held. rewrite !elem_of_app. auto.
      + exact Hin.
      + apply Hmono, Hheld. unfold held. rewrite !elem_of_app. auto. }
    unfold load_thread, create_thread.
    destruct (truthy thread_id).
    + apply (Hshape (ThreadsRetrieve (default "" thread_id))
               (fun i => "Loaded thread: " +:+ i)).
    + apply (Hshape ThreadsCreate (fun i => "Created thread: " +:+ i)).
  - (* add_message *)
    unfold add_message. wstep.
    destruct (_thread self) as [t |]; wstep.
    2: { split; [apply Hsame; reflexivity | reflexivity]. }
    destruct (returns S (calls w) _);
      wstep; (split; [apply Hsame; reflexivity | reflexivity]).
  - (* run_thread_with_polling *)
    unfold run_thread_with_polling, get_all_messages. wstep.
    destruct (_thread self) as [t |] eqn:Ht; wstep.
    2: { split; [apply Hsame; reflexivity | reflexivity]. }
    destruct (_assistant self) as [a |] eqn:Ha; wstep.
    2: { split; [apply Hsame; reflexivity | exact Ha]. }
    destruct (returns S _ _) as [run | e]; wstep.
    2: { split; [apply Hsame; reflexivity | exact Ha]. }
    rewrite Ht. wstep.
    destruct (returns_list S _ _) as [data | e]; wstep.
    2: { split; [apply Hsame; reflexivity | exact Ha]. }
    destruct (last (reverse data));
      wstep; (split; [apply Hsame; reflexivity | exact Ha]).
  - (* get_all_messages *)
    unfold get_all_messages. wstep.
    destruct (_thread self) as [t |]; wstep.
    2: { split; [apply Hsame; reflexivity | reflexivity]. }
    destruct (returns_list S _ _);
      wstep; (split; [apply Hsame; reflexivity | reflexivity]).
Qed.

(** A wrapper that was constructed holds an assistant, no thread and no
    files, and satisfies the invariant when the log was absent or
    well-formed. *)
Lemma __init___wrapper_ok (name system_instructions : option string) (model : string)
    (assistant_id : option string) (tools : option (list string))
    (w w1 : AWorld) (self : OpenAIAssistant) :
  Wrapper.__init__ S name system_instructions model assistant_id tools w = (Done self, w1) ->
  (exists a, _assistant self = Some a) /\ _thread self = None /\ _files self = [] /\
  (match files (disk w) !! id_log_file S with
   | None => True
   | Some rows => well_formed rows
   end -> wrapper_ok S self w1).
Proof.
  unfold Wrapper.__init__. destruct (client_error (remote S)); [discriminate |].
  pose proof (init_log_ok (id_log_file S) (disk w)) as Hinit.
  destruct (Assistants.__init__ (id_log_file S) (disk w)) as [logger d].
  set (self0 := {| _assistant := None; _thread := None; _files := [];
                   _id_logger := logger |}).
  assert (Hshape : forall c : ApiCall,
            let run :=
              (a <- (i <- request S c;; done {| class_name := "Assistant"; id := i |});;
               modify_self (set_assistant a);;
               Wrapper.log_id S a)%wrapper (self0, set_disk d w) in
            fst run = Done tt ->
            (exists a, _assistant (fst (snd run)) = Some a) /\
            _thread (fst (snd run)) = None /\ _files (fst (snd run)) = [] /\
            (match files (disk w) !! id_log_file S with
             | None => True
             | Some rows => well_formed rows
             end -> wrapper_ok S (fst (snd run)) (snd (snd run)))).
  { intros c run. subst run. wstep.
    cbn [calls set_disk].
    destruct (returns S (calls w) c) as [i | e]; wstep; [| intros H; discriminate H].
    set (a := {| class_name := "Assistant"; id := i |}).
    unfold Wrapper.log_id.
    destruct (Assistants.log_id (remote S) a _ _) as [r [logger' d']] eqn:Hlog.
    cbn [fst snd set_id_logger set_assistant _assistant _thread _files].
    intros _. split; [eauto |]. split; [reflexivity |]. split; [reflexivity |].
    intros Hwf. destruct (Hinit Hwf) as (Hpath & Hok & _).
    cbn [set_assistant _id_logger self0 disk set_disk record_call] in Hlog.
    destruct (log_id_ok (remote S) a logger d Hok)
      as (l2 & d2 & Hrun & Hpath2 & Hok2 & Hin & _).
    rewrite Hrun in Hlog. injection Hlog as <- <- <-.
    rewrite Hpath in Hpath2, Hin.
    split; [exact Hpath2 |]. split; [exact Hok2 |].
    intros object Hobj. unfold held in Hobj. cbn in Hobj.
    apply list_elem_of_singleton in Hobj. subst object. exact Hin. }
  unfold load_assistant, create_assistant.
  destruct (truthy assistant_id).
  - specialize (Hshape (AssistantsRetrieve (default "" assistant_id))).
    cbv zeta in Hshape.
    destruct ((a <- (i <- request S _;; done _);; modify_self (set_assistant a);;
               Wrapper.log_id S a)%wrapper (self0, set_disk d w))
      as [[u | e] [self' w']]; [| discriminate].
    intros [= <- <-]. apply Hshape. destruct u. reflexivity.
  - specialize (Hshape (AssistantsCreate name system_instructions model tools)).
    cbv zeta in Hshape.
    destruct ((a <- (i <- request S _;; done _);; modify_self (set_assistant a);;
               Wrapper.log_id S a)%wrapper (self0, set_disk d w))
      as [[u | e] [self' w']]; [| discriminate].
    intros [= <- <-]. apply Hshape. destruct u. reflexivity.
Qed.

Lemma run_ops_ok (ops : list Op) (self : OpenAIAssistant) (w : AWorld) :
  wrapper_ok S self w ->
  wrapper_ok S (fst (run_ops S ops (self, w))) (snd (run_ops S ops (self, w))) /\
  _assistant (fst (run_ops S ops (self, w))) = _assistant self.
Proof.
  revert self w. induction ops as [| op rest IH]; intros self w Hok; cbn [run_ops].
  - split; [exact Hok | reflexivity].
  - destruct (run_op_ok op self w Hok) as [Hok1 Ha1].
    destruct (snd (run_op S op (self, w))) as [self1 w1]. cbn [fst snd] in Hok1, Ha1.
    destruct (IH self1 w1 Hok1) as [Hok2 Ha2].
    split; [exact Hok2 | rewrite Ha2; exact Ha1].
Qed.

(** X23.  A wrapper logs what it holds.  Constructed while the id log is
    absent or well-formed, and used for any sequence of operations, each
    of which may return or raise, the wrapper still holds the assistant it
    was constructed with, and the id of every object it holds (the
    assistant, the current thread, the uploaded files) is in the log on
    disk. *)
Theorem wrapper_logs_what_it_holds (name system_instructions : option string)
    (model : string) (assistant_id : option string) (tools : option (list string))
    (w w1 : AWorld) (self : OpenAIAssistant) (ops : list Op) :
  match files (disk w) !! id_log_file S with
  | None => True
  | Some rows => well_formed rows
  end ->
  Wrapper.__init__ S name system_instructions model assistant_id tools w = (Done self, w1) ->
  let '(self', w') := run_ops S ops (self, w1) in
  _assistant self' = _assistant self /\
  (exists a, _assistant self = Some a) /\
  forall object, object ∈ held self' ->
    id object ∈ ids_on_disk (id_log_file S) (disk w').
Proof.
  intros Hwf Hinit.
  destruct (__init___wrapper_ok _ _ _ _ _ _ _ _ Hinit) as (Ha & _ & _ & Hok).
  specialize (Hok Hwf).
  destruct (run_ops_ok ops self w1 Hok) as [(_ & _ & Hheld) Hsame].
  destruct (run_ops S ops (self, w1)) as [self' w']. cbn [fst snd] in Hheld, Hsame.
  split; [exact Hsame |]. split; [exact Ha | exact Hheld].
Qed.

(** X24.  The methods that work on the current thread need one: on a
    wrapper just constructed, [add_message], [get_all_messages] and
    [run_thread_with_polling] raise AttributeError, and neither call the
    service nor change anything. *)
Theorem thread_methods_need_a_thread (name system_instructions : option string)
    (model : string) (assistant_id : option string) (tools : option (list string))
    (w w1 : AWorld) (self : OpenAIAssistant) (message role : string)
    (poll_interval_ms : Z) :
  Wrapper.__init__ S name system_instructions model assistant_id tools w = (Done self, w1) ->
  let e := Other (exc AttributeError "'NoneType' object has no attribute 'id'") in
  add_message S message role (self, w1) = (Failed e, (self, w1)) /\
  get_all_messages S (self, w1) = (Failed e, (self, w1)) /\
  run_thread_with_polling S poll_interval_ms (self, w1) = (Failed e, (self, w1)).
Proof.
  intros Hinit e.
  destruct (__init___wrapper_ok _ _ _ _ _ _ _ _ Hinit) as (_ & Hthread & _ & _).
  unfold add_message, get_all_messages, run_thread_with_polling. wstep.
  rewrite Hthread. split; [reflexivity |]. split; reflexivity.
Qed.

(** X25.  [run_thread_with_polling] on a wrapper with a thread, when the run
    and the listing of the thread's messages succeed: the message it
    returns with the run is the first of the listing, since the listing
    is reversed and its last item taken; with an empty listing it raises
    IndexError after the run was made.  Two calls are made, and nothing
    is logged or deleted. *)
Theorem run_returns_the_first_listed_message (self : OpenAIAssistant) (w : AWorld)
    (t a : ApiObject) (poll_interval_ms : Z) (run : string) (data : list string) :
  _thread self = Some t ->
  _assistant self = Some a ->
  let create := RunsCreateAndPoll (id t) (id a) poll_interval_ms in
  returns S (calls w) create = Return run ->
  returns_list S (calls w ++ [create]) (MessagesList (id t)) = Return data ->
  exists w' : AWorld,
    run_thread_with_polling S poll_interval_ms (self, w)
    = (match data with
       | m :: _ => Done (run, m)
       | [] => Failed (Other (exc IndexError "list index out of range"))
       end, (self, w')) /\
    calls w' = (calls w ++ [create; MessagesList (id t)])%list /\
    disk w' = disk w.
Proof.
  intros Ht Ha create Hrun Hlist. subst create.
  unfold run_thread_with_polling, get_all_messages. wstep.
  rewrite Ht. wstep. rewrite Ha. wstep.
  cbn [record_info record_call calls]. rewrite Hrun. wstep. rewrite Ht. wstep.
  cbn [record_info record_call calls]. rewrite Hlist. wstep.
  rewrite last_reverse.
  eexists. split.
  - destruct data as [| m rest]; cbn [head]; reflexivity.
  - cbn. rewrite <- app_assoc. split; reflexivity.
Qed.

End WrapperExtras.

Section WrapperExtrasOnDemo.
Import Assistants AssistantsDemo Wrapper WrapperDemo.

Lemma wrapper_logs_what_it_holds_witness :
  let ops := [CreateOrLoadThread None; UploadFile "cv.pdf"; UploadFile "missing.pdf";
              CreateOrLoadThread (Some "thread_7")] in
  Wrapper.__init__ sdk (Some "cv") None "gpt-4o" None None world
    = (Done constructed, world_after_init) /\
  let '(self', w') := run_ops sdk ops (constructed, world_after_init) in
  forall object, object ∈ held self' -> id object ∈ ids_on_disk log_path (disk w').
Proof.
  intros ops.
  assert (Hinit : Wrapper.__init__ sdk (Some "cv") None "gpt-4o" None None world
                  = (Done constructed, world_after_init)) by (vm_compute; reflexivity).
  split; [exact Hinit |].
  pose proof (wrapper_logs_what_it_holds sdk (Some "cv") None "gpt-4o" None None
                world world_after_init constructed ops I Hinit) as H.
  destruct (run_ops sdk ops (constructed, world_after_init)) as [self' w'].
  destruct H as (_ & _ & H). exact H.
Defined.

Lemma thread_methods_need_a_thread_witness :
  Wrapper.__init__ sdk (Some "cv") None "gpt-4o" None None world
    = (Done constructed, world_after_init) /\
  run_thread_with_polling sdk 1000 (constructed, world_after_init)
    = (Failed (Other (exc AttributeError "'NoneType' object has no attribute 'id'")),
       (constructed, world_after_init)).
Proof.
  assert (Hinit : Wrapper.__init__ sdk (Some "cv") None "gpt-4o" None None world
                  = (Done constructed, world_after_init)) by (vm_compute; reflexivity).
  split; [exact Hinit |].
  destruct (thread_methods_need_a_thread sdk (Some "cv") None "gpt-4o" None None
              world world_after_init constructed "Hello" "user" 1000 Hinit)
    as (_ & _ & H).
  exact H.
Defined.

Lemma run_returns_the_first_listed_message_witness :
  let self := set_thread thread constructed in
  exists w' : AWorld,
    run_thread_with_polling sdk 1000 (self, world_after_init)
    = (Done ("run_new", "msg_2"), (self, w')) /\
    length (calls w') = 3%nat.
Proof.
  intros self.
  destruct (run_returns_the_first_listed_message sdk self world_after_init
              thread {| class_name := "Assistant"; id := "asst_new" |} 1000
              "run_new" ["msg_2"; "msg_1"] eq_refl eq_refl eq_refl eq_refl)
    as (w' & Hrun & Hcalls & _).
  exists w'. split; [exact Hrun |]. rewrite Hcalls. reflexivity.
Defined.

End WrapperExtrasOnDemo.
